(** * Kantek: blacklist store, ban list and automatic enforcement handlers

    A shallow embedding of
      - [database/arango.py]                       (module [Arango]),
      - [plugins/autobahn/autobahn_mgr.py]         (module [AutobahnMgr]),
      - [plugins/autobahn/automatic/grenzschutz.py] and
        [plugins/autobahn/automatic/kriminalamt.py] (module [Automatic]),
      - [plugins/automatic/update_groups.py]       (module [UpdateGroups]),
    with the Python primitives they use (module [Py]) and the tag resolver
    (module [Tags]), followed by the vocabulary of the properties (module
    [Notions]) and the properties themselves.

    Conventions.  A Python [str] is kept as its UTF-8 text.  Splitting,
    replacing and prefix tests are on ASCII characters and act on the bytes;
    [isdigit] and [int] read the characters back.  Integers are unbounded, as
    Python's are.  The document database and the chat platform are outside the
    repository: a collection is modelled by the documents it holds and the
    keys the store will hand out, a platform call by the answer it gives (a
    field of an environment record) and, when it changes something, by an
    entry in the handler's trace. *)

From Stdlib Require Import ZArith String Ascii List DecimalString Lia.
From Stdlib Require Import DecimalPos DecimalZ.
From stdpp Require Import gmap strings list.

Open Scope string_scope.
Open Scope list_scope.

(** ** Python primitives *)
Module Py.

(** The exceptions that can leave one of the modelled functions. *)
Inductive Exn :=
| IndexError
| KeyError
| ValueError
| TypeError
| AttributeError
| UnboundLocalError
| DocumentNotFoundError
| InvalidDocument.

(** A call either returns or raises. *)
Inductive result (A : Type) :=
| Ret (a : A)
| Raise (e : Exn).
Arguments Ret {A} a.
Arguments Raise {A} e.

(** [str(n)] for an [int]. *)
Definition str_of_Z (z : Z) : string := NilZero.string_of_int (Z.to_int z).

(** [s.startswith(p)] *)
Definition startswith (s p : string) : bool := String.prefix p s.

(** [s[n:]] *)
Fixpoint drop_str (n : nat) (s : string) : string :=
  match n, s with
  | O, _ => s
  | S n', String _ s' => drop_str n' s'
  | S _, EmptyString => EmptyString
  end.

(** [s[:n]] *)
Fixpoint take_str (n : nat) (s : string) : string :=
  match n, s with
  | O, _ => EmptyString
  | S n', String c s' => String c (take_str n' s')
  | S _, EmptyString => EmptyString
  end.

(** [s.split(c)] for a one-character separator, and [re.split] on a
    character class: the pieces between separators, empty pieces kept. *)
Fixpoint split_on (sep : ascii -> bool) (s : string) : list string :=
  match s with
  | EmptyString => [EmptyString]
  | String c s' =>
      if sep c then EmptyString :: split_on sep s'
      else match split_on sep s' with
           | [] => [String c EmptyString]
           | w :: ws => String c w :: ws
           end
  end.

Definition is_char (c : ascii) : ascii -> bool := Ascii.eqb c.

(** [new] after every character of [s]: the tail of [s.replace('', new)]. *)
Fixpoint interleave (new s : string) : string :=
  match s with
  | EmptyString => EmptyString
  | String c s' => String c (new +:+ interleave new s')
  end.

(** Left-to-right, non-overlapping replacement; [fuel] bounds the number of
    positions still to visit. *)
Fixpoint replace_go (fuel : nat) (old new s : string) : string :=
  match fuel with
  | O => s
  | S fuel' =>
      match s with
      | EmptyString => EmptyString
      | String c s' =>
          if String.prefix old s
          then new +:+ replace_go fuel' old new (drop_str (String.length old) s)
          else String c (replace_go fuel' old new s')
      end
  end.

(** [s.replace(old, new)] *)
Definition str_replace (s old new : string) : string :=
  match old with
  | EmptyString => new +:+ interleave new s
  | _ => replace_go (String.length s) old new s
  end.

(** [s.lower()] on the ASCII letters; the other characters stay as they are
    (Python also lowers the letters outside ASCII). *)
Definition lower_ascii (c : ascii) : ascii :=
  let n := nat_of_ascii c in
  if (65 <=? n)%nat && (n <=? 90)%nat then ascii_of_nat (n + 32) else c.

Fixpoint lower (s : string) : string :=
  match s with
  | EmptyString => EmptyString
  | String c s' => String (lower_ascii c) (lower s')
  end.

(** The characters of a [str], read back from its UTF-8 text; [None] stands
    for a byte that begins no well-formed character. *)
Definition continuation (c : ascii) : option N :=
  let b := N_of_ascii c in
  if (128 <=? b)%N && (b <? 192)%N then Some (b - 128)%N else None.

(** A character is well formed when it is written in the fewest bytes, is no
    surrogate and is not above U+10FFFF. *)
Definition scalar (least cp : N) : option N :=
  if (least <=? cp)%N && (cp <=? 1114111)%N &&
     negb ((55296 <=? cp)%N && (cp <=? 57343)%N)
  then Some cp else None.

Fixpoint code_points (s : string) : list (option N) :=
  match s with
  | EmptyString => []
  | String c0 s0 =>
      let b0 := N_of_ascii c0 in
      if (b0 <? 128)%N then Some b0 :: code_points s0 else
      match s0 with
      | String c1 s1 =>
          match continuation c1 with
          | Some b1 =>
              if (192 <=? b0)%N && (b0 <? 224)%N
              then scalar 128 (64 * (b0 - 192) + b1) :: code_points s1 else
              match s1 with
              | String c2 s2 =>
                  match continuation c2 with
                  | Some b2 =>
                      if (224 <=? b0)%N && (b0 <? 240)%N
                      then scalar 2048 (4096 * (b0 - 224) + 64 * b1 + b2)
                           :: code_points s2 else
                      match s2 with
                      | String c3 s3 =>
                          match continuation c3 with
                          | Some b3 =>
                              if (240 <=? b0)%N && (b0 <? 248)%N
                              then scalar 65536 (262144 * (b0 - 240) + 4096 * b1
                                                 + 64 * b2 + b3)
                                   :: code_points s3
                              else None :: code_points s0
                          | None => None :: code_points s0
                          end
                      | EmptyString => None :: code_points s0
                      end
                  | None => None :: code_points s0
                  end
              | EmptyString => None :: code_points s0
              end
          | None => None :: code_points s0
          end
      | EmptyString => [None]
      end
  end.

(** The decimal digits of Unicode 14 (category Nd), as ranges of code points:
    every range starts at a zero and runs through whole decades. *)
Definition decimal_digits : list (N * N) :=
  [
    (48, 57); (1632, 1641); (1776, 1785); (1984, 1993); (2406, 2415);
    (2534, 2543); (2662, 2671); (2790, 2799); (2918, 2927); (3046, 3055);
    (3174, 3183); (3302, 3311); (3430, 3439); (3558, 3567); (3664, 3673);
    (3792, 3801); (3872, 3881); (4160, 4169); (4240, 4249); (6112, 6121);
    (6160, 6169); (6470, 6479); (6608, 6617); (6784, 6793); (6800, 6809);
    (6992, 7001); (7088, 7097); (7232, 7241); (7248, 7257); (42528, 42537);
    (43216, 43225); (43264, 43273); (43472, 43481); (43504, 43513);
    (43600, 43609); (44016, 44025); (65296, 65305); (66720, 66729);
    (68912, 68921); (69734, 69743); (69872, 69881); (69942, 69951);
    (70096, 70105); (70384, 70393); (70736, 70745); (70864, 70873);
    (71248, 71257); (71360, 71369); (71472, 71481); (71904, 71913);
    (72016, 72025); (72784, 72793); (73040, 73049); (73120, 73129);
    (92768, 92777); (92864, 92873); (93008, 93017); (120782, 120831);
    (123200, 123209); (123632, 123641); (125264, 125273); (130032, 130041)
  ]%N.

(** The other characters [str.isdigit] accepts (superscripts, subscripts,
    circled digits and the like): digits that [int] does not read. *)
Definition other_digits : list (N * N) :=
  [
    (178, 179); (185, 185); (4969, 4977); (6618, 6618); (8304, 8304);
    (8308, 8313); (8320, 8329); (9312, 9320); (9332, 9340); (9352, 9360);
    (9450, 9450); (9461, 9469); (9471, 9471); (10102, 10110); (10112, 10120);
    (10122, 10130); (68160, 68163); (69216, 69224); (69714, 69722);
    (127232, 127242)
  ]%N.

Definition within (cp : N) (range : N * N) : bool :=
  (fst range <=? cp)%N && (cp <=? snd range)%N.

(** The value of a decimal digit. *)
Definition decimal (cp : N) : option Z :=
  match List.find (within cp) decimal_digits with
  | Some (zero, _) => Some (Z.of_N ((cp - zero) mod 10))
  | None => None
  end.

Definition is_digit_char (c : option N) : bool :=
  match c with
  | Some cp => bool_decide (is_Some (decimal cp)) || existsb (within cp) other_digits
  | None => false
  end.

(** [s.isdigit()]: non-empty and only digits. *)
Definition isdigit (s : string) : bool :=
  match code_points s with
  | [] => false
  | cs => forallb is_digit_char cs
  end.

Fixpoint int_digits (acc : Z) (cs : list (option N)) : result Z :=
  match cs with
  | [] => Ret acc
  | Some cp :: rest =>
      match decimal cp with
      | Some d => int_digits (10 * acc + d)%Z rest
      | None => Raise ValueError
      end
  | None :: _ => Raise ValueError
  end.

(** [int(s)] for a string that [isdigit] accepts, so without sign, blank or
    underscore: the number its decimal digits spell, and [ValueError] when
    one of its digits is not a decimal digit. *)
Definition int_of_str (s : string) : result Z :=
  match code_points s with
  | [] => Raise ValueError
  | cs => int_digits 0%Z cs
  end.

(** [Counter(s).get(c, 0)] *)
Fixpoint count_char (c : ascii) (s : string) : nat :=
  match s with
  | EmptyString => O
  | String a s' => (if Ascii.eqb a c then 1 else 0) + count_char c s'
  end.

(** [s.rjust(width)] *)
Definition rjust (width : nat) (s : string) : string :=
  String.concat "" (replicate (width - String.length s) " ") +:+ s.

(** [d.get(k)] for a dictionary with string keys; a [None] key is never
    present. *)
Definition dict_get {V : Type} (d : gmap string V) (k : option string) : option V :=
  match k with
  | Some k' => d !! k'
  | None => None
  end.

(** [d[k]] *)
Definition dict_item {V : Type} (d : gmap string V) (k : option string) : result V :=
  match dict_get d k with
  | Some v => Ret v
  | None => Raise KeyError
  end.

(** [x in s] for strings: [x] occurs in [s]. *)
Definition contains (s x : string) : Prop :=
  exists pre post : string, s = pre +:+ x +:+ post.

End Py.

(** ** database/arango.py *)
Module Arango.
Import Py.

(** A value of a chat's [named_tags]: a string, an integer, a range, or the
    presence marker of a plain tag. *)
Inductive TagValue :=
| TagStr (s : string)
| TagInt (z : Z)
| TagBool (b : bool)
| TagRange (lo hi : Z).

#[export] Instance TagValue_eq_dec : EqDecision TagValue.
Proof. solve_decision. Defined.

(** A document of the [Chats] collection. *)
Record ChatDoc := {
  chat_key : string;
  chat_id : Z;
  tags : list string;
  named_tags : gmap string TagValue
}.

(** [Chats.add_chat]: the key is free, the document is created and returned;
    the key is taken, the store raises [CreationError] and the result is
    [None]. *)
Definition add_chat (id : Z) (chats : gmap string ChatDoc)
  : gmap string ChatDoc * option ChatDoc :=
  let data := {| chat_key := str_of_Z id;
                 chat_id := id;
                 tags := [];
                 named_tags := ∅ |} in
  match chats !! chat_key data with
  | None => (<[chat_key data := data]> chats, Some data)
  | Some _ => (chats, None)
  end.

(** [Chats.get_chat]: [self[chat_id]], and [add_chat] on
    [DocumentNotFoundError]. *)
Definition get_chat (id : Z) (chats : gmap string ChatDoc)
  : gmap string ChatDoc * option ChatDoc :=
  match chats !! str_of_Z id with
  | Some doc => (chats, Some doc)
  | None => add_chat id chats
  end.

(** What the [string] field of a blacklist document holds: text, or the
    numeric id of a channel. *)
Inductive PyItem :=
| IStr (s : string)
| IInt (z : Z).

#[export] Instance PyItem_eq_dec : EqDecision PyItem.
Proof. solve_decision. Defined.

(** A blacklist document; [_key] is a number the store hands out. *)
Record BlacklistDoc := {
  bl_key : N;
  bl_string : PyItem
}.

(** [AutobahnBlacklist]: the documents of the collection.  The code never
    chooses a key: the store does, on every save.  Its choices are part of
    the collection's state: [bl_keys] are the keys the store hands out, in
    order, and [bl_saved] counts the saves so far. *)
Record AutobahnBlacklist := {
  bl_docs : list BlacklistDoc;
  bl_keys : nat -> N;
  bl_saved : nat
}.

(** [NotNull().validate(value)], the validator of the fields: it refuses
    [None] and the empty string. *)
Definition not_null (value : option PyItem) : bool :=
  match value with
  | None => false
  | Some (IStr s) => negb (s =? "")%string
  | Some (IInt _) => true
  end.

Definition matches (item : PyItem) (d : BlacklistDoc) : bool :=
  bool_decide (bl_string d = item).

(** [collection.fetchByExample({'string': item}, batchSize=1)] *)
Definition fetchByExample (c : AutobahnBlacklist) (item : PyItem) : list BlacklistDoc :=
  List.filter (matches item) (bl_docs c).

(** [collection.fetchFirstExample({'string': item})]: at most one document;
    a [None] value matches nothing. *)
Definition fetchFirstExample (c : AutobahnBlacklist) (item : option PyItem)
  : list BlacklistDoc :=
  match item with
  | Some it => take 1 (fetchByExample c it)
  | None => []
  end.

(** [collection.fetchAll()] *)
Definition fetchAll (c : AutobahnBlacklist) : list BlacklistDoc := bl_docs c.

(** [collection.fetchDocument(code)] *)
Definition fetchDocument (c : AutobahnBlacklist) (code : Z) : result BlacklistDoc :=
  match List.find (fun d => (Z.of_N (bl_key d) =? code)%Z) (bl_docs c) with
  | Some d => Ret d
  | None => Raise DocumentNotFoundError
  end.

(** [AutobahnBlacklist.add_item]: [doc.save()] validates the field [string]
    ([_validation: on_save]) and raises [InvalidDocument], which [add_item]
    does not catch, when the validator refuses the value; otherwise the
    document is stored under the next key of the store. *)
Definition add_item (item : PyItem) (c : AutobahnBlacklist)
  : AutobahnBlacklist * result (option BlacklistDoc) :=
  if not_null (Some item) then
    let doc := {| bl_key := bl_keys c (bl_saved c); bl_string := item |} in
    ({| bl_docs := bl_docs c ++ [doc];
        bl_keys := bl_keys c;
        bl_saved := S (bl_saved c) |}, Ret (Some doc))
  else (c, Raise InvalidDocument).

(** [doc.delete()] *)
Definition delete_doc (d : BlacklistDoc) (c : AutobahnBlacklist) : AutobahnBlacklist :=
  {| bl_docs := List.filter (fun d' => negb (bl_key d' =? bl_key d)%N) (bl_docs c);
     bl_keys := bl_keys c;
     bl_saved := bl_saved c |}.

(** The blacklist classes with their [hex_type]. *)
Inductive BlacklistClass :=
| AutobahnBioBlacklist
| AutobahnStringBlacklist
| AutobahnFilenameBlacklist
| AutobahnChannelBlacklist
| AutobahnDomainBlacklist
| AutobahnFileBlacklist
| AutobahnMHashBlacklist
| AutobahnTLDBlacklist.

Definition hex_type (k : BlacklistClass) : string :=
  match k with
  | AutobahnBioBlacklist => "0x0"
  | AutobahnStringBlacklist => "0x1"
  | AutobahnFilenameBlacklist => "0x2"
  | AutobahnChannelBlacklist => "0x3"
  | AutobahnDomainBlacklist => "0x4"
  | AutobahnFileBlacklist => "0x5"
  | AutobahnMHashBlacklist => "0x6"
  | AutobahnTLDBlacklist => "0x7"
  end.

(** A document of the [BanList] collection. *)
Record BanDoc := {
  ban_key : string;
  ban_id : Z;
  reason : string
}.




(** [BanList.get_user] *)
Definition get_user (uid : Z) (bans : gmap string BanDoc) : option BanDoc :=
  bans !! str_of_Z uid.

(** The collections [ArangoDB.__init__] binds to attributes. *)
Record ArangoDB := {
  chats : gmap string ChatDoc;
  ab_bio_blacklist : AutobahnBlacklist;
  ab_string_blacklist : AutobahnBlacklist;
  ab_channel_blacklist : AutobahnBlacklist;
  ab_domain_blacklist : AutobahnBlacklist;
  ab_file_blacklist : AutobahnBlacklist;
  ab_mhash_blacklist : AutobahnBlacklist;
  ab_tld_blacklist : AutobahnBlacklist;
  banlist : gmap string BanDoc
}.

(** The blacklist attributes of an [ArangoDB]: what a value of
    [ab_collection_map] refers to. *)
Inductive BlacklistRef :=
| Ref_bio
| Ref_string
| Ref_channel
| Ref_domain
| Ref_file
| Ref_mhash
| Ref_tld.

#[export] Instance BlacklistRef_eq_dec : EqDecision BlacklistRef.
Proof. solve_decision. Defined.

(** The class each attribute is declared with. *)
Definition ref_class (r : BlacklistRef) : BlacklistClass :=
  match r with
  | Ref_bio => AutobahnBioBlacklist
  | Ref_string => AutobahnStringBlacklist
  | Ref_channel => AutobahnChannelBlacklist
  | Ref_domain => AutobahnDomainBlacklist
  | Ref_file => AutobahnFileBlacklist
  | Ref_mhash => AutobahnMHashBlacklist
  | Ref_tld => AutobahnTLDBlacklist
  end.

(** [self.ab_collection_map] *)
Definition ab_collection_map : gmap string BlacklistRef :=
  list_to_map [
    ("0x0", Ref_bio);
    ("0x1", Ref_string);
    ("0x3", Ref_channel);
    ("0x4", Ref_domain);
    ("0x5", Ref_file);
    ("0x6", Ref_mhash);
    ("0x7", Ref_tld)
  ].

Definition collection (db : ArangoDB) (r : BlacklistRef) : AutobahnBlacklist :=
  match r with
  | Ref_bio => ab_bio_blacklist db
  | Ref_string => ab_string_blacklist db
  | Ref_channel => ab_channel_blacklist db
  | Ref_domain => ab_domain_blacklist db
  | Ref_file => ab_file_blacklist db
  | Ref_mhash => ab_mhash_blacklist db
  | Ref_tld => ab_tld_blacklist db
  end.

(** The database after the collection behind [r] has become [c]. *)
Definition with_collection (db : ArangoDB) (r : BlacklistRef) (c : AutobahnBlacklist)
  : ArangoDB :=
  let pick r' := if bool_decide (r' = r) then c else collection db r' in
  {| chats := chats db;
     ab_bio_blacklist := pick Ref_bio;
     ab_string_blacklist := pick Ref_string;
     ab_channel_blacklist := pick Ref_channel;
     ab_domain_blacklist := pick Ref_domain;
     ab_file_blacklist := pick Ref_file;
     ab_mhash_blacklist := pick Ref_mhash;
     ab_tld_blacklist := pick Ref_tld;
     banlist := banlist db |}.

(** The database after the [Chats] collection has become [cs]. *)
Definition with_chats (db : ArangoDB) (cs : gmap string ChatDoc) : ArangoDB :=
  {| chats := cs;
     ab_bio_blacklist := ab_bio_blacklist db;
     ab_string_blacklist := ab_string_blacklist db;
     ab_channel_blacklist := ab_channel_blacklist db;
     ab_domain_blacklist := ab_domain_blacklist db;
     ab_file_blacklist := ab_file_blacklist db;
     ab_mhash_blacklist := ab_mhash_blacklist db;
     ab_tld_blacklist := ab_tld_blacklist db;
     banlist := banlist db |}.

(** The [BanList] query of the guard: the documents whose key is [key]. *)
Definition banlist_query (db : ArangoDB) (key : string) : list BanDoc :=
  match banlist db !! key with
  | Some d => [d]
  | None => []
  end.

(** The key-range query of [query]: the documents whose key is in [keys]. *)
Definition docs_with_keys (c : AutobahnBlacklist) (keys : list string)
  : list BlacklistDoc :=
  List.filter (fun d => bool_decide (str_of_Z (Z.of_N (bl_key d)) ∈ keys)) (bl_docs c).

End Arango.


(** ** plugins/autobahn/autobahn_mgr.py *)
Module AutobahnMgr.
Import Py Arango.

Definition AUTOBAHN_TYPES : gmap string string :=
  list_to_map [
    ("bio", "0x0");
    ("string", "0x1");
    ("filename", "0x2");
    ("channel", "0x3");
    ("domain", "0x4");
    ("file", "0x5");
    ("mhash", "0x6");
    ("tld", "0x7")
  ].

(** A subcommand runs against the database, which it may change, and returns
    or raises. *)
Definition Cmd (A : Type) : Type := ArangoDB -> ArangoDB * result A.

#[export] Instance Cmd_ret : MRet Cmd := fun A a db => (db, Ret a).

#[export] Instance Cmd_bind : MBind Cmd := fun A B f m db =>
  match m db with
  | (db', Ret a) => f a db'
  | (db', Raise e) => (db', Raise e)
  end.

Definition raise {A : Type} (e : Exn) : Cmd A := fun db => (db, Raise e).

(** Read the collection behind an attribute. *)
Definition the_collection (r : BlacklistRef) : Cmd AutobahnBlacklist :=
  fun db => (db, Ret (collection db r)).

(** Replace the collection behind an attribute. *)
Definition put_collection (r : BlacklistRef) (c : AutobahnBlacklist) : Cmd unit :=
  fun db => (with_collection db r c, Ret tt).

(** The answer of [client.get_entity]: one of [GET_ENTITY_ERRORS], or an
    entity ([None] for a falsy one) with its id. *)
Inductive Entity :=
| EntityError
| EntityFound (id : option Z).

(** The platform client, [utils.helpers] and [utils.constants] as the
    subcommands use them. *)
Record Client := {
  resolve_invite_link : string -> option Z;
  get_entity : string -> Entity;
  resolve_url : string -> string;
  TELEGRAM_DOMAINS : list string
}.

(** The command message: whether it replies to a message, and the hash of the
    file and of the photo of that message ([None] without a file or photo).
    The progress texts [add] shows while it downloads and hashes are left
    out. *)
Record Message := {
  is_reply : bool;
  reply_file_hash : option string;
  reply_photo_hash : option string
}.

(** The three lists [add] fills. *)
Record Lists := {
  added_items : list PyItem;
  existing_items : list PyItem;
  skipped_items : list (option PyItem)
}.

Definition no_items : Lists :=
  {| added_items := []; existing_items := []; skipped_items := [] |}.

Definition add_added (x : PyItem) (l : Lists) : Lists :=
  {| added_items := added_items l ++ [x];
     existing_items := existing_items l;
     skipped_items := skipped_items l |}.

Definition add_existing (x : PyItem) (l : Lists) : Lists :=
  {| added_items := added_items l;
     existing_items := existing_items l ++ [x];
     skipped_items := skipped_items l |}.

Definition add_skipped (x : option PyItem) (l : Lists) : Lists :=
  {| added_items := added_items l;
     existing_items := existing_items l;
     skipped_items := skipped_items l ++ [x] |}.

(** What [add] answers: the error document, or the report; a section of the
    report is shown when its list (or the warning) is not empty. *)
Inductive Reply :=
| ErrorSection (text : string)
| Report (item_type : string) (l : Lists) (warn_message : string).

Definition sections (r : Reply) : list string :=
  match r with
  | ErrorSection _ => ["Error"]
  | Report _ l w =>
      (if added_items l is [] then [] else ["Added Items:"]) ++
      (if existing_items l is [] then [] else ["Existing Items:"]) ++
      (if skipped_items l is [] then [] else ["Skipped Items:"]) ++
      (if w is EmptyString then [] else ["Warning:"])
  end.

(** The [domain] parameter of a [tg://resolve] link: the loop over [params]. *)
Fixpoint resolve_params (params : list string) (_item : string) : result string :=
  match params with
  | [] => Ret _item
  | param :: rest =>
      if startswith param "domain" then
        match split_on (is_char "=") param with
        | [_; v] => resolve_params rest v
        | _ => Raise ValueError
        end
      else resolve_params rest _item
  end.

(** The name handed to [get_entity] when the item is no invite link. *)
Definition entity_name (_item : string) : result string :=
  if startswith _item "tg://resolve" then
    resolve_params
      (tail (split_on (fun c => is_char "?" c || is_char "&" c) _item)) _item
  else
    Ret (str_replace (hd EmptyString (split_on (is_char "?") _item)) "@" "").

(** The outcome of the type-specific part of the loop body. *)
Inductive Normalised :=
| Skip (shown : option PyItem)
| Keep (item : option PyItem)
| Fail (e : Exn).

Definition normalise (client : Client) (hex_type item : string) : Normalised :=
  if (hex_type =? "0x3")%string then
    match resolve_invite_link client item with
    | Some chat_id => Keep (Some (IInt chat_id))
    | None =>
        match entity_name item with
        | Raise e => Fail e
        | Ret _item =>
            match get_entity client _item with
            | EntityError => Skip (Some (IStr _item))
            | EntityFound (Some id) => Keep (Some (IInt id))
            | EntityFound None => Keep None
            end
        end
    end
  else if (hex_type =? "0x4")%string then
    let item := lower (resolve_url client item) in
    if bool_decide (item ∈ TELEGRAM_DOMAINS client) then Skip (Some (IStr item))
    else Keep (Some (IStr item))
  else if (hex_type =? "0x7")%string then
    Keep (Some (IStr (str_replace item "." "")))
  else Keep (Some (IStr item)).

Inductive Stored :=
| Added
| AlreadyExists.

(** The store part of the loop body: [fetchByExample], then [add_item] when
    nothing was found; an exception of [add_item] is not caught. *)
Definition store_item (item : PyItem) (c : AutobahnBlacklist)
  : AutobahnBlacklist * result Stored :=
  match fetchByExample c item with
  | [] =>
      match add_item item c with
      | (c', Ret _) => (c', Ret Added)
      | (c', Raise e) => (c', Raise e)
      end
  | _ :: _ => (c, Ret AlreadyExists)
  end.

(** [store_item] on the collection behind [r], with the name shown in the
    report. *)
Definition store_shown (r : BlacklistRef) (item shown : PyItem) (l : Lists) : Cmd Lists :=
  c ← the_collection r;
  match store_item item c with
  | (c', Ret Added) => put_collection r c';; mret (add_added shown l)
  | (_, Ret AlreadyExists) => mret (add_existing shown l)
  | (_, Raise e) => raise e
  end.

(** The body of the loop of [add], for a known type with a collection. *)
Definition add_step (client : Client) (hex_type : string) (r : BlacklistRef)
    (l : Lists) (item : string) : Cmd Lists :=
  match normalise client hex_type item with
  | Fail e => raise e
  | Skip x => mret (add_skipped x l)
  | Keep None => mret (add_skipped None l)
  | Keep (Some it) => store_shown r it it l
  end.

(** [for item in items: ...] of [add] *)
Fixpoint add_loop (client : Client) (hex_type : option string)
    (coll : option BlacklistRef) (items : list string) (l : Lists) : Cmd Lists :=
  match items with
  | [] => mret l
  | item :: rest =>
      match hex_type, coll with
      | Some h, Some r =>
          l' ← add_step client h r l item;
          add_loop client hex_type coll rest l'
      | _, _ => add_loop client hex_type coll rest l
      end
  end.

(** A method call on [collection], which is [None] for a type without one. *)
Definition need_collection (coll : option BlacklistRef) : Cmd BlacklistRef :=
  match coll with
  | Some r => mret r
  | None => raise AttributeError
  end.

Definition is_type (hex_type : option string) (code : string) : bool :=
  match hex_type with
  | Some h => (h =? code)%string
  | None => false
  end.

Definition warn_same_color : string :=
  "The image seems to contain a lot of the same color. This might lead to false positives.".

(** [if not items and hex_type == '0x5': ...]: the error document, or the
    lists. *)
Definition add_file (msg : Message) (coll : option BlacklistRef) (l : Lists)
  : Cmd (Reply + Lists) :=
  if is_reply msg then
    match reply_file_hash msg with
    | Some file_hash =>
        r ← need_collection coll;
        let short_hash := take_str 15 file_hash +:+ "[...]" in
        l' ← store_shown r (IStr file_hash) (IStr short_hash) l;
        mret (inr l')
    | None => mret (inl (ErrorSection "Need to reply to a file"))
    end
  else mret (inl (ErrorSection "Need to reply to a file")).

(** [if not items and hex_type == '0x6': ...]: the error document, or the
    lists and the warning. *)
Definition add_photo (msg : Message) (coll : option BlacklistRef) (l : Lists)
  : Cmd (Reply + Lists * string) :=
  if is_reply msg then
    match reply_photo_hash msg with
    | Some photo_hash =>
        r ← need_collection coll;
        c ← the_collection r;
        match store_item (IStr photo_hash) c with
        | (c', Ret Added) =>
            put_collection r c';;
            let warn_message :=
              if (8 <? count_char "0" photo_hash)%nat then warn_same_color else "" in
            mret (inr (add_added (IStr photo_hash) l, warn_message))
        | (_, Ret AlreadyExists) => mret (inr (add_existing (IStr photo_hash) l, ""))
        | (_, Raise e) => raise e
        end
    | None => mret (inl (ErrorSection "Need to reply to a photo"))
    end
  else mret (inl (ErrorSection "Need to reply to a photo")).

Definition no_items_given (items : list string) : bool :=
  match items with
  | [] => true
  | _ :: _ => false
  end.

(** The [add] subcommand. *)
Definition add (client : Client) (msg : Message) (args : list string) : Cmd Reply :=
  match args with
  | [] => raise IndexError
  | item_type :: items =>
      let hex_type := AUTOBAHN_TYPES !! item_type in
      let coll := dict_get ab_collection_map hex_type in
      l ← add_loop client hex_type coll items no_items;
      f ← (if no_items_given items && is_type hex_type "0x5"
           then add_file msg coll l else mret (inr l));
      match f with
      | inl err => mret err
      | inr l1 =>
          p ← (if no_items_given items && is_type hex_type "0x6"
               then add_photo msg coll l1 else mret (inr (l1, "")));
          match p with
          | inl err => mret err
          | inr (l2, warn_message) => mret (Report item_type l2 warn_message)
          end
      end
  end.

(** [for item in items: ...] of [del_]; the removed items are collected. *)
Fixpoint del_loop (client : Client) (item_type : string) (items : list string)
    (removed_items : list (option PyItem)) : Cmd (list (option PyItem)) :=
  match items with
  | [] => mret removed_items
  | item :: rest =>
      let hex_type := AUTOBAHN_TYPES !! item_type in
      let coll := dict_get ab_collection_map hex_type in
      match hex_type, coll with
      | Some h, Some r =>
          let item' :=
            if (h =? "0x3")%string
            then IInt <$> resolve_invite_link client item
            else Some (IStr item) in
          c ← the_collection r;
          match fetchFirstExample c item' with
          | d :: _ =>
              put_collection r (delete_doc d c);;
              del_loop client item_type rest (removed_items ++ [item'])
          | [] => del_loop client item_type rest removed_items
          end
      | _, _ => del_loop client item_type rest removed_items
      end
  end.

(** The [del] subcommand: the type and the items of the [Deleted Items:]
    section. *)
Definition del_ (client : Client) (args : list string)
  : Cmd (string * list (option PyItem)) :=
  match args with
  | [] => raise IndexError
  | item_type :: items =>
      removed_items ← del_loop client item_type items [];
      mret (item_type, removed_items)
  end.

(** The [code] keyword argument: an integer, a range or list (by its
    elements), or anything else. *)
Inductive CodeArg :=
| CodeInt (z : Z)
| CodeSeq (l : list Z)
| CodeOther.

Record Kwargs := {
  kw_type : option string;
  kw_code : option CodeArg
}.

Inductive QItem :=
| KeyValueItem (key : string) (value : PyItem)
| Pre (text : string)
| Code (value : PyItem).

(** The document [query] answers with: the title of its section, and the
    items after it. *)
Record QueryDoc := {
  q_title : string;
  q_items : list QItem
}.

(** An optional string inside an f-string. *)
Definition fmt (s : option string) : string :=
  match s with
  | Some s' => s'
  | None => "None"
  end.

Definition key_item (d : BlacklistDoc) : QItem :=
  KeyValueItem (rjust 5 ("0x" +:+ str_of_Z (Z.of_N (bl_key d)))) (bl_string d).

(** [', '.join(...)], which takes strings only. *)
Fixpoint join_strings (docs : list BlacklistDoc) : result string :=
  match docs with
  | [] => Ret ""
  | d :: rest =>
      match bl_string d, join_strings rest with
      | IStr s, Ret tl =>
          Ret (match rest with [] => s | _ :: _ => s +:+ ", " +:+ tl end)
      | IInt _, _ => Raise TypeError
      | _, Raise e => Raise e
      end
  end.

Definition lift {A : Type} (r : result A) : Cmd A := fun db => (db, r).

(** The [query] subcommand; [None] when the function falls off its end. *)
Definition query (kwargs : Kwargs) : Cmd (option QueryDoc) :=
  let item_type := kw_type kwargs in
  let code := kw_code kwargs in
  '(hex_type, coll) ←
    match item_type with
    | Some t =>
        let h := AUTOBAHN_TYPES !! t in
        r ← lift (dict_item ab_collection_map h);
        mret (h, Some r)
    | None => mret (None, None)
    end;
  match code with
  | None =>
      r ← need_collection coll;
      c ← the_collection r;
      let all_strings := fetchAll c in
      items ← (if negb (100 <? length all_strings)%nat
               then mret (key_item <$> all_strings)
               else s ← lift (join_strings all_strings); mret [Pre s]);
      mret (Some {| q_title := "Items for type: " +:+ fmt item_type +:+
                                "[" +:+ fmt hex_type +:+ "]";
                    q_items := items |})
  | Some code' =>
      match hex_type with
      | None => mret None
      | Some h =>
          match code' with
          | CodeInt z =>
              r ← need_collection coll;
              c ← the_collection r;
              d ← lift (fetchDocument c z);
              mret (Some {| q_title := "Items for type: " +:+ fmt item_type +:+
                                        "[" +:+ h +:+ "] code: " +:+ str_of_Z z;
                            q_items := [Code (bl_string d)] |})
          | CodeSeq l =>
              r ← need_collection coll;
              c ← the_collection r;
              let keys := str_of_Z <$> l in
              mret (Some {| q_title := "Items for for type: " +:+ fmt item_type +:+
                                        "[" +:+ h +:+ "]";
                            q_items := key_item <$> docs_with_keys c keys |})
          | CodeOther => mret None
          end
      end
  end.

End AutobahnMgr.

(** ** utils/tags.py *)
Module Tags.
Import Py Arango.

(** Modelled from the spec: [utils/tags.py] ([Tags(event).get]) is not among
    the sources.  The resolver reads the document of the event's chat: a name
    in [named_tags] gives its value, otherwise a name in [tags] gives the
    presence marker, otherwise the caller's default. *)
Definition get (doc : ChatDoc) (tag_name : string) (default : option TagValue)
  : option TagValue :=
  match named_tags doc !! tag_name with
  | Some v => Some v
  | None => if bool_decide (tag_name ∈ tags doc) then Some (TagBool true) else default
  end.

(** Python's truth value of what [get] returned. *)
Definition truthy (v : option TagValue) : bool :=
  match v with
  | None => false
  | Some (TagStr s) => negb (s =? "")%string
  | Some (TagInt z) => negb (z =? 0)%Z
  | Some (TagBool b) => b
  | Some (TagRange lo hi) => (lo <? hi)%Z
  end.

(** [tag == text] for a string literal [text]. *)
Definition equals (v : option TagValue) (text : string) : bool :=
  match v with
  | Some (TagStr s) => (s =? text)%string
  | _ => false
  end.

(** A tag value inside an f-string. *)
Definition fmt (v : TagValue) : string :=
  match v with
  | TagStr s => s
  | TagInt z => str_of_Z z
  | TagBool true => "True"
  | TagBool false => "False"
  | TagRange lo hi => "range(" +:+ str_of_Z lo +:+ ", " +:+ str_of_Z hi +:+ ")"
  end.

End Tags.

(** ** plugins/autobahn/automatic/ *)
Module Automatic.
Import Py Arango.

Inductive MessageAction :=
| MessageActionChatJoinedByLink
| MessageActionChatAddUser
| MessageActionOther.

(** [ChatAction.Event] *)
Record ChatAction := {
  ca_is_private : bool;
  user_joined : bool;
  user_left : bool;
  user_kicked : bool;
  action_message : option MessageAction;
  user_id : option Z;
  ca_chat_id : Z
}.

(** [NewMessage.Event] *)
Record NewMessage := {
  nm_is_private : bool;
  from_id : option Z;
  nm_chat_id : Z
}.

Inductive Event :=
| ChatActionEvent (e : ChatAction)
| NewMessageEvent (e : NewMessage).

Definition is_private (event : Event) : bool :=
  match event with
  | ChatActionEvent e => ca_is_private e
  | NewMessageEvent e => nm_is_private e
  end.

Record AdminRights := {
  ban_users : bool
}.

(** The chat of the event, as the bot sees it. *)
Record Channel := {
  id : Z;
  creator : bool;
  admin_rights : option AdminRights
}.

Record User := {
  first_name : string;
  bot : bool
}.

(** The answers of the platform and of the database to one run of a handler.
    Two calls can fail here, the two whose failure the handlers catch:
    [client.get_entity] with [ValueError] and [client.ban] with
    [UserIdInvalidError]; [GetParticipantRequest] answers or raises
    [UserNotParticipantError].  Every other call answers: a run in which one
    of them raises is not among the runs described. *)
Record Platform := {
  (** [event.get_chat()] *)
  chat : Channel;
  (** [event.get_user()] *)
  user : User;
  (** [Tags(event).get(tag_name, default)] *)
  tags_get : string -> option TagValue -> option TagValue;
  (** [client.db] *)
  db : ArangoDB;
  (** [client.get_entity(uid)]; [None] when it raises [ValueError] *)
  entity : Z -> option User;
  (** the ids of the chat's admins *)
  admins : list Z;
  (** whether [client.ban] returns; otherwise it raises [UserIdInvalidError] *)
  ban_accepted : bool;
  (** whether [GetParticipantRequest] returns; otherwise it raises
      [UserNotParticipantError] *)
  participant : bool;
  (** [messages.total] *)
  messages_total : Z
}.

(** What a handler does to the platform, in order: the calls it makes.  [Ban]
    is the call of [client.ban], accepted or not; [Gban] the call of
    [client.gban], which records the global ban; [Respond] the notification
    of the guard, deleted after 120 seconds. *)
Inductive Action :=
| LogError (what : string)
| Sleep (delay : TagValue)
| SleepQuarter
| GetParticipant (chat_id : Z)
| Gban (userid : option Z) (why : string)
| Ban (chat_id : Z) (uid : option Z)
| ReplyTo (text : string)
| DeleteUserHistory (chat_id : Z) (userid : option Z)
| DeleteEvent
| Respond (name : string) (uid : Z) (ban_reason : string).

(** A handler leaves a trace and returns or raises. *)
Definition Handler (A : Type) : Type := list Action * result A.

#[export] Instance Handler_ret : MRet Handler := fun A a => ([], Ret a).

#[export] Instance Handler_bind : MBind Handler := fun A B f m =>
  match m with
  | (t, Ret a) => let (t2, r) := f a in (t ++ t2, r)
  | (t, Raise e) => (t, Raise e)
  end.

Definition act (a : Action) : Handler unit := ([a], Ret tt).

Definition raise {A : Type} (e : Exn) : Handler A := ([], Raise e).

Definition trace {A : Type} (h : Handler A) : list Action := fst h.

Definition outcome {A : Type} (h : Handler A) : result A := snd h.

Definition joined_or_added (a : MessageAction) : bool :=
  match a with
  | MessageActionChatJoinedByLink | MessageActionChatAddUser => true
  | MessageActionOther => false
  end.

(** [grenzschutz]: ban users of the ban list when they join, get added or
    write. *)
Definition grenzschutz (p : Platform) (event : Event) : Handler unit :=
  if is_private event then mret tt else
  if (if event is ChatActionEvent e then user_left e || user_kicked e else false)
  then mret tt else
  if (if event is ChatActionEvent e
      then match action_message e with
           | None => true
           | Some a => negb (joined_or_added a)
           end
      else false)
  then mret tt else
  let chat := chat p in
  if negb (creator chat) && negb (bool_decide (is_Some (admin_rights chat)))
  then mret tt else
  if (if admin_rights chat is Some rights then negb (ban_users rights) else false)
  then mret tt else
  let polizei_tag := tags_get p "polizei" None in
  let grenzschutz_tag := tags_get p "grenzschutz" None in
  let silent := Tags.equals grenzschutz_tag "silent" in
  if Tags.equals grenzschutz_tag "exclude" || Tags.equals polizei_tag "exclude"
  then mret tt else
  let uid :=
    match event with
    | ChatActionEvent e => user_id e
    | NewMessageEvent e => from_id e
    end in
  match uid with
  | None => mret tt
  | Some uid =>
      (* [user] stays unbound when [get_entity] raises *)
      user ← match entity p uid with
             | Some u => mret (Some u)
             | None => act (LogError "ValueError");; mret None
             end;
      match banlist_query (db p) (str_of_Z uid) with
      | [] => mret tt
      | doc :: _ =>
          let ban_reason := reason doc in
          if bool_decide (uid ∈ admins p) then mret tt else
          act (Ban (id chat) (Some uid));;
          if negb (ban_accepted p)
          then act (LogError "Error occured while banning") else
          act DeleteEvent;;
          if silent then mret tt else
          match user with
          | Some u => act (Respond (first_name u) uid ban_reason)
          | None => raise UnboundLocalError
          end
      end
  end.

(** The delay [kriminalamt] waits for, from the value of its tag: the tag
    when it is an [int] ([bool] included), [int(tag)] when it is a string
    that [isdigit] accepts, which raises [ValueError] when [int] cannot read
    it, and 1 otherwise. *)
Definition delay_of (kriminalamt_tag : option TagValue) : result TagValue :=
  match kriminalamt_tag with
  | Some (TagInt z) => Ret (TagInt z)
  | Some (TagBool b) => Ret (TagBool b)
  | Some (TagStr s) =>
      if isdigit s then
        match int_of_str s with
        | Ret z => Ret (TagInt z)
        | Raise e => Raise e
        end
      else Ret (TagInt 1)
  | _ => Ret (TagInt 1)
  end.

Definition fmt_id (userid : option Z) : string :=
  match userid with
  | Some z => str_of_Z z
  | None => "None"
  end.

(** [kriminalamt]: ban a user who joins and is gone after the configured
    time. *)
Definition kriminalamt (p : Platform) (event : ChatAction) : Handler unit :=
  let chat := chat p in
  let user := user p in
  let kriminalamt_tag := tags_get p "kriminalamt" None in
  let bancmd := tags_get p "gbancmd" (Some (TagStr "manual")) in
  if negb (user_joined event) then mret tt else
  if negb (Tags.truthy kriminalamt_tag) || bot user then mret tt else
  delay ← (match delay_of kriminalamt_tag with
           | Ret delay => mret delay
           | Raise e => raise e
           end);
  act (Sleep delay);;
  act (GetParticipant (id chat));;
  if participant p then mret tt else
  let reason := "Kriminalamt #" +:+ str_of_Z (id chat) +:+ " No. " +:+ Tags.fmt delay in
  let userid := user_id event in
  act (Gban userid reason);;
  if creator chat || bool_decide (is_Some (admin_rights chat)) then
    (if Tags.equals bancmd "manual" then act (Ban (id chat) userid)
     else match bancmd with
          | Some cmd =>
              act (ReplyTo (Tags.fmt cmd +:+ " " +:+ fmt_id userid +:+ " " +:+ reason));;
              act SleepQuarter
          | None => mret tt
          end);;
    if (messages_total p <=? 5)%Z
    then act (DeleteUserHistory (id chat) userid)
    else act DeleteEvent
  else mret tt.

(** Modelled from the spec: [utils/client.py] ([Client.gban]) is not among
    the sources.  A global ban is recorded in the ban list, one record per
    user id, with its reason; the record is created once, the first ban wins,
    and the ban of a user who has a record creates and updates nothing. *)
Definition gban (userid : option Z) (why : string) (bans : gmap string BanDoc)
  : gmap string BanDoc :=
  match userid with
  | Some uid =>
      match bans !! str_of_Z uid with
      | None =>
          <[str_of_Z uid := {| ban_key := str_of_Z uid;
                               ban_id := uid;
                               reason := why |}]> bans
      | Some _ => bans
      end
  | None => bans
  end.

End Automatic.

(** ** plugins/automatic/update_groups.py *)
Module UpdateGroups.
Import Arango Automatic.

(** [add_groups]: the chat of every message outside private chats gets its
    document. *)
Definition add_groups (event : NewMessage) (db : ArangoDB) : ArangoDB :=
  if nm_is_private event then db
  else with_chats db (fst (get_chat (nm_chat_id event) (chats db))).

End UpdateGroups.

(** ** Vocabulary of the properties *)
Module Notions.
Import Py Arango AutobahnMgr Automatic.

(** [s] without the occurrences of [c]; the other characters keep their
    order. *)
Fixpoint without_char (c : ascii) (s : string) : string :=
  match s with
  | EmptyString => EmptyString
  | String a s' =>
      if Ascii.eqb a c then without_char c s' else String a (without_char c s')
  end.

(** [s] without its leading [c]s, the rest as it is: what stripping the
    leading dots of a top-level domain would give. *)
Fixpoint lstrip_char (c : ascii) (s : string) : string :=
  match s with
  | EmptyString => EmptyString
  | String a s' => if Ascii.eqb a c then lstrip_char c s' else s
  end.

(** The values a blacklist holds, in the order of its documents. *)
Definition values (c : AutobahnBlacklist) : list PyItem := bl_string <$> bl_docs c.

(** The number of entries of a blacklist. *)
Definition entries (c : AutobahnBlacklist) : nat := length (bl_docs c).

(** The global bans a trace asks for: the user and the reason of each. *)
Definition gbans (t : list Action) : list (option Z * string) :=
  omap (fun a => if a is Gban userid why then Some (userid, why) else None) t.

(** The user an event is about. *)
Definition acting_user (event : Event) : option Z :=
  match event with
  | ChatActionEvent e => user_id e
  | NewMessageEvent e => from_id e
  end.

(** The events the guard handles in a chat: a message, a join by link or an
    add, outside private chats, where the bot created the chat or is an admin
    allowed to ban. *)
Definition qualifying (c : Channel) (event : Event) : bool :=
  negb (is_private event) &&
  match event with
  | NewMessageEvent _ => true
  | ChatActionEvent e =>
      negb (user_left e) && negb (user_kicked e) &&
      match action_message e with
      | Some MessageActionChatJoinedByLink | Some MessageActionChatAddUser => true
      | _ => false
      end
  end &&
  match admin_rights c with
  | Some rights => ban_users rights
  | None => creator c
  end.

(** A chat whose configuration does not mention a tag. *)
Definition absent (doc : ChatDoc) (tag_name : string) : Prop :=
  named_tags doc !! tag_name = None ∧ tag_name ∉ tags doc.

(** The same run in a chat whose tag [tag_name] is set to [v]. *)
Definition with_tag (p : Platform) (tag_name : string) (v : TagValue) : Platform :=
  {| chat := chat p;
     user := user p;
     tags_get := fun name default =>
       if (name =? tag_name)%string then Some v else tags_get p name default;
     db := db p;
     entity := entity p;
     admins := admins p;
     ban_accepted := ban_accepted p;
     participant := participant p;
     messages_total := messages_total p |}.

(** The ASCII decimal digits, as [str_of_Z] writes them, and the number a
    string of them spells. *)
Definition is_digit (c : ascii) : bool :=
  let n := nat_of_ascii c in (48 <=? n)%nat && (n <=? 57)%nat.

Fixpoint all_digits (s : string) : bool :=
  match s with
  | EmptyString => true
  | String c s' => is_digit c && all_digits s'
  end.

Fixpoint int_go (acc : Z) (s : string) : Z :=
  match s with
  | EmptyString => acc
  | String c s' => int_go (10 * acc + (Z.of_nat (nat_of_ascii c) - 48))%Z s'
  end.

(** The ban list after the global bans of a trace, each recorded as [gban]
    records it. *)
Definition recorded (t : list Action) (bans : gmap string BanDoc)
  : gmap string BanDoc :=
  foldl (fun b a => if a is Gban userid why then gban userid why b else b) bans t.

(** The reason [kriminalamt] gives for a ban in chat [chat_id] after [delay]. *)
Definition kriminalamt_reason (chat_id : Z) (delay : TagValue) : string :=
  "Kriminalamt #" +:+ str_of_Z chat_id +:+ " No. " +:+ Tags.fmt delay.

(** Inputs of the examples. *)
(** A store that hands out the keys 1, 2, 3, ... *)
Definition counting_keys (n : nat) : N := N.of_nat (S n).

Definition empty_blacklist : AutobahnBlacklist :=
  {| bl_docs := []; bl_keys := counting_keys; bl_saved := 0 |}.

Definition empty_db : ArangoDB :=
  {| chats := ∅;
     ab_bio_blacklist := empty_blacklist;
     ab_string_blacklist := empty_blacklist;
     ab_channel_blacklist := empty_blacklist;
     ab_domain_blacklist := empty_blacklist;
     ab_file_blacklist := empty_blacklist;
     ab_mhash_blacklist := empty_blacklist;
     ab_tld_blacklist := empty_blacklist;
     banlist := ∅ |}.

Definition offline_client : Client :=
  {| resolve_invite_link := fun _ => None;
     get_entity := fun _ => EntityError;
     resolve_url := fun url => url;
     TELEGRAM_DOMAINS := ["t.me"; "telegram.org"] |}.

Definition plain_message : Message :=
  {| is_reply := false; reply_file_hash := None; reply_photo_hash := None |}.

(** A blacklist that already holds ["spam"]. *)
Definition spam_blacklist : AutobahnBlacklist :=
  {| bl_docs := [{| bl_key := 1; bl_string := IStr "spam" |}];
     bl_keys := counting_keys;
     bl_saved := 1 |}.

(** A ban list with user 42 on it. *)
Definition spam_db : ArangoDB :=
  {| chats := ∅;
     ab_bio_blacklist := empty_blacklist;
     ab_string_blacklist := empty_blacklist;
     ab_channel_blacklist := empty_blacklist;
     ab_domain_blacklist := empty_blacklist;
     ab_file_blacklist := empty_blacklist;
     ab_mhash_blacklist := empty_blacklist;
     ab_tld_blacklist := empty_blacklist;
     banlist := {[ "42" := {| ban_key := "42"; ban_id := 42; reason := "spam bot" |} ]} |}.

(** The document of chat -100 with the given named tags. *)
Definition group_doc (named : gmap string TagValue) : ChatDoc :=
  {| chat_key := "-100"; chat_id := -100; tags := []; named_tags := named |}.

(** A group the bot created; entity resolution fails, user 42 is banned
    globally and is no admin, and has left when asked. *)
Definition group (named : gmap string TagValue) : Platform :=
  {| chat := {| id := -100; creator := true; admin_rights := None |};
     user := {| first_name := "Eve"; bot := false |};
     tags_get := Tags.get (group_doc named);
     db := spam_db;
     entity := fun _ => None;
     admins := [1%Z];
     ban_accepted := true;
     participant := false;
     messages_total := 3 |}.

(** The same group when the platform resolves every user. *)
Definition resolving_group (named : gmap string TagValue) : Platform :=
  {| chat := chat (group named);
     user := user (group named);
     tags_get := tags_get (group named);
     db := db (group named);
     entity := fun _ => Some {| first_name := "Eve"; bot := false |};
     admins := admins (group named);
     ban_accepted := true;
     participant := false;
     messages_total := 3 |}.

Definition message_of_42 : Event :=
  NewMessageEvent {| nm_is_private := false; from_id := Some 42%Z; nm_chat_id := -100 |}.

Definition join_of_42 : ChatAction :=
  {| ca_is_private := false;
     user_joined := true;
     user_left := false;
     user_kicked := false;
     action_message := Some MessageActionChatJoinedByLink;
     user_id := Some 42%Z;
     ca_chat_id := -100 |}.

End Notions.

(** ** database/arango.py, continued *)
Module Blacklists.
Import Py Arango.

#[export] Instance PyItem_countable : Countable PyItem.
Proof.
  refine (inj_countable'
            (fun x => match x with IStr s => inl s | IInt z => inr z end)
            (fun y => match y with inl s => IStr s | inr z => IInt z end) _).
  intros []; reflexivity.
Defined.

(** [AutobahnBlacklist.get_all]: the dictionary from the values to the keys;
    of two documents with the same value the later one stays. *)
Definition get_all (c : AutobahnBlacklist) : gmap PyItem N :=
  list_to_map (reverse ((fun doc => (bl_string doc, bl_key doc)) <$> fetchAll c)).

End Blacklists.

(** ** plugins/private/stats.py *)
Module Stats.

(** [dialog.entity]: a channel, a user, a small group, or anything else. *)
Inductive Entity :=
| Channel (broadcast megagroup creator : bool)
    (admin_rights : option Automatic.AdminRights)
| User (bot : bool)
| Chat (creator : bool) (admin_rights : option Automatic.AdminRights)
| Other.

Record Dialog := {
  entity : Entity;
  unread_mentions_count : Z;
  unread_count : Z
}.

(** The counters of [stats]. *)
Record Counts := {
  private_chats : Z;
  bots : Z;
  groups : Z;
  broadcast_channels : Z;
  admin_in_groups : Z;
  creator_in_groups : Z;
  admin_in_broadcast_channels : Z;
  creator_in_channels : Z;
  unread_mentions : Z;
  unread : Z
}.

Definition zero : Counts :=
  {| private_chats := 0; bots := 0; groups := 0; broadcast_channels := 0;
     admin_in_groups := 0; creator_in_groups := 0;
     admin_in_broadcast_channels := 0; creator_in_channels := 0;
     unread_mentions := 0; unread := 0 |}.

(** [n += 1] under a condition. *)
Definition bump (condition : bool) (n : Z) : Z :=
  if condition then (n + 1)%Z else n.

(** [entity.creator or entity.admin_rights] *)
Definition is_admin (creator : bool) (admin_rights : option Automatic.AdminRights)
  : bool :=
  creator || bool_decide (is_Some admin_rights).

(** The part of the loop body that looks at the entity. *)
Definition count_entity (c : Counts) (e : Entity) : Counts :=
  let group creator admin_rights :=
    {| private_chats := private_chats c;
       bots := bots c;
       groups := (groups c + 1)%Z;
       broadcast_channels := broadcast_channels c;
       admin_in_groups := bump (is_admin creator admin_rights) (admin_in_groups c);
       creator_in_groups := bump creator (creator_in_groups c);
       admin_in_broadcast_channels := admin_in_broadcast_channels c;
       creator_in_channels := creator_in_channels c;
       unread_mentions := unread_mentions c;
       unread := unread c |} in
  match e with
  | Channel broadcast megagroup creator admin_rights =>
      if broadcast then
        {| private_chats := private_chats c;
           bots := bots c;
           groups := groups c;
           broadcast_channels := (broadcast_channels c + 1)%Z;
           admin_in_groups := admin_in_groups c;
           creator_in_groups := creator_in_groups c;
           admin_in_broadcast_channels :=
             bump (is_admin creator admin_rights) (admin_in_broadcast_channels c);
           creator_in_channels := bump creator (creator_in_channels c);
           unread_mentions := unread_mentions c;
           unread := unread c |}
      else if megagroup then group creator admin_rights
      else c
  | User bot =>
      {| private_chats := (private_chats c + 1)%Z;
         bots := bump bot (bots c);
         groups := groups c;
         broadcast_channels := broadcast_channels c;
         admin_in_groups := admin_in_groups c;
         creator_in_groups := creator_in_groups c;
         admin_in_broadcast_channels := admin_in_broadcast_channels c;
         creator_in_channels := creator_in_channels c;
         unread_mentions := unread_mentions c;
         unread := unread c |}
  | Chat creator admin_rights => group creator admin_rights
  | Other => c
  end.

(** The body of [async for dialog in client.iter_dialogs()]. *)
Definition count_dialog (c : Counts) (dialog : Dialog) : Counts :=
  let c' := count_entity c (entity dialog) in
  {| private_chats := private_chats c';
     bots := bots c';
     groups := groups c';
     broadcast_channels := broadcast_channels c';
     admin_in_groups := admin_in_groups c';
     creator_in_groups := creator_in_groups c';
     admin_in_broadcast_channels := admin_in_broadcast_channels c';
     creator_in_channels := creator_in_channels c';
     unread_mentions := (unread_mentions c' + unread_mentions_count dialog)%Z;
     unread := (unread c' + unread_count dialog)%Z |}.

(** The counters after the loop over the dialogs. *)
Definition collect (dialogs : list Dialog) : Counts :=
  fold_left count_dialog dialogs zero.

(** The numbers of the response of [stats], with their labels, in the order
    of the document (the name of the account and the time taken are left
    out). *)
Definition stats (dialogs : list Dialog) : list (string * Z) :=
  let c := collect dialogs in
  [ ("Private Chats", private_chats c);
    ("Users", (private_chats c - bots c)%Z);
    ("Bots", bots c);
    ("Groups", groups c);
    ("Channels", broadcast_channels c);
    ("Admin in Groups", admin_in_groups c);
    ("Creator", creator_in_groups c);
    ("Admin Rights", (admin_in_groups c - creator_in_groups c)%Z);
    ("Admin in Channels", admin_in_broadcast_channels c);
    ("Creator", creator_in_channels c);
    ("Admin Rights", (admin_in_broadcast_channels c - creator_in_channels c)%Z);
    ("Unread", unread c);
    ("Unread Mentions", unread_mentions c) ].

End Stats.

(** ** Further vocabulary *)
Module Shapes.
Import Py Arango AutobahnMgr Automatic Notions.

(** The keys of a blacklist are in order: the keys in use are distinct, the
    keys the store hands out from now on ascend, and every key in use is
    below them. *)
Definition keys_ordered (c : AutobahnBlacklist) : Prop :=
  NoDup (bl_key <$> bl_docs c) /\
  Forall (fun d => (bl_key d < bl_keys c (bl_saved c))%N) (bl_docs c) /\
  forall i j : nat,
    (bl_saved c <= i)%nat -> (i < j)%nat -> (bl_keys c i < bl_keys c j)%N.

(** Every chat document is filed under the decimal form of its chat id. *)
Definition chats_keyed (cs : gmap string ChatDoc) : Prop :=
  forall (k : string) (doc : ChatDoc),
    cs !! k = Some doc -> k = str_of_Z (chat_id doc) /\ chat_key doc = k.

(** Between two databases nothing but the collection behind [r] differs. *)
Definition only_collection (r : BlacklistRef) (db db' : ArangoDB) : Prop :=
  chats db' = chats db /\
  banlist db' = banlist db /\
  forall r' : BlacklistRef, r' <> r -> collection db' r' = collection db r'.

(** A command keeps a property of the database, whether it returns or
    raises. *)
Definition keeps (I : ArangoDB -> Prop) {A : Type} (m : Cmd A) : Prop :=
  forall db : ArangoDB, I db -> I (fst (m db)).

(** A property that survives the one write of [add]: a new document with a
    value of kind [Q] that the validation accepts and the collection behind
    [r] does not hold yet. *)
Definition survives_add (I : ArangoDB -> Prop) (Q : PyItem -> Prop)
    (r : BlacklistRef) : Prop :=
  forall (db : ArangoDB) (it : PyItem),
    I db -> Q it -> not_null (Some it) = true -> (it ∉ values (collection db r)) ->
    I (with_collection db r (fst (add_item it (collection db r)))).

(** The number of items in the three lists of a report. *)
Definition listed (l : Lists) : nat :=
  length (added_items l) + length (existing_items l) + length (skipped_items l).

(** In every blacklist the values are distinct. *)
Definition all_distinct (db : ArangoDB) : Prop :=
  forall r : BlacklistRef, NoDup (values (collection db r)).

(** In every blacklist the keys are ordered. *)
Definition all_ordered (db : ArangoDB) : Prop :=
  forall r : BlacklistRef, keys_ordered (collection db r).

(** No character of [s] is a separator. *)
Fixpoint free_of (sep : ascii -> bool) (s : string) : bool :=
  match s with
  | EmptyString => true
  | String c s' => negb (sep c) && free_of sep s'
  end.

(** The characters that end or split a user name in [entity_name]. *)
Definition name_delimiter (c : ascii) : bool :=
  is_char "?" c || is_char "&" c || is_char "=" c || is_char "@" c.

(** The guard has something to do: the event qualifies, no tag excludes the
    guard, and the user the event is about is on the ban list and no admin of
    the chat. *)
Definition guard_applies (p : Platform) (event : Event) : bool :=
  qualifying (chat p) event &&
  negb (Tags.equals (tags_get p "grenzschutz" None) "exclude") &&
  negb (Tags.equals (tags_get p "polizei" None) "exclude") &&
  match acting_user event with
  | Some uid =>
      bool_decide (is_Some (banlist (db p) !! str_of_Z uid)) &&
      negb (bool_decide (uid ∈ admins p))
  | None => false
  end.

(** The run of [p] with another value for a tag look-up. *)
Definition with_lookup (p : Platform) (v : option TagValue) (tag_name : string)
  : Platform :=
  {| chat := chat p;
     user := user p;
     tags_get := fun name default =>
       if (name =? tag_name)%string then v else tags_get p name default;
     db := db p;
     entity := entity p;
     admins := admins p;
     ban_accepted := ban_accepted p;
     participant := participant p;
     messages_total := messages_total p |}.

(** The run of [p] against another database. *)
Definition with_db (p : Platform) (db' : ArangoDB) : Platform :=
  {| chat := chat p;
     user := user p;
     tags_get := tags_get p;
     db := db';
     entity := entity p;
     admins := admins p;
     ban_accepted := ban_accepted p;
     participant := participant p;
     messages_total := messages_total p |}.

(** The deletions a trace asks for: of the history of a user, or of the
    event. *)
Definition deletions (t : list Action) : list Action :=
  List.filter (fun a => match a with
                        | DeleteUserHistory _ _ | DeleteEvent => true
                        | _ => false
                        end) t.

(** [kriminalamt] gets as far as finding the user gone: a join, the tag
    true, no bot, a delay that could be read, and the user no participant
    when asked. *)
Definition found_gone (p : Platform) (event : ChatAction) : bool :=
  user_joined event && Tags.truthy (tags_get p "kriminalamt" None) &&
  negb (bot (user p)) &&
  (if delay_of (tags_get p "kriminalamt" None) is Ret _ then true else false) &&
  negb (participant p).

(** [chat.creator or chat.admin_rights] *)
Definition has_rights (c : Channel) : bool :=
  creator c || bool_decide (is_Some (admin_rights c)).

(** The counters of [stats] fit together after [n] dialogs: none is negative,
    the bots are among the private chats, the chats created among the chats
    administered, those among the chats counted, and no dialog is counted
    twice. *)
Definition consistent (c : Stats.Counts) (n : Z) : Prop :=
  (0 <= Stats.bots c <= Stats.private_chats c)%Z /\
  (0 <= Stats.creator_in_groups c <= Stats.admin_in_groups c)%Z /\
  (Stats.admin_in_groups c <= Stats.groups c)%Z /\
  (0 <= Stats.creator_in_channels c <= Stats.admin_in_broadcast_channels c)%Z /\
  (Stats.admin_in_broadcast_channels c <= Stats.broadcast_channels c)%Z /\
  (Stats.private_chats c + Stats.groups c + Stats.broadcast_channels c <= n)%Z.

(** The sum of a number over the dialogs. *)
Definition total (f : Stats.Dialog -> Z) (dialogs : list Stats.Dialog) : Z :=
  foldr Z.add 0%Z (f <$> dialogs).

(** Further inputs of the examples: a reply to a message with a file and a
    photo whose hash has ten zeros; a blacklist database whose string
    blacklist holds ["spam"]; the dialogs with a bot and with a group the
    account created. *)
Definition photo_message : Message :=
  {| is_reply := true;
     reply_file_hash := Some "0123456789abcdef0123";
     reply_photo_hash := Some "0000000000ffff" |}.

Definition spam_strings : ArangoDB :=
  with_collection empty_db Ref_string spam_blacklist.

(** The group of the examples with nobody on the ban list; the same when the
    account that joins is a bot; and the group whose users resolve when the
    platform refuses the ban. *)
Definition unbanned_group (named : gmap string TagValue) : Platform :=
  with_db (group named) empty_db.

Definition bot_joins (named : gmap string TagValue) : Platform :=
  {| chat := chat (unbanned_group named);
     user := {| first_name := "Bot"; bot := true |};
     tags_get := tags_get (unbanned_group named);
     db := db (unbanned_group named);
     entity := entity (unbanned_group named);
     admins := admins (unbanned_group named);
     ban_accepted := true;
     participant := false;
     messages_total := 3 |}.

Definition refusing_group (named : gmap string TagValue) : Platform :=
  {| chat := chat (resolving_group named);
     user := user (resolving_group named);
     tags_get := tags_get (resolving_group named);
     db := db (resolving_group named);
     entity := entity (resolving_group named);
     admins := admins (resolving_group named);
     ban_accepted := false;
     participant := false;
     messages_total := 3 |}.

(** The superscript two: a digit for [isdigit], none that [int] reads; and
    the Arabic-Indic three, a decimal digit. *)
Definition superscript_two : string := String "194" (String "178" "").

Definition arabic_three : string := String "217" (String "163" "").

Definition two_dialogs : list Stats.Dialog :=
  [ {| Stats.entity := Stats.User true;
       Stats.unread_mentions_count := 0;
       Stats.unread_count := 2 |};
    {| Stats.entity := Stats.Chat true None;
       Stats.unread_mentions_count := 1;
       Stats.unread_count := 5 |} ].

End Shapes.

Import Py Arango AutobahnMgr Automatic UpdateGroups Notions Blacklists Shapes.

(** * Properties *)

(** ** Strings *)

Lemma prefix_one_char (c a : ascii) (s : string) :
  String.prefix (String c EmptyString) (String a s) = Ascii.eqb a c.
Proof.
  simpl. destruct (ascii_dec c a) as [->|Hne].
  - rewrite Ascii.eqb_refl. now destruct s.
  - symmetry. apply Ascii.eqb_neq. congruence.
Qed.

(** Replacing a character by nothing removes it everywhere, whatever fuel is
    left beyond the length of the string. *)
Lemma replace_go_char (c : ascii) (fuel : nat) :
  forall s : string,
    (String.length s <= fuel)%nat ->
    replace_go fuel (String c EmptyString) "" s = without_char c s.
Proof.
  induction fuel as [|fuel IH]; intros [|a s] Hlen; simpl in Hlen; try lia;
    try reflexivity.
  change (replace_go (S fuel) (String c "") "" (String a s))
    with (if String.prefix (String c "") (String a s)
          then "" +:+ replace_go fuel (String c "") "" s
          else String a (replace_go fuel (String c "") "" s)).
  rewrite prefix_one_char. simpl.
  rewrite IH by lia. now destruct (Ascii.eqb a c).
Qed.

Lemma drop_str_length (n : nat) :
  forall s : string, String.length (drop_str n s) = (String.length s - n)%nat.
Proof.
  induction n as [|n IH]; intros [|a s]; simpl; try reflexivity. apply IH.
Qed.

(** The fuel [str_replace] gives is enough: with a pattern that is not empty,
    no amount of fuel from the length of the string on changes the result. *)
Lemma replace_go_fuel (old new : string) (n : nat) :
  old <> "" ->
  forall (m : nat) (s : string),
    (String.length s <= n)%nat -> (String.length s <= m)%nat ->
    replace_go n old new s = replace_go m old new s.
Proof.
  intros Hold. induction n as [|n IH]; intros m [|a s] Hn Hm; simpl in Hn, Hm;
    try lia; try (now destruct m).
  destruct m as [|m]; [lia|].
  change (replace_go (S n) old new (String a s))
    with (if String.prefix old (String a s)
          then new +:+ replace_go n old new (drop_str (String.length old) (String a s))
          else String a (replace_go n old new s)).
  change (replace_go (S m) old new (String a s))
    with (if String.prefix old (String a s)
          then new +:+ replace_go m old new (drop_str (String.length old) (String a s))
          else String a (replace_go m old new s)).
  assert (Hdrop : (String.length (drop_str (String.length old) (String a s))
                   <= String.length s)%nat).
  { rewrite drop_str_length. destruct old; [contradiction|]. simpl. lia. }
  destruct (String.prefix old (String a s)).
  - f_equal. apply IH; lia.
  - f_equal. apply IH; lia.
Qed.

Lemma str_replace_char (c : ascii) (s : string) :
  str_replace s (String c EmptyString) "" = without_char c s.
Proof. unfold str_replace. now apply replace_go_char. Qed.

Lemma without_char_count (c : ascii) (s : string) :
  count_char c (without_char c s) = 0%nat.
Proof.
  induction s as [|a s IH]; [reflexivity|]. simpl.
  destruct (Ascii.eqb a c) eqn:E; [exact IH|]. simpl. now rewrite E.
Qed.

Lemma without_char_free (c : ascii) (s : string) :
  count_char c s = 0%nat -> without_char c s = s.
Proof.
  induction s as [|a s IH]; [reflexivity|]. simpl.
  destruct (Ascii.eqb a c); [discriminate|]. intros H. now rewrite IH.
Qed.

Lemma without_char_lstrip (c : ascii) (s : string) :
  without_char c (lstrip_char c s) = without_char c s.
Proof.
  induction s as [|a s IH]; [reflexivity|]. simpl.
  destruct (Ascii.eqb a c) eqn:E; [exact IH|]. simpl. now rewrite E.
Qed.

(** ** The blacklist types and their collections *)

Lemma types_filename : AUTOBAHN_TYPES !! "filename" = Some "0x2".
Proof. reflexivity. Qed.

Lemma collection_of_filename : dict_get ab_collection_map (Some "0x2") = None.
Proof. reflexivity. Qed.

(** Every attribute is filed in the map under the code of its class. *)
Lemma ab_collection_map_classes (r : BlacklistRef) :
  ab_collection_map !! hex_type (ref_class r) = Some r.
Proof. now destruct r. Qed.

(** Every type name but [filename] leads to the collection of its code. *)
Lemma types_with_collection (name code : string) :
  AUTOBAHN_TYPES !! name = Some code ->
  name <> "filename" ->
  exists r, ab_collection_map !! code = Some r /\ hex_type (ref_class r) = code.
Proof.
  intros Hty Hname.
  assert (Hin : (name, code) ∈ map_to_list AUTOBAHN_TYPES)
    by now apply elem_of_map_to_list.
  assert (Hall : Forall (fun kv : string * string =>
              kv.1 = "filename" \/
              exists r, ab_collection_map !! kv.2 = Some r /\
                        hex_type (ref_class r) = kv.2)
            (map_to_list AUTOBAHN_TYPES)).
  { vm_compute map_to_list.
    repeat (apply Forall_cons; split;
      [first [ left; reflexivity | right; eexists; split; reflexivity ] |]).
    apply Forall_nil_2. }
  rewrite Forall_forall in Hall. destruct (Hall _ Hin) as [Heq|Hr]; [|exact Hr].
  simpl in Heq. contradiction.
Qed.

(** The loop of [add] does nothing for a type without a code or without a
    collection. *)
Lemma add_loop_skips (client : Client) (hex_type : option string)
    (coll : option BlacklistRef) (items : list string) (l : Lists) (db : ArangoDB) :
  hex_type = None \/ coll = None ->
  add_loop client hex_type coll items l db = (db, Ret l).
Proof.
  intros H. induction items as [|item rest IH]; [reflexivity|]. simpl.
  destruct hex_type as [h|], coll as [r|]; try exact IH.
  destruct H; discriminate.
Qed.

(** C1.  The type [filename] has the code [0x2] of the class
    [AutobahnFilenameBlacklist], but [ab_collection_map] has no entry for that
    code (the seven other classes are filed under theirs): [add] with the type
    [filename] stores nothing, whatever the items, and answers with a report
    without a section, and [query] with that type raises [KeyError]. *)
Theorem filename_type_has_no_collection :
  AUTOBAHN_TYPES !! "filename" = Some (hex_type AutobahnFilenameBlacklist) /\
  ab_collection_map !! hex_type AutobahnFilenameBlacklist = None /\
  (forall r : BlacklistRef, ab_collection_map !! hex_type (ref_class r) = Some r) /\
  (forall (client : Client) (msg : Message) (items : list string) (db : ArangoDB),
     add client msg ("filename" :: items) db
     = (db, Ret (Report "filename" no_items ""))) /\
  (forall (code : option CodeArg) (db : ArangoDB),
     query {| kw_type := Some "filename"; kw_code := code |} db = (db, Raise KeyError)).
Proof.
  split; [reflexivity|]. split; [reflexivity|].
  split; [exact ab_collection_map_classes|]. split.
  - intros client msg items db. unfold add. cbv zeta.
    rewrite types_filename, collection_of_filename.
    unfold mbind, Cmd_bind.
    rewrite add_loop_skips by (right; reflexivity).
    simpl. now rewrite !andb_false_r.
  - intros code db. unfold query. cbv zeta. cbn [kw_type kw_code].
    rewrite types_filename. unfold dict_item.
    now rewrite collection_of_filename.
Qed.

(** ** Normalisation of top-level domains *)

(** C6, as the claim states it, fails: of ["co.uk"] the normalisation keeps
    ["couk"], not the string without its leading dots (which is ["co.uk"]
    itself). *)
Lemma tld_interior_dot_counterexample :
  lstrip_char "." "co.uk" = "co.uk" /\
  normalise offline_client "0x7" "co.uk" = Keep (Some (IStr "couk")) /\
  normalise offline_client "0x7" "co.uk"
    <> Keep (Some (IStr (lstrip_char "." "co.uk"))).
Proof. repeat split; [reflexivity..|discriminate]. Qed.

(** C6, amended.  The normalisation of a top-level domain removes every dot of
    the string, leading or not, and keeps the other characters in their order;
    the result has no dot, and it is the string without its leading dots
    exactly when that string has no further dot (so [".com"] becomes
    ["com"]). *)
Theorem tld_removes_every_dot (client : Client) (item : string) :
  normalise client "0x7" item = Keep (Some (IStr (without_char "." item))) /\
  count_char "." (without_char "." item) = 0%nat /\
  (count_char "." (lstrip_char "." item) = 0%nat <->
   without_char "." item = lstrip_char "." item).
Proof.
  split; [|split].
  - change (normalise client "0x7" item)
      with (Keep (Some (IStr (str_replace item "." "")))).
    now rewrite str_replace_char.
  - apply without_char_count.
  - split.
    + intros Hfree. rewrite <- without_char_lstrip. now apply without_char_free.
    + intros <-. apply without_char_count.
Qed.

Lemma tld_removes_every_dot_witness :
  normalise offline_client "0x7" ".com" = Keep (Some (IStr "com")) /\
  without_char "." ".com" = lstrip_char "." ".com".
Proof.
  split.
  - exact (proj1 (tld_removes_every_dot offline_client ".com")).
  - apply (proj1 (proj2 (proj2 (tld_removes_every_dot offline_client ".com")))).
    reflexivity.
Defined.

(** ** Malformed arguments *)

(** C8, as the claim states it, fails: [query] with an unknown type raises
    [KeyError], and [add] with an unknown type answers with a report without
    any section, so nothing tells the user about the type. *)
Lemma unknown_type_counterexample :
  snd (query {| kw_type := Some "nonsense"; kw_code := None |} empty_db)
    = Raise KeyError /\
  snd (add offline_client plain_message ["nonsense"; "example.com"] empty_db)
    = Ret (Report "nonsense" no_items "") /\
  sections (Report "nonsense" no_items "") = [].
Proof. repeat split; reflexivity. Qed.

(** C8, amended.  [add] with a type name that is no blacklist type does not
    raise and changes no collection, whatever the items; it answers with a
    report that has no section (no added, existing or skipped items and no
    warning). *)
Theorem add_unknown_type_silent (client : Client) (msg : Message)
    (item_type : string) (items : list string) (db : ArangoDB) :
  AUTOBAHN_TYPES !! item_type = None ->
  add client msg (item_type :: items) db = (db, Ret (Report item_type no_items "")) /\
  sections (Report item_type no_items "") = [].
Proof.
  intros Hty. split; [|reflexivity]. unfold add. cbv zeta. rewrite Hty.
  unfold mbind, Cmd_bind.
  rewrite add_loop_skips by (left; reflexivity).
  simpl. now rewrite !andb_false_r.
Qed.

Lemma add_unknown_type_silent_witness :
  add offline_client plain_message ["nonsense"; "example.com"] empty_db
  = (empty_db, Ret (Report "nonsense" no_items "")) /\
  sections (Report "nonsense" no_items "") = [].
Proof.
  apply (add_unknown_type_silent offline_client plain_message "nonsense"
           ["example.com"] empty_db).
  reflexivity.
Defined.

(** ** Adding a value twice *)

Lemma fetchByExample_nil (c : AutobahnBlacklist) (v : PyItem) :
  fetchByExample c v = [] <-> v ∉ values c.
Proof.
  unfold fetchByExample, values. induction (bl_docs c) as [|d ds IH]; simpl.
  - split; [intros _; apply not_elem_of_nil | reflexivity].
  - rewrite not_elem_of_cons. unfold matches at 1.
    destruct (decide (bl_string d = v)) as [Heq|Hne].
    + rewrite bool_decide_eq_true_2 by exact Heq.
      split; [discriminate | intros [Hv _]; congruence].
    + rewrite bool_decide_eq_false_2 by exact Hne.
      rewrite IH. split; [intros H; split; [congruence | exact H] | intros [_ H]; exact H].
Qed.

(** [add_item] with a value the validation accepts, and with one it
    refuses. *)
Lemma add_item_valid (c : AutobahnBlacklist) (v : PyItem) :
  not_null (Some v) = true ->
  add_item v c
  = ({| bl_docs := bl_docs c ++ [{| bl_key := bl_keys c (bl_saved c); bl_string := v |}];
        bl_keys := bl_keys c;
        bl_saved := S (bl_saved c) |},
     Ret (Some {| bl_key := bl_keys c (bl_saved c); bl_string := v |})).
Proof. intros Hv. unfold add_item. now rewrite Hv. Qed.

Lemma add_item_refused (c : AutobahnBlacklist) (v : PyItem) :
  not_null (Some v) = false -> add_item v c = (c, Raise InvalidDocument).
Proof. intros Hv. unfold add_item. now rewrite Hv. Qed.

Lemma values_add_item (c : AutobahnBlacklist) (v : PyItem) :
  not_null (Some v) = true -> values (fst (add_item v c)) = values c ++ [v].
Proof.
  intros Hv. rewrite add_item_valid by exact Hv. unfold values. cbn [fst bl_docs].
  now rewrite fmap_app.
Qed.

Lemma fetchByExample_add_item (c : AutobahnBlacklist) (v : PyItem) :
  not_null (Some v) = true -> fetchByExample (fst (add_item v c)) v <> [].
Proof.
  intros Hv. rewrite fetchByExample_nil. intros Hnot. apply Hnot.
  rewrite values_add_item by exact Hv. apply elem_of_app. right.
  apply list_elem_of_singleton. reflexivity.
Qed.

Lemma store_item_absent (c : AutobahnBlacklist) (v : PyItem) :
  (v ∉ values c) -> not_null (Some v) = true ->
  store_item v c = (fst (add_item v c), Ret Added).
Proof.
  intros H Hv. apply fetchByExample_nil in H. unfold store_item.
  rewrite H, add_item_valid by exact Hv. reflexivity.
Qed.

Lemma store_item_refused (c : AutobahnBlacklist) (v : PyItem) :
  (v ∉ values c) -> not_null (Some v) = false ->
  store_item v c = (c, Raise InvalidDocument).
Proof.
  intros H Hv. apply fetchByExample_nil in H. unfold store_item.
  rewrite H, add_item_refused by exact Hv. reflexivity.
Qed.

Lemma store_item_present (c : AutobahnBlacklist) (v : PyItem) :
  fetchByExample c v <> [] -> store_item v c = (c, Ret AlreadyExists).
Proof.
  intros H. unfold store_item. now destruct (fetchByExample c v).
Qed.

(** The three outcomes of [store_item]. *)
Lemma store_item_cases (v : PyItem) (c : AutobahnBlacklist) :
  ((v ∉ values c) /\ not_null (Some v) = true /\
   store_item v c = (fst (add_item v c), Ret Added)) \/
  ((v ∉ values c) /\ not_null (Some v) = false /\
   store_item v c = (c, Raise InvalidDocument)) \/
  (v ∈ values c /\ store_item v c = (c, Ret AlreadyExists)).
Proof.
  destruct (decide (v ∈ values c)) as [Hin|Hout].
  - right. right. split; [exact Hin|]. apply store_item_present.
    intros E. apply fetchByExample_nil in E. contradiction.
  - destruct (not_null (Some v)) eqn:Hv.
    + left. split; [exact Hout|]. split; [reflexivity|].
      now apply store_item_absent.
    + right. left. split; [exact Hout|]. split; [reflexivity|].
      now apply store_item_refused.
Qed.

Lemma store_item_holds (c : AutobahnBlacklist) (v : PyItem) :
  not_null (Some v) = true -> fetchByExample (fst (store_item v c)) v <> [].
Proof.
  intros Hv.
  destruct (store_item_cases v c) as [(_ & _ & ->)|[(_ & Hv' & _)|(Hin & ->)]].
  - now apply fetchByExample_add_item.
  - congruence.
  - cbn [fst]. intros E. apply fetchByExample_nil in E. contradiction.
Qed.

(** Storing keeps the values of a blacklist distinct. *)
Lemma store_item_NoDup (c : AutobahnBlacklist) (v : PyItem) :
  NoDup (values c) -> NoDup (values (fst (store_item v c))).
Proof.
  intros Hnd.
  destruct (store_item_cases v c) as [(Hout & Hv & ->)|[(_ & _ & ->)|(_ & ->)]];
    try exact Hnd.
  cbn [fst]. rewrite values_add_item by exact Hv.
  apply NoDup_app. split; [exact Hnd|]. split; [|apply NoDup_singleton].
  intros x Hx Hx'. apply list_elem_of_singleton in Hx'. now subst.
Qed.

(** C3, as the claim states it, fails twice.  In a blacklist that already
    holds ["spam"], adding ["spam"] twice reports an existing value both times
    and the number of entries does not grow at all.  And the empty string,
    which the validation of the collection refuses, is never stored: both
    adds raise [InvalidDocument], the second reports no existing value, and
    the number of entries does not grow. *)
Lemma add_twice_present_counterexample :
  (let c1 := fst (store_item (IStr "spam") spam_blacklist) in
   let c2 := fst (store_item (IStr "spam") c1) in
   snd (store_item (IStr "spam") spam_blacklist) = Ret AlreadyExists /\
   entries c2 = entries spam_blacklist /\
   entries c2 <> S (entries spam_blacklist)) /\
  (let c1 := fst (store_item (IStr "") empty_blacklist) in
   let c2 := fst (store_item (IStr "") c1) in
   snd (store_item (IStr "") empty_blacklist) = Raise InvalidDocument /\
   snd (store_item (IStr "") c1) = Raise InvalidDocument /\
   snd (store_item (IStr "") c1) <> Ret AlreadyExists /\
   entries c2 <> S (entries empty_blacklist)).
Proof. repeat split; first [reflexivity | discriminate]. Qed.

(** C3, amended.  For every value the validation accepts (every value but the
    empty string) and every blacklist, the second of two adds in sequence
    reports that the value exists and creates no entry.  Over the two calls
    the number of entries grows by exactly one when the value was not in the
    blacklist before, and not at all when it was.  Distinct values stay
    distinct. *)
Theorem add_twice (c : AutobahnBlacklist) (v : PyItem) :
  not_null (Some v) = true ->
  let c1 := fst (store_item v c) in
  let c2 := fst (store_item v c1) in
  snd (store_item v c1) = Ret AlreadyExists /\
  c2 = c1 /\
  ((v ∉ values c) ->
   snd (store_item v c) = Ret Added /\ entries c2 = S (entries c)) /\
  (v ∈ values c ->
   snd (store_item v c) = Ret AlreadyExists /\ entries c2 = entries c) /\
  (NoDup (values c) -> NoDup (values c2)).
Proof.
  intros Hv c1 c2.
  assert (Hsecond : store_item v c1 = (c1, Ret AlreadyExists))
    by (apply store_item_present, store_item_holds, Hv).
  assert (Hc2 : c2 = c1) by (unfold c2; now rewrite Hsecond).
  split; [now rewrite Hsecond|]. split; [exact Hc2|]. rewrite Hc2. unfold c1.
  split; [|split].
  - intros Hout. rewrite store_item_absent by assumption. split; [reflexivity|].
    cbn [fst]. rewrite add_item_valid by exact Hv.
    unfold entries. cbn [fst bl_docs]. rewrite length_app. simpl. lia.
  - intros Hin. rewrite store_item_present; [now split|].
    now rewrite fetchByExample_nil.
  - apply store_item_NoDup.
Qed.

Lemma add_twice_witness :
  snd (store_item (IStr "spam") empty_blacklist) = Ret Added /\
  entries (fst (store_item (IStr "spam") (fst (store_item (IStr "spam") empty_blacklist))))
    = S (entries empty_blacklist).
Proof.
  refine (proj1 (proj2 (proj2 (add_twice empty_blacklist (IStr "spam") eq_refl))) _).
  apply not_elem_of_nil.
Defined.

Lemma collection_with_collection (db : ArangoDB) (r : BlacklistRef)
    (c : AutobahnBlacklist) :
  collection (with_collection db r c) r = c.
Proof. now destruct r. Qed.

(** One item of a type whose values are stored as they are typed: [add] is
    [store_item] on the collection of the type. *)
Lemma add_string_once (client : Client) (msg : Message) (v : string) (db : ArangoDB) :
  add client msg ["string"; v] db =
  match store_item (IStr v) (ab_string_blacklist db) with
  | (c', Ret Added) =>
      (with_collection db Ref_string c',
       Ret (Report "string" (add_added (IStr v) no_items) ""))
  | (_, Ret AlreadyExists) =>
      (db, Ret (Report "string" (add_existing (IStr v) no_items) ""))
  | (_, Raise e) => (db, Raise e)
  end.
Proof.
  unfold add. cbv zeta.
  change (AUTOBAHN_TYPES !! "string") with (Some "0x1").
  change (dict_get ab_collection_map (Some "0x1")) with (Some Ref_string).
  cbn [add_loop no_items_given andb].
  change (add_step client "0x1" Ref_string no_items v)
    with (store_shown Ref_string (IStr v) (IStr v) no_items).
  unfold store_shown, the_collection, put_collection, mbind, Cmd_bind, mret, Cmd_ret.
  cbn [collection].
  now destruct (store_item (IStr v) (ab_string_blacklist db)) as [c' [[]|e]].
Qed.

(** The collection behind [r] after the loop body of [add] has stored a
    value. *)
Lemma add_step_collection (client : Client) (hex_type : string) (r : BlacklistRef)
    (item : string) (it : PyItem) (l : Lists) (db : ArangoDB) :
  normalise client hex_type item = Keep (Some it) ->
  collection (fst (add_step client hex_type r l item db)) r
  = fst (store_item it (collection db r)).
Proof.
  intros Hnorm. unfold add_step. rewrite Hnorm.
  unfold store_shown, the_collection, put_collection, mbind, Cmd_bind, mret, Cmd_ret.
  destruct (store_item_cases it (collection db r))
    as [(_ & _ & ->)|[(_ & _ & ->)|(_ & ->)]]; try reflexivity.
  cbn [fst]. apply collection_with_collection.
Qed.

(** The loop body of [add] twice on the same item, for any type whose
    normalisation keeps a value the validation accepts: the second run files
    the value under the existing items and leaves the database as the first
    left it. *)
Lemma add_step_twice (client : Client) (hex_type : string) (r : BlacklistRef)
    (item : string) (it : PyItem) (l l' : Lists) (db : ArangoDB) :
  normalise client hex_type item = Keep (Some it) ->
  not_null (Some it) = true ->
  let db1 := fst (add_step client hex_type r l item db) in
  add_step client hex_type r l' item db1 = (db1, Ret (add_existing it l')).
Proof.
  intros Hnorm Hv db1.
  pose proof (add_step_collection client hex_type r item it l db Hnorm) as Hcoll.
  fold db1 in Hcoll.
  unfold add_step. rewrite Hnorm.
  unfold store_shown, the_collection, mbind, Cmd_bind, mret, Cmd_ret.
  rewrite Hcoll, store_item_present by (apply store_item_holds, Hv).
  reflexivity.
Qed.

(** The same at the level of the command: the second [add] of a message text
    lists it under the existing items and leaves the database as the first
    left it. *)
Lemma add_string_twice (client : Client) (msg : Message) (v : string) (db : ArangoDB) :
  v <> "" ->
  let db1 := fst (add client msg ["string"; v] db) in
  add client msg ["string"; v] db1
  = (db1, Ret (Report "string" (add_existing (IStr v) no_items) "")).
Proof.
  intros Hne db1.
  assert (Hv : not_null (Some (IStr v)) = true).
  { cbn. apply negb_true_iff, String.eqb_neq, Hne. }
  rewrite add_string_once.
  assert (Hcoll : ab_string_blacklist db1 = fst (store_item (IStr v) (ab_string_blacklist db))).
  { unfold db1. rewrite add_string_once.
    destruct (store_item_cases (IStr v) (ab_string_blacklist db))
      as [(_ & _ & ->)|[(_ & _ & ->)|(_ & ->)]]; reflexivity. }
  rewrite Hcoll, store_item_present by (apply store_item_holds, Hv).
  reflexivity.
Qed.

(** ** The ban list *)


(** ** Decimal forms *)

Lemma to_int_proper (z : Z) :
  Z.to_int z <> Decimal.Pos Decimal.Nil /\ Z.to_int z <> Decimal.Neg Decimal.Nil.
Proof.
  destruct z as [|q|q]; split; try discriminate; intros [= H];
    exact (DecimalPos.Unsigned.to_uint_nonnil q H).
Qed.

(** Different integers have different decimal forms. *)
Lemma str_of_Z_inj (a b : Z) : str_of_Z a = str_of_Z b -> a = b.
Proof.
  unfold str_of_Z. intros H.
  apply DecimalZ.to_int_inj.
  assert (Ha := NilZero.isi (Z.to_int a) (proj1 (to_int_proper a)) (proj2 (to_int_proper a))).
  assert (Hb := NilZero.isi (Z.to_int b) (proj1 (to_int_proper b)) (proj2 (to_int_proper b))).
  rewrite H in Ha. congruence.
Qed.

Lemma all_digits_uint (d : Decimal.uint) :
  all_digits (NilEmpty.string_of_uint d) = true.
Proof. induction d; simpl; auto. Qed.

Lemma int_go_uint (d : Decimal.uint) :
  forall q : positive,
    int_go (Z.pos q) (NilEmpty.string_of_uint d) = Z.pos (Pos.of_uint_acc d q).
Proof.
  induction d; intros q; simpl; try reflexivity;
    rewrite <- IHd; f_equal;
    match goal with
    | |- context [Z.of_nat (nat_of_ascii ?c)] =>
        let v := eval vm_compute in (Z.of_nat (nat_of_ascii c)) in
        change (Z.of_nat (nat_of_ascii c)) with v
    end; lia.
Qed.

Lemma int_go_uint_0 (d : Decimal.uint) :
  int_go 0 (NilEmpty.string_of_uint d) = Z.of_N (Pos.of_uint d).
Proof.
  induction d; simpl; try reflexivity; try exact IHd;
    rewrite <- int_go_uint; reflexivity.
Qed.

(** An ASCII digit is one character, a decimal digit with its value. *)
Lemma ascii_digit_char (c : ascii) :
  is_digit c = true ->
  (N_of_ascii c <? 128)%N = true /\
  decimal (N_of_ascii c) = Some (Z.of_nat (nat_of_ascii c) - 48)%Z /\
  is_digit_char (Some (N_of_ascii c)) = true.
Proof.
  destruct c as [[] [] [] [] [] [] [] []]; intros H; vm_compute in H;
    try discriminate H; vm_compute; repeat split.
Qed.

Lemma code_points_ascii (c : ascii) (s : string) :
  (N_of_ascii c <? 128)%N = true ->
  code_points (String c s) = Some (N_of_ascii c) :: code_points s.
Proof. intros H. cbn [code_points]. cbv zeta. now rewrite H. Qed.

Lemma isdigit_ascii (s : string) :
  all_digits s = true -> forallb is_digit_char (code_points s) = true.
Proof.
  induction s as [|c s IH]; [reflexivity|]. cbn [all_digits].
  intros H. apply andb_true_iff in H as [Hc Hs].
  destruct (ascii_digit_char c Hc) as (Hlow & _ & Hdigit).
  rewrite code_points_ascii by exact Hlow. cbn [forallb].
  now rewrite Hdigit, IH.
Qed.

Lemma int_digits_ascii (s : string) :
  all_digits s = true ->
  forall acc : Z, int_digits acc (code_points s) = Ret (int_go acc s).
Proof.
  induction s as [|c s IH]; [reflexivity|]. cbn [all_digits].
  intros H acc. apply andb_true_iff in H as [Hc Hs].
  destruct (ascii_digit_char c Hc) as (Hlow & Hvalue & _).
  rewrite code_points_ascii by exact Hlow. cbn [int_digits int_go].
  rewrite Hvalue. now apply IH.
Qed.

(** A non-empty string of ASCII digits is accepted by [isdigit], and [int]
    reads the number it spells. *)
Lemma int_of_str_ascii (c : ascii) (s : string) :
  all_digits (String c s) = true ->
  isdigit (String c s) = true /\
  int_of_str (String c s) = Ret (int_go 0 (String c s)).
Proof.
  intros H. unfold isdigit, int_of_str.
  pose proof (isdigit_ascii _ H) as Hd.
  pose proof (int_digits_ascii _ H 0%Z) as Hi.
  assert (Hc : is_digit c = true) by (cbn in H; now apply andb_true_iff in H).
  destruct (ascii_digit_char c Hc) as (Hlow & _ & _).
  rewrite code_points_ascii in Hd, Hi |- * by exact Hlow.
  now split.
Qed.

(** [int(str(n)) == n], and [str(n).isdigit()], for a natural number. *)
Lemma int_of_str_of_Z (n : Z) :
  (0 <= n)%Z -> isdigit (str_of_Z n) = true /\ int_of_str (str_of_Z n) = Ret n.
Proof.
  intros Hn. destruct n as [|q|q]; [split; reflexivity| |lia].
  unfold str_of_Z. cbn [Z.to_int NilZero.string_of_int].
  assert (Hnil := DecimalPos.Unsigned.to_uint_nonnil q).
  assert (Hstr : NilZero.string_of_uint (Pos.to_uint q)
                 = NilEmpty.string_of_uint (Pos.to_uint q))
    by (unfold NilZero.string_of_uint; now destruct (Pos.to_uint q)).
  rewrite Hstr.
  pose proof (all_digits_uint (Pos.to_uint q)) as Hall.
  pose proof (int_go_uint_0 (Pos.to_uint q)) as Hgo.
  rewrite DecimalPos.Unsigned.of_to in Hgo.
  destruct (NilEmpty.string_of_uint (Pos.to_uint q)) as [|c s] eqn:E.
  - destruct (Pos.to_uint q); try discriminate E. contradiction.
  - destruct (int_of_str_ascii c s Hall) as [Hd Hi].
    split; [exact Hd|]. rewrite Hi. f_equal. exact Hgo.
Qed.

(** The decimal form of a number from 0 on, as the value of the tag, is true
    and gives that number as the delay. *)
Lemma delay_of_digits (n : Z) :
  (0 <= n)%Z ->
  Tags.truthy (Some (TagStr (str_of_Z n))) = true /\
  delay_of (Some (TagStr (str_of_Z n))) = Ret (TagInt n).
Proof.
  intros Hn. destruct (int_of_str_of_Z n Hn) as [Hdigit Hint].
  unfold delay_of, Tags.truthy. rewrite Hdigit, Hint. split; [|reflexivity].
  destruct (str_of_Z n); [discriminate Hdigit|reflexivity].
Qed.

(** ** Tags *)

Lemma Tags_get_absent (doc : ChatDoc) (tag_name : string) (default : option TagValue) :
  absent doc tag_name -> Tags.get doc tag_name default = default.
Proof.
  intros [Hnamed Htags]. unfold Tags.get. rewrite Hnamed.
  now rewrite bool_decide_eq_false_2.
Qed.

(** [kriminalamt] returns at once, having done nothing, when its tag gives
    nothing or the user is a bot. *)
Lemma kriminalamt_returns_early (p : Platform) (event : ChatAction) :
  tags_get p "kriminalamt" None = None \/ bot (user p) = true ->
  kriminalamt p event = ([], Ret tt).
Proof.
  intros H. unfold kriminalamt. cbv zeta.
  destruct (user_joined event); [|reflexivity]. cbn [negb].
  destruct H as [-> | ->]; [reflexivity|]. now rewrite orb_true_r.
Qed.

(** ** The delayed-action automation *)

(** C7.  In a chat where the [kriminalamt] tag is absent (the look-up gives
    [None]), and for a joining account that is a bot, the handler returns with
    an empty trace: no wait, no global ban, no ban, no deletion. *)
Theorem kriminalamt_disabled (p : Platform) (event : ChatAction) :
  tags_get p "kriminalamt" None = None \/ bot (user p) = true ->
  kriminalamt p event = ([], Ret tt).
Proof. apply kriminalamt_returns_early. Qed.

Lemma kriminalamt_disabled_witness :
  kriminalamt (group ∅) join_of_42 = ([], Ret tt).
Proof.
  apply (kriminalamt_disabled (group ∅) join_of_42).
  left. reflexivity.
Defined.

Lemma append_empty_r (s : string) : s +:+ "" = s.
Proof.
  induction s as [|a s IH]; [reflexivity|].
  change (String a (s +:+ "") = String a s). now rewrite IH.
Qed.

Lemma append_assoc (s t u : string) : (s +:+ t) +:+ u = s +:+ t +:+ u.
Proof.
  induction s as [|a s IH]; [reflexivity|].
  change (String a ((s +:+ t) +:+ u) = String a (s +:+ t +:+ u)). now rewrite IH.
Qed.

(** The reason names the chat and the delay. *)
Lemma kriminalamt_reason_contains (chat_id : Z) (delay : TagValue) :
  contains (kriminalamt_reason chat_id delay) (str_of_Z chat_id) /\
  contains (kriminalamt_reason chat_id delay) (Tags.fmt delay).
Proof.
  unfold contains, kriminalamt_reason. split.
  - exists "Kriminalamt #", (" No. " +:+ Tags.fmt delay). reflexivity.
  - exists ("Kriminalamt #" +:+ str_of_Z chat_id +:+ " No. "), "".
    now rewrite append_empty_r, !append_assoc.
Qed.

(** The run of [kriminalamt] on a join, with its tag true, of an account
    that is no bot, when the delay can be read: what it does after the global
    ban asks for no further global ban. *)
Lemma kriminalamt_run (p : Platform) (event : ChatAction) (delay : TagValue) :
  user_joined event = true ->
  Tags.truthy (tags_get p "kriminalamt" None) = true ->
  bot (user p) = false ->
  delay_of (tags_get p "kriminalamt" None) = Ret delay ->
  exists rest : list Action,
    gbans rest = [] /\
    trace (kriminalamt p event)
    = Sleep delay :: GetParticipant (id (chat p)) ::
      (if participant p then []
       else Gban (user_id event) (kriminalamt_reason (id (chat p)) delay) :: rest) /\
    outcome (kriminalamt p event) = Ret tt.
Proof.
  intros Hjoin Htag Hbot Hdelay. unfold kriminalamt. cbv zeta.
  rewrite Hjoin, Htag, Hbot, Hdelay. cbn [negb orb].
  fold (kriminalamt_reason (id (chat p)) delay).
  destruct (participant p).
  - exists []. repeat split.
  - destruct (creator (chat p)), (admin_rights (chat p)),
      (Tags.equals (tags_get p "gbancmd" (Some (TagStr "manual"))) "manual"),
      (tags_get p "gbancmd" (Some (TagStr "manual"))),
      (messages_total p <=? 5)%Z;
      cbn; eexists; (split; [|split]; [|reflexivity|reflexivity]); reflexivity.
Qed.

(** When [int] cannot read the tag that [isdigit] accepted, the handler
    raises before it waits. *)
Lemma kriminalamt_unreadable (p : Platform) (event : ChatAction) (e : Exn) :
  user_joined event = true ->
  Tags.truthy (tags_get p "kriminalamt" None) = true ->
  bot (user p) = false ->
  delay_of (tags_get p "kriminalamt" None) = Raise e ->
  kriminalamt p event = ([], Raise e).
Proof.
  intros Hjoin Htag Hbot Hdelay. unfold kriminalamt. cbv zeta.
  now rewrite Hjoin, Htag, Hbot, Hdelay.
Qed.

(** The ban list after a trace is the ban list after its global bans. *)
Lemma recorded_gbans (t : list Action) (bans : gmap string BanDoc) :
  recorded t bans
  = foldl (fun b g => gban (fst g) (snd g) b) bans (gbans t).
Proof.
  revert bans. unfold recorded, gbans.
  induction t as [|a t IH]; intros bans; [reflexivity|].
  cbn [foldl omap list_omap]. rewrite IH. now destruct a.
Qed.

(** C4, as the claim states it, fails twice, both times by what the handler
    and the ban list are meant to do.  With the tag set to 1 and the account
    gone when asked: the join of a bot gets no record, the handler does
    nothing for bots; and the join of user 42, who has a record already, gets
    the global ban but no new record, the first ban wins. *)
Lemma kriminalamt_no_record_counterexample :
  (tags_get (bot_joins {[ "kriminalamt" := TagInt 1 ]}) "kriminalamt" None
   = Some (TagInt 1) /\
   participant (bot_joins {[ "kriminalamt" := TagInt 1 ]}) = false /\
   kriminalamt (bot_joins {[ "kriminalamt" := TagInt 1 ]}) join_of_42 = ([], Ret tt) /\
   recorded (trace (kriminalamt (bot_joins {[ "kriminalamt" := TagInt 1 ]}) join_of_42)) ∅
   = ∅) /\
  (participant (group {[ "kriminalamt" := TagInt 1 ]}) = false /\
   gbans (trace (kriminalamt (group {[ "kriminalamt" := TagInt 1 ]}) join_of_42))
   = [(Some 42%Z, "Kriminalamt #-100 No. 1")] /\
   recorded (trace (kriminalamt (group {[ "kriminalamt" := TagInt 1 ]}) join_of_42))
     (banlist spam_db)
   = banlist spam_db /\
   get_user 42 (banlist spam_db)
   = Some {| ban_key := "42"; ban_id := 42; reason := "spam bot" |}).
Proof. repeat split. Qed.

(** C4, amended.  On every join of an account that is no bot, in a chat whose
    [kriminalamt] tag is true and gives a delay that can be read, the handler
    waits for that delay and then asks for the membership of the user, and it
    returns.  When the user then is no longer a participant and has no record
    in the ban list, the global ban of the run creates exactly one record,
    for that user, and its reason contains the chat id and the delay; a user
    who has a record keeps it and no record is created.  When the user is
    still a participant, no record is created.  The delay is the tag when
    that is a number, the number a tag of decimal digits spells, and 1 for
    any other true tag that [isdigit] does not accept. *)
Theorem kriminalamt_departed_banned_once (p : Platform) (event : ChatAction)
    (uid : Z) (delay : TagValue) :
  user_joined event = true ->
  Tags.truthy (tags_get p "kriminalamt" None) = true ->
  bot (user p) = false ->
  delay_of (tags_get p "kriminalamt" None) = Ret delay ->
  user_id event = Some uid ->
  let why := kriminalamt_reason (id (chat p)) delay in
  let run := kriminalamt p event in
  (exists rest : list Action,
     trace run = Sleep delay :: GetParticipant (id (chat p)) :: rest) /\
  outcome run = Ret tt /\
  (forall bans : gmap string BanDoc,
     participant p = false ->
     get_user uid bans = None ->
     recorded (trace run) bans
     = <[str_of_Z uid := {| ban_key := str_of_Z uid; ban_id := uid; reason := why |}]> bans /\
     size (recorded (trace run) bans) = S (size bans) /\
     get_user uid (recorded (trace run) bans)
     = Some {| ban_key := str_of_Z uid; ban_id := uid; reason := why |} /\
     contains why (str_of_Z (id (chat p))) /\
     contains why (Tags.fmt delay)) /\
  (forall bans : gmap string BanDoc,
     participant p = false ->
     is_Some (get_user uid bans) ->
     recorded (trace run) bans = bans) /\
  (forall bans : gmap string BanDoc,
     participant p = true -> recorded (trace run) bans = bans) /\
  (forall n : Z,
     tags_get p "kriminalamt" None = Some (TagInt n) ->
     delay = TagInt n /\ Tags.fmt delay = str_of_Z n) /\
  (forall n : Z,
     (0 <= n)%Z ->
     tags_get p "kriminalamt" None = Some (TagStr (str_of_Z n)) ->
     delay = TagInt n /\ Tags.fmt delay = str_of_Z n) /\
  (forall s : string,
     tags_get p "kriminalamt" None = Some (TagStr s) ->
     isdigit s = false -> delay = TagInt 1).
Proof.
  intros Hjoin Htag Hbot Hdelay Huid why run.
  destruct (kriminalamt_run p event delay Hjoin Htag Hbot Hdelay)
    as (rest & Hrest & Htrace & Hout).
  fold run in Htrace, Hout. fold why in Htrace.
  assert (Hgbans : gbans (trace run)
                   = if participant p then [] else [(Some uid, why)]).
  { rewrite Htrace, Huid. destruct (participant p); [reflexivity|].
    change ((Some uid, why) :: gbans rest = [(Some uid, why)]). now rewrite Hrest. }
  split; [rewrite Htrace; eauto|]. split; [exact Hout|].
  split; [|split; [|split; [|split; [|split]]]].
  - intros bans Hgone Hnone. rewrite recorded_gbans, Hgbans, Hgone.
    unfold get_user in Hnone |- *. cbn [foldl fst snd gban]. rewrite Hnone.
    split; [reflexivity|]. split; [now apply map_size_insert_None|].
    split; [apply lookup_insert_eq|]. apply kriminalamt_reason_contains.
  - intros bans Hgone [doc Hdoc]. rewrite recorded_gbans, Hgbans, Hgone.
    unfold get_user in Hdoc. cbn [foldl fst snd gban]. now rewrite Hdoc.
  - intros bans Hhere. now rewrite recorded_gbans, Hgbans, Hhere.
  - intros n Hn. rewrite Hn in Hdelay. injection Hdelay as <-. now split.
  - intros n Hpos Hn. rewrite Hn in Hdelay.
    rewrite (proj2 (delay_of_digits n Hpos)) in Hdelay.
    injection Hdelay as <-. now split.
  - intros s Hs Hno. rewrite Hs in Hdelay. cbn [delay_of] in Hdelay.
    rewrite Hno in Hdelay. now injection Hdelay as <-.
Qed.

Lemma kriminalamt_departed_banned_once_witness :
  recorded (trace (kriminalamt (unbanned_group {[ "kriminalamt" := TagInt 1 ]})
                     join_of_42)) ∅
  = {[ "42" := {| ban_key := "42"; ban_id := 42;
                  reason := "Kriminalamt #-100 No. 1" |} ]} /\
  size (recorded (trace (kriminalamt (unbanned_group {[ "kriminalamt" := TagInt 1 ]})
                           join_of_42)) ∅)
  = 1%nat.
Proof.
  pose proof (kriminalamt_departed_banned_once
                (unbanned_group {[ "kriminalamt" := TagInt 1 ]}) join_of_42 42
                (TagInt 1) eq_refl eq_refl eq_refl eq_refl eq_refl) as H.
  cbv zeta in H.
  destruct (proj1 (proj2 (proj2 H)) ∅ eq_refl (lookup_empty _))
    as (Hrec & Hsize & _).
  split; [exact Hrec | exact Hsize].
Defined.

(** ** The guard *)

(** The guard on an event it handles, about a user of the ban list who is no
    admin, in a chat that does not exclude it: the whole run. *)
Lemma grenzschutz_run (p : Platform) (event : Event) (uid : Z) (doc : BanDoc) :
  qualifying (chat p) event = true ->
  acting_user event = Some uid ->
  banlist (db p) !! str_of_Z uid = Some doc ->
  uid ∉ admins p ->
  Tags.equals (tags_get p "grenzschutz" None) "exclude" = false ->
  Tags.equals (tags_get p "polizei" None) "exclude" = false ->
  let silent := Tags.equals (tags_get p "grenzschutz" None) "silent" in
  grenzschutz p event =
  ((if entity p uid is Some _ then [] else [LogError "ValueError"]) ++
   Ban (id (chat p)) (Some uid) ::
   (if ban_accepted p
    then DeleteEvent ::
         (if silent then []
          else if entity p uid is Some u
               then [Respond (first_name u) uid (reason doc)] else [])
    else [LogError "Error occured while banning"]),
   if ban_accepted p && negb silent && (if entity p uid is Some _ then false else true)
   then Raise UnboundLocalError else Ret tt).
Proof.
  intros Hq Hu Hdoc Hadm Hg Hp silent. unfold grenzschutz. cbv zeta.
  unfold qualifying in Hq.
  destruct event as [e|e]; cbn [is_private acting_user] in Hq, Hu |- *;
    [ destruct (ca_is_private e), (user_left e), (user_kicked e),
        (action_message e) as [[]|]; try discriminate Hq
    | destruct (nm_is_private e); try discriminate Hq ];
    destruct (creator (chat p)), (admin_rights (chat p)) as [[[]]|];
    try discriminate Hq;
    cbn [negb orb andb joined_or_added];
    rewrite ?bool_decide_eq_true_2 by eauto;
    cbn [negb andb ban_users];
    rewrite Hg, Hp, Hu; cbn [orb];
    unfold banlist_query; rewrite Hdoc;
    rewrite bool_decide_eq_false_2 by exact Hadm;
    fold silent;
    destruct (entity p uid), (ban_accepted p), silent; reflexivity.
Qed.

Lemma tags_get_with_tag (p : Platform) (tag_name : string) (v : TagValue)
    (default : option TagValue) :
  tags_get (with_tag p tag_name v) tag_name default = Some v.
Proof. unfold with_tag. cbn [tags_get]. now rewrite String.eqb_refl. Qed.

(** With its own tag set to [exclude] the guard returns before it has done
    anything. *)
Lemma grenzschutz_excluded (p : Platform) (event : Event) :
  tags_get p "grenzschutz" None = Some (TagStr "exclude") ->
  grenzschutz p event = ([], Ret tt).
Proof.
  intros Htag. unfold grenzschutz. cbv zeta. rewrite Htag.
  change (Tags.equals (Some (TagStr "exclude")) "exclude") with true.
  cbn [orb].
  destruct (is_private event); [reflexivity|].
  destruct event as [e|e].
  - destruct (user_left e || user_kicked e); [reflexivity|].
    destruct (action_message e) as [a|]; [|reflexivity].
    destruct (negb (joined_or_added a)); [reflexivity|].
    destruct (negb (creator (chat p)) &&
              negb (bool_decide (is_Some (admin_rights (chat p))))); [reflexivity|].
    now destruct (admin_rights (chat p)) as [[[]]|].
  - destruct (negb (creator (chat p)) &&
              negb (bool_decide (is_Some (admin_rights (chat p))))); [reflexivity|].
    now destruct (admin_rights (chat p)) as [[[]]|].
Qed.

(** C5, as the claim states it, fails where the platform refuses the ban: a
    message of user 42, who is on the ban list and no admin, in a group the
    bot created and that excludes nothing.  [client.ban] is called and raises
    [UserIdInvalidError]; the guard logs the error and returns, and the
    message is not deleted. *)
Lemma grenzschutz_refused_ban_counterexample :
  qualifying (chat (refusing_group ∅)) message_of_42 = true /\
  acting_user message_of_42 = Some 42%Z /\
  is_Some (get_user 42 (banlist (db (refusing_group ∅)))) /\
  (42%Z ∉ admins (refusing_group ∅)) /\
  Tags.equals (tags_get (refusing_group ∅) "grenzschutz" None) "exclude" = false /\
  Tags.equals (tags_get (refusing_group ∅) "polizei" None) "exclude" = false /\
  grenzschutz (refusing_group ∅) message_of_42
  = ([Ban (-100) (Some 42%Z); LogError "Error occured while banning"], Ret tt) /\
  (DeleteEvent ∉ trace (grenzschutz (refusing_group ∅) message_of_42)).
Proof.
  repeat split; try reflexivity.
  - eexists. reflexivity.
  - intros Hin. apply list_elem_of_singleton in Hin. discriminate Hin.
  - intros Hin. repeat (apply elem_of_cons in Hin as [Hin|Hin]; [discriminate Hin|]).
    now apply not_elem_of_nil in Hin.
Qed.

(** C5, amended.  On an event the guard handles, about a user with a record
    in the ban list who is no admin of the chat, in a chat where neither
    [grenzschutz] nor [polizei] is set to [exclude]: the guard calls
    [client.ban] for that user in the chat (before that there is at most the
    log entry of a failed entity resolution).  When the platform accepts the
    ban, the guard then deletes the event; when it refuses, the guard logs
    the error and returns, and nothing is deleted.  The same run in the chat
    with [grenzschutz] set to [exclude] does nothing at all: no ban, no
    deletion, no notification. *)
Theorem grenzschutz_bans_known_user (p : Platform) (event : Event) (uid : Z)
    (doc : BanDoc) :
  qualifying (chat p) event = true ->
  acting_user event = Some uid ->
  banlist (db p) !! str_of_Z uid = Some doc ->
  uid ∉ admins p ->
  Tags.equals (tags_get p "grenzschutz" None) "exclude" = false ->
  Tags.equals (tags_get p "polizei" None) "exclude" = false ->
  let log := if entity p uid is Some _ then [] else [LogError "ValueError"] in
  (ban_accepted p = true ->
   exists after : list Action,
     trace (grenzschutz p event)
     = log ++ Ban (id (chat p)) (Some uid) :: DeleteEvent :: after) /\
  (ban_accepted p = false ->
   grenzschutz p event
   = (log ++ [Ban (id (chat p)) (Some uid);
              LogError "Error occured while banning"], Ret tt)) /\
  grenzschutz (with_tag p "grenzschutz" (TagStr "exclude")) event = ([], Ret tt).
Proof.
  intros Hq Hu Hdoc Hadm Hg Hp log.
  pose proof (grenzschutz_run p event uid doc Hq Hu Hdoc Hadm Hg Hp) as Hrun.
  cbv zeta in Hrun. split; [|split].
  - intros Hban. rewrite Hrun, Hban. cbn [trace fst]. eauto.
  - intros Hban. rewrite Hrun, Hban. reflexivity.
  - apply grenzschutz_excluded, tags_get_with_tag.
Qed.

Lemma grenzschutz_bans_known_user_witness :
  (exists after : list Action,
     trace (grenzschutz (resolving_group ∅) message_of_42)
     = [] ++ Ban (-100) (Some 42%Z) :: DeleteEvent :: after) /\
  grenzschutz (with_tag (resolving_group ∅) "grenzschutz" (TagStr "exclude"))
    message_of_42
  = ([], Ret tt).
Proof.
  assert (Hadm : 42%Z ∉ admins (resolving_group ∅)).
  { intros Hin. apply list_elem_of_singleton in Hin. discriminate Hin. }
  pose proof (grenzschutz_bans_known_user (resolving_group ∅) message_of_42 42
                {| ban_key := "42"; ban_id := 42; reason := "spam bot" |}
                eq_refl eq_refl eq_refl Hadm eq_refl eq_refl) as H.
  cbv zeta in H. split; [exact (proj1 H eq_refl) | exact (proj2 (proj2 H))].
Defined.

(** C2.  A message of user 42, who is on the ban list, in a group the bot
    created, with no tag set and with [get_entity] raising [ValueError]: the
    guard logs the error and goes on; it bans the user, deletes the message
    and then raises [UnboundLocalError] when it builds the notification.  With
    [grenzschutz] set to [silent] it bans and deletes all the same, and
    returns. *)
Theorem grenzschutz_unresolved_user_still_banned :
  entity (group ∅) 42 = None /\
  grenzschutz (group ∅) message_of_42
  = ([LogError "ValueError"; Ban (-100) (Some 42%Z); DeleteEvent],
     Raise UnboundLocalError) /\
  grenzschutz (group {[ "grenzschutz" := TagStr "silent" ]}) message_of_42
  = ([LogError "ValueError"; Ban (-100) (Some 42%Z); DeleteEvent], Ret tt).
Proof. repeat split; reflexivity. Qed.

(** ** Chat documents *)

(** C10, as the claim states it, fails in its last part: chat -100, seen for
    the first time, gets the document with no tag, and in that chat the guard
    is at work all the same: it bans user 42, who is on the ban list, deletes
    the message and notifies the chat. *)
Lemma new_chat_guard_counterexample :
  get_chat (-100) ∅ = ({[ "-100" := group_doc ∅ ]}, Some (group_doc ∅)) /\
  tags (group_doc ∅) = [] /\
  named_tags (group_doc ∅) = ∅ /\
  tags_get (resolving_group ∅) = Tags.get (group_doc ∅) /\
  grenzschutz (resolving_group ∅) message_of_42
  = ([Ban (-100) (Some 42%Z); DeleteEvent; Respond "Eve" 42 "spam bot"], Ret tt).
Proof. repeat split; reflexivity. Qed.

(** C10, amended.  A chat seen for the first time gets a document whose key is
    the decimal form of the chat id, whose [id] is the chat id, and whose
    [tags] and [named_tags] are empty, through [get_chat] as through
    [add_chat] and [add_groups].  No tag is set in it, so every tag look-up
    gives the default: the delayed-action automation, which its tag enables,
    does nothing, and the guard, which a tag can only exclude, bans the users
    of the ban list as in any chat that does not exclude it. *)
Theorem new_chat_document (cs : gmap string ChatDoc) (chat_id : Z) :
  cs !! str_of_Z chat_id = None ->
  let doc := {| chat_key := str_of_Z chat_id; chat_id := chat_id;
                tags := []; named_tags := ∅ |} in
  add_chat chat_id cs = (<[str_of_Z chat_id := doc]> cs, Some doc) /\
  get_chat chat_id cs = (<[str_of_Z chat_id := doc]> cs, Some doc) /\
  (forall (db : ArangoDB) (is_private : bool),
     chats db = cs ->
     chats (add_groups {| nm_is_private := is_private; from_id := None;
                          nm_chat_id := chat_id |} db) !! str_of_Z chat_id
     = if is_private then None else Some doc) /\
  (forall (tag_name : string) (default : option TagValue),
     Tags.get doc tag_name default = default) /\
  (forall (p : Platform) (event : ChatAction),
     tags_get p = Tags.get doc -> kriminalamt p event = ([], Ret tt)) /\
  (forall (p : Platform) (event : Event) (uid : Z) (ban : BanDoc),
     tags_get p = Tags.get doc ->
     qualifying (chat p) event = true ->
     acting_user event = Some uid ->
     banlist (db p) !! str_of_Z uid = Some ban ->
     uid ∉ admins p ->
     ban_accepted p = true ->
     exists after : list Action,
       trace (grenzschutz p event)
       = (if entity p uid is Some _ then [] else [LogError "ValueError"]) ++
         Ban (id (chat p)) (Some uid) :: DeleteEvent :: after).
Proof.
  intros Hnew doc.
  assert (Hadd : add_chat chat_id cs = (<[str_of_Z chat_id := doc]> cs, Some doc)).
  { unfold add_chat. cbn [chat_key]. now rewrite Hnew. }
  assert (Hget : forall tag_name default, Tags.get doc tag_name default = default).
  { intros tag_name default. apply Tags_get_absent. split.
    - apply lookup_empty.
    - apply not_elem_of_nil. }
  split; [exact Hadd|]. split; [|split; [|split; [|split]]].
  - unfold get_chat. now rewrite Hnew.
  - intros db [] Hdb; unfold add_groups; cbn [nm_is_private nm_chat_id].
    + now rewrite Hdb.
    + rewrite Hdb. unfold get_chat. rewrite Hnew, Hadd. cbn [fst with_chats chats].
      apply lookup_insert_eq.
  - exact Hget.
  - intros p event Hdoc. apply kriminalamt_returns_early. left.
    rewrite Hdoc. apply Hget.
  - intros p event uid ban Hdoc Hq Hu Hban Hadm Hok.
    rewrite (grenzschutz_run p event uid ban Hq Hu Hban Hadm), Hok;
      [cbn [trace fst]; eauto | rewrite Hdoc, Hget; reflexivity..].
Qed.

Lemma new_chat_document_witness :
  get_chat (-100) ∅
  = ({[ "-100" := {| chat_key := "-100"; chat_id := -100; tags := [];
                     named_tags := ∅ |} ]},
     Some {| chat_key := "-100"; chat_id := -100; tags := []; named_tags := ∅ |}).
Proof.
  apply (proj1 (proj2 (new_chat_document ∅ (-100) (lookup_empty _)))).
Defined.

(** * Further properties *)

(** ** Chat documents and the ban list, by key *)

Lemma add_chat_keyed (cs : gmap string ChatDoc) (id : Z) :
  chats_keyed cs -> chats_keyed (fst (add_chat id cs)).
Proof.
  intros Hcs. unfold add_chat. cbn [chat_key].
  destruct (cs !! str_of_Z id) eqn:E; [exact Hcs|]. cbn [fst].
  intros k doc Hk. destruct (decide (k = str_of_Z id)) as [->|Hne].
  - rewrite lookup_insert_eq in Hk. injection Hk as <-. now split.
  - rewrite lookup_insert_ne in Hk by congruence. now apply Hcs.
Qed.

(** X1.  [get_chat] always answers with a document, the one filed under the
    chat id: a document that is there is returned as it is, with its tags, and
    nothing is written; a missing one is created.  A second call gives the
    same document and writes nothing, and the documents of other chats are
    never touched. *)
Theorem get_chat_returns (cs : gmap string ChatDoc) (id : Z) :
  chats_keyed cs ->
  exists doc : ChatDoc,
    snd (get_chat id cs) = Some doc /\
    chat_id doc = id /\
    fst (get_chat id cs) !! str_of_Z id = Some doc /\
    get_chat id (fst (get_chat id cs)) = (fst (get_chat id cs), Some doc) /\
    (forall old : ChatDoc,
       cs !! str_of_Z id = Some old -> doc = old /\ fst (get_chat id cs) = cs) /\
    (forall other : Z,
       other <> id -> fst (get_chat id cs) !! str_of_Z other = cs !! str_of_Z other) /\
    chats_keyed (fst (get_chat id cs)).
Proof.
  intros Hcs.
  assert (Hkeyed : chats_keyed (fst (get_chat id cs))).
  { unfold get_chat. destruct (cs !! str_of_Z id); [exact Hcs|].
    now apply add_chat_keyed. }
  destruct (cs !! str_of_Z id) as [old|] eqn:E.
  - assert (Hget : get_chat id cs = (cs, Some old))
      by (unfold get_chat; now rewrite E).
    exists old. rewrite Hget. cbn [fst snd].
    split; [reflexivity|]. split.
    { destruct (Hcs _ _ E) as [Hk _]. symmetry. now apply str_of_Z_inj. }
    split; [exact E|]. split; [exact Hget|]. split.
    { intros old' [= <-]. now split. }
    split; [reflexivity|]. now rewrite Hget in Hkeyed.
  - set (doc := {| chat_key := str_of_Z id; chat_id := id; tags := [];
                   named_tags := ∅ |}).
    assert (Hget : get_chat id cs = (<[str_of_Z id := doc]> cs, Some doc)).
    { unfold get_chat, add_chat. cbn [chat_key]. now rewrite E. }
    exists doc. rewrite Hget. cbn [fst snd].
    split; [reflexivity|]. split; [reflexivity|].
    split; [apply lookup_insert_eq|]. split.
    { unfold get_chat. now rewrite lookup_insert_eq. }
    split; [discriminate|]. split.
    { intros other Hne. apply lookup_insert_ne. intros H.
      apply str_of_Z_inj in H. congruence. }
    now rewrite Hget in Hkeyed.
Qed.

Lemma get_chat_returns_witness :
  exists doc : ChatDoc, snd (get_chat (-100) ∅) = Some doc /\ chat_id doc = (-100)%Z.
Proof.
  destruct (get_chat_returns ∅ (-100)) as (doc & Hdoc & Hid & _).
  - intros k doc Hk. rewrite lookup_empty in Hk. discriminate Hk.
  - exists doc. now split.
Defined.

(** ** Keys of blacklist documents *)

Lemma keys_ordered_add_item (c : AutobahnBlacklist) (v : PyItem) :
  keys_ordered c -> keys_ordered (fst (add_item v c)).
Proof.
  intros (Hnd & Hlt & Hup). destruct (not_null (Some v)) eqn:Hv.
  2:{ rewrite add_item_refused by exact Hv. now split. }
  rewrite add_item_valid by exact Hv. unfold keys_ordered.
  cbn [fst bl_docs bl_keys bl_saved].
  rewrite Forall_forall in Hlt.
  assert (Hnext : (bl_keys c (bl_saved c) < bl_keys c (S (bl_saved c)))%N)
    by (apply Hup; lia).
  split; [|split].
  - rewrite fmap_app. apply NoDup_app. split; [exact Hnd|]. split.
    + intros k Hk Hk'. apply list_elem_of_singleton in Hk'. cbn in Hk'. subst k.
      apply list_elem_of_fmap in Hk as (d & Hd & Hin). apply Hlt in Hin. lia.
    + apply NoDup_singleton.
  - apply Forall_app. split.
    + apply Forall_forall. intros d Hd. apply Hlt in Hd. lia.
    + apply Forall_singleton. exact Hnext.
  - intros i j Hi Hj. apply Hup; lia.
Qed.

Lemma empty_blacklist_ordered : keys_ordered empty_blacklist.
Proof.
  split; [constructor|]. split; [constructor|].
  intros i j _ Hij. unfold empty_blacklist, counting_keys. cbn [bl_keys]. lia.
Qed.

Lemma keys_ordered_store_item (c : AutobahnBlacklist) (v : PyItem) :
  keys_ordered c -> keys_ordered (fst (store_item v c)).
Proof.
  intros Hc.
  destruct (store_item_cases v c) as [(_ & _ & ->)|[(_ & _ & ->)|(_ & ->)]];
    try exact Hc.
  now apply keys_ordered_add_item.
Qed.

Lemma keys_ordered_delete_doc (c : AutobahnBlacklist) (d : BlacklistDoc) :
  keys_ordered c -> keys_ordered (delete_doc d c).
Proof.
  intros (Hnd & Hlt & Hup). unfold keys_ordered, delete_doc.
  cbn [bl_docs bl_keys bl_saved]. split; [|split; [|exact Hup]].
  - clear Hlt. induction (bl_docs c) as [|x xs IH]; [exact Hnd|].
    cbn in Hnd |- *. apply NoDup_cons in Hnd as [Hx Hxs].
    destruct (negb (bl_key x =? bl_key d)%N); [|now apply IH].
    cbn. apply NoDup_cons. split; [|now apply IH].
    intros Hin. apply Hx. apply list_elem_of_fmap in Hin as (y & -> & Hy).
    apply list_elem_of_fmap. exists y. split; [reflexivity|].
    apply list_elem_of_In in Hy. apply filter_In in Hy as [Hy _].
    now apply list_elem_of_In.
  - rewrite Forall_forall in Hlt |- *. intros x Hx. apply Hlt.
    apply list_elem_of_In in Hx. apply filter_In in Hx as [Hx _].
    now apply list_elem_of_In.
Qed.

Lemma fetchDocument_found (c : AutobahnBlacklist) (d : BlacklistDoc) :
  NoDup (bl_key <$> bl_docs c) ->
  d ∈ bl_docs c ->
  fetchDocument c (Z.of_N (bl_key d)) = Ret d.
Proof.
  unfold fetchDocument. induction (bl_docs c) as [|x xs IH]; intros Hnd Hin.
  - now apply not_elem_of_nil in Hin.
  - cbn in Hnd. apply NoDup_cons in Hnd as [Hx Hxs]. cbn.
    destruct (Z.of_N (bl_key x) =? Z.of_N (bl_key d))%Z eqn:E.
    + apply Z.eqb_eq in E. apply N2Z.inj in E.
      apply elem_of_cons in Hin as [->|Hin]; [reflexivity|].
      exfalso. apply Hx. rewrite E. apply list_elem_of_fmap. eauto.
    + apply elem_of_cons in Hin as [->|Hin].
      * rewrite Z.eqb_refl in E. discriminate E.
      * now apply IH.
Qed.

Lemma fetchDocument_missing (c : AutobahnBlacklist) (k : Z) :
  (forall d, d ∈ bl_docs c -> Z.of_N (bl_key d) <> k) ->
  fetchDocument c k = Raise DocumentNotFoundError.
Proof.
  unfold fetchDocument. induction (bl_docs c) as [|x xs IH]; intros Hk;
    [reflexivity|]. cbn.
  destruct (Z.of_N (bl_key x) =? k)%Z eqn:E.
  - apply Z.eqb_eq in E. exfalso. apply (Hk x); [apply list_elem_of_here|exact E].
  - apply IH. intros d Hd. apply Hk. now apply list_elem_of_further.
Qed.

(** ** What [add] keeps *)

Lemma collection_with_collection_ne (db : ArangoDB) (r r' : BlacklistRef)
    (c : AutobahnBlacklist) :
  r' <> r -> collection (with_collection db r c) r' = collection db r'.
Proof. intros Hne. destruct r, r'; try reflexivity; contradiction. Qed.

Lemma keeps_ret (I : ArangoDB -> Prop) {A : Type} (a : A) : keeps I (mret a).
Proof. intros db Hdb. exact Hdb. Qed.

Lemma keeps_raise (I : ArangoDB -> Prop) {A : Type} (e : Exn) :
  keeps I (AutobahnMgr.raise (A := A) e).
Proof. intros db Hdb. exact Hdb. Qed.

Lemma keeps_lift (I : ArangoDB -> Prop) {A : Type} (r : result A) :
  keeps I (lift r).
Proof. intros db Hdb. exact Hdb. Qed.

Lemma keeps_the_collection (I : ArangoDB -> Prop) (r : BlacklistRef) :
  keeps I (the_collection r).
Proof. intros db Hdb. exact Hdb. Qed.

Lemma keeps_need_collection (I : ArangoDB -> Prop) (coll : option BlacklistRef) :
  keeps I (need_collection coll).
Proof. intros db Hdb. now destruct coll. Qed.

Lemma keeps_bind (I : ArangoDB -> Prop) {A B : Type} (m : Cmd A) (f : A -> Cmd B) :
  keeps I m -> (forall a, keeps I (f a)) -> keeps I (m ≫= f).
Proof.
  intros Hm Hf db Hdb. unfold mbind, Cmd_bind.
  specialize (Hm db Hdb). destruct (m db) as [db1 [a|e]]; cbn [fst] in Hm |- *.
  - now apply Hf.
  - exact Hm.
Qed.

Lemma keeps_store_shown (I : ArangoDB -> Prop) (Q : PyItem -> Prop)
    (r : BlacklistRef) (item shown : PyItem) (l : Lists) :
  survives_add I Q r -> Q item -> keeps I (store_shown r item shown l).
Proof.
  intros Hadd Hitem db Hdb.
  unfold store_shown, the_collection, put_collection, mbind, Cmd_bind, mret, Cmd_ret.
  destruct (store_item_cases item (collection db r))
    as [(Hout & Hv & ->)|[(_ & _ & ->)|(_ & ->)]]; try exact Hdb.
  cbn [fst]. now apply Hadd.
Qed.

Lemma keeps_add_step (I : ArangoDB -> Prop) (Q : PyItem -> Prop)
    (client : Client) (h : string) (r : BlacklistRef) (l : Lists) (item : string) :
  survives_add I Q r ->
  (forall it, normalise client h item = Keep (Some it) -> Q it) ->
  keeps I (add_step client h r l item).
Proof.
  intros Hadd Hq. unfold add_step.
  destruct (normalise client h item) as [x|[it|]|e];
    try (intros db Hdb; exact Hdb).
  apply (keeps_store_shown I Q); [exact Hadd | now apply Hq].
Qed.

Lemma keeps_add_loop (I : ArangoDB -> Prop) (Q : PyItem -> Prop)
    (client : Client) (hex_type : option string) (coll : option BlacklistRef)
    (items : list string) :
  (forall r, coll = Some r -> survives_add I Q r) ->
  (forall h item it,
     hex_type = Some h -> item ∈ items ->
     normalise client h item = Keep (Some it) -> Q it) ->
  forall l : Lists, keeps I (add_loop client hex_type coll items l).
Proof.
  intros Hadd. induction items as [|item rest IH]; intros Hq l; cbn [add_loop].
  - apply keeps_ret.
  - assert (Hrest : forall l', keeps I (add_loop client hex_type coll rest l')).
    { apply IH. intros h x it Hh Hx. apply Hq; [exact Hh|].
      now apply list_elem_of_further. }
    destruct hex_type as [h|], coll as [r|]; try apply Hrest.
    apply keeps_bind; [|exact Hrest].
    apply (keeps_add_step I Q); [now apply Hadd|].
    intros it. apply Hq; [reflexivity | apply list_elem_of_here].
Qed.

Lemma keeps_add_file (I : ArangoDB -> Prop) (Q : PyItem -> Prop)
    (msg : Message) (coll : option BlacklistRef) (l : Lists) :
  (forall r, coll = Some r -> survives_add I Q r) ->
  (forall h, reply_file_hash msg = Some h -> Q (IStr h)) ->
  keeps I (add_file msg coll l).
Proof.
  intros Hadd Hq. unfold add_file.
  destruct (is_reply msg); [|apply keeps_ret].
  destruct (reply_file_hash msg) as [h|]; [|apply keeps_ret].
  destruct coll as [r|]; [|intros db Hdb; exact Hdb].
  intros db Hdb.
  exact (keeps_bind I _ _
           (keeps_store_shown I Q r (IStr h) _ l (Hadd r eq_refl) (Hq h eq_refl))
           (fun l' => keeps_ret I _) db Hdb).
Qed.

Lemma keeps_add_photo (I : ArangoDB -> Prop) (Q : PyItem -> Prop)
    (msg : Message) (coll : option BlacklistRef) (l : Lists) :
  (forall r, coll = Some r -> survives_add I Q r) ->
  (forall h, reply_photo_hash msg = Some h -> Q (IStr h)) ->
  keeps I (add_photo msg coll l).
Proof.
  intros Hadd Hq. unfold add_photo.
  destruct (is_reply msg); [|apply keeps_ret].
  destruct (reply_photo_hash msg) as [h|]; [|apply keeps_ret].
  destruct coll as [r|]; [|intros db Hdb; exact Hdb].
  intros db Hdb.
  unfold need_collection, the_collection, put_collection, mbind, Cmd_bind, mret, Cmd_ret.
  destruct (store_item_cases (IStr h) (collection db r))
    as [(Hout & Hv & ->)|[(_ & _ & ->)|(_ & ->)]]; try exact Hdb.
  cbn [fst].
  apply (Hadd r eq_refl); [exact Hdb | now apply Hq | exact Hv | exact Hout].
Qed.

(** Whatever [add] is given, it keeps a property that survives a write to the
    collection of the type. *)
Lemma keeps_add (I : ArangoDB -> Prop) (client : Client) (msg : Message)
    (args : list string) :
  (forall item_type items r,
     args = item_type :: items ->
     dict_get ab_collection_map (AUTOBAHN_TYPES !! item_type) = Some r ->
     survives_add I (fun _ => True) r) ->
  keeps I (add client msg args).
Proof.
  intros Hadd. unfold add. destruct args as [|item_type items].
  { apply keeps_raise. }
  specialize (Hadd item_type items). cbv zeta. apply keeps_bind.
  { apply (keeps_add_loop I (fun _ => True)); [|trivial].
    intros r Hr. now apply Hadd. }
  intros l. apply keeps_bind.
  { destruct (_ && _); [|apply keeps_ret].
    apply (keeps_add_file I (fun _ => True)); [|trivial].
    intros r Hr. now apply Hadd. }
  intros [err|l1]; [apply keeps_ret|]. apply keeps_bind.
  { destruct (_ && _); [|apply keeps_ret].
    apply (keeps_add_photo I (fun _ => True)); [|trivial].
    intros r Hr. now apply Hadd. }
  intros [err|[l2 w]]; apply keeps_ret.
Qed.

Lemma only_collection_survives (r : BlacklistRef) (db0 : ArangoDB) :
  survives_add (only_collection r db0) (fun _ => True) r.
Proof.
  intros db it (Hchats & Hbans & Hother) _ _ _. split; [|split].
  - exact Hchats.
  - exact Hbans.
  - intros r' Hne. rewrite collection_with_collection_ne by exact Hne.
    now apply Hother.
Qed.

(** X4.  [add] writes to the collection of its type and to nothing else: the
    chats, the ban list and the other blacklists are as before, whatever the
    items and whether the command returns or raises; with a type that has no
    collection the database is as before. *)
Theorem add_changes_one_collection (client : Client) (msg : Message)
    (item_type : string) (items : list string) (db : ArangoDB) :
  (forall r : BlacklistRef,
     dict_get ab_collection_map (AUTOBAHN_TYPES !! item_type) = Some r ->
     only_collection r db (fst (add client msg (item_type :: items) db))) /\
  (dict_get ab_collection_map (AUTOBAHN_TYPES !! item_type) = None ->
   fst (add client msg (item_type :: items) db) = db).
Proof.
  split.
  - intros r Hr. apply (keeps_add (only_collection r db)).
    + intros t its r' [= <- <-] Hr'. rewrite Hr in Hr'. injection Hr' as <-.
      apply only_collection_survives.
    + now split; [|split].
  - intros Hnone. apply (keeps_add (fun db' => db' = db)); [|reflexivity].
    intros t its r' [= <- <-] Hr'. rewrite Hnone in Hr'. discriminate Hr'.
Qed.

Lemma add_changes_one_collection_witness :
  only_collection Ref_tld empty_db
    (fst (add offline_client plain_message ["tld"; ".com"] empty_db)).
Proof.
  apply (proj1 (add_changes_one_collection offline_client plain_message "tld"
                  [".com"] empty_db)).
  reflexivity.
Defined.

Lemma all_distinct_survives (r : BlacklistRef) :
  survives_add all_distinct (fun _ => True) r.
Proof.
  intros db it Hdb _ Hv Hout r'. destruct (decide (r' = r)) as [->|Hne].
  - rewrite collection_with_collection, values_add_item by exact Hv.
    apply NoDup_app. split; [apply Hdb|]. split; [|apply NoDup_singleton].
    intros x Hx Hx'. apply list_elem_of_singleton in Hx'. now subst.
  - rewrite collection_with_collection_ne by exact Hne. apply Hdb.
Qed.

Lemma all_ordered_survives (r : BlacklistRef) :
  survives_add all_ordered (fun _ => True) r.
Proof.
  intros db it Hdb _ _ _ r'. destruct (decide (r' = r)) as [->|Hne].
  - rewrite collection_with_collection. apply keys_ordered_add_item, Hdb.
  - rewrite collection_with_collection_ne by exact Hne. apply Hdb.
Qed.

(** X5.  [add] keeps the blacklists well formed: when the values of every
    blacklist are distinct before, they are distinct after, and when the keys
    are in order before (distinct, and below the ascending keys the store
    hands out next), they are so after, for every type, every list of items
    and every answer of the platform, also when the command raises. *)
Theorem add_keeps_blacklists_well_formed (client : Client) (msg : Message)
    (args : list string) (db : ArangoDB) :
  (all_distinct db -> all_distinct (fst (add client msg args db))) /\
  (all_ordered db -> all_ordered (fst (add client msg args db))).
Proof.
  split; intros Hdb.
  - apply (keeps_add all_distinct); [|exact Hdb].
    intros; apply all_distinct_survives.
  - apply (keeps_add all_ordered); [|exact Hdb].
    intros; apply all_ordered_survives.
Qed.

Lemma add_keeps_blacklists_well_formed_witness :
  all_distinct
    (fst (add offline_client plain_message ["tld"; ".com"; "com"; "c.om"] empty_db)).
Proof.
  apply (proj1 (add_keeps_blacklists_well_formed offline_client plain_message
                  ["tld"; ".com"; "com"; "c.om"] empty_db)).
  intros []; apply NoDup_nil_2.
Defined.

(** ** What the report of [add] says *)

(** With items given, [add] is its loop and the report of the lists. *)
Lemma add_is_loop (client : Client) (msg : Message) (item_type item : string)
    (rest : list string) (db : ArangoDB) :
  let hex_type := AUTOBAHN_TYPES !! item_type in
  add client msg (item_type :: item :: rest) db =
  match add_loop client hex_type (dict_get ab_collection_map hex_type)
          (item :: rest) no_items db with
  | (db', Ret l) => (db', Ret (Report item_type l ""))
  | (db', Raise e) => (db', Raise e)
  end.
Proof.
  intros hex_type. unfold add. fold hex_type. unfold mbind at 1, Cmd_bind at 1.
  destruct (add_loop client hex_type (dict_get ab_collection_map hex_type)
              (item :: rest) no_items db) as [db' [l|e]]; reflexivity.
Qed.

Lemma add_step_accounts (client : Client) (h : string) (r : BlacklistRef)
    (item : string) (l l1 : Lists) (db db1 : ArangoDB) :
  add_step client h r l item db = (db1, Ret l1) ->
  exists new : list PyItem,
    added_items l1 = added_items l ++ new /\
    values (collection db1 r) = values (collection db r) ++ new /\
    listed l1 = S (listed l) /\
    (forall x, x ∈ existing_items l1 ->
               x ∈ existing_items l \/ x ∈ values (collection db r)).
Proof.
  unfold add_step, listed.
  destruct (normalise client h item) as [x|[it|]|e].
  - intros [= <- <-]. exists []. cbn. rewrite !app_nil_r, length_app. cbn.
    repeat split; [lia | auto].
  - unfold store_shown, the_collection, put_collection, mbind, Cmd_bind, mret, Cmd_ret.
    destruct (store_item_cases it (collection db r))
      as [(Hout & Hv & ->)|[(_ & _ & ->)|(Hin & ->)]].
    + cbv beta iota zeta.
      intros [= <- <-]. exists [it]. rewrite collection_with_collection.
      split; [reflexivity|]. split; [now apply values_add_item|].
      cbn. rewrite length_app. cbn. split; [lia | auto].
    + discriminate.
    + intros [= <- <-]. exists []. cbn. rewrite !app_nil_r, length_app. cbn.
      repeat split; [lia|]. intros x Hx. apply elem_of_app in Hx as [Hx|Hx]; [now left|].
      apply list_elem_of_singleton in Hx. subst. now right.
  - intros [= <- <-]. exists []. cbn. rewrite !app_nil_r, length_app. cbn.
    repeat split; [lia | auto].
  - discriminate.
Qed.

Lemma add_loop_accounts (client : Client) (h : string) (r : BlacklistRef)
    (items : list string) :
  forall (l l' : Lists) (db db' : ArangoDB),
    add_loop client (Some h) (Some r) items l db = (db', Ret l') ->
    exists new : list PyItem,
      added_items l' = added_items l ++ new /\
      values (collection db' r) = values (collection db r) ++ new /\
      listed l' = listed l + length items /\
      (forall x, x ∈ existing_items l' ->
                 x ∈ existing_items l \/ x ∈ values (collection db' r)).
Proof.
  induction items as [|item rest IH]; intros l l' db db'; cbn [add_loop].
  - intros [= <- <-]. exists []. rewrite !app_nil_r. cbn.
    repeat split; [lia | auto].
  - unfold mbind, Cmd_bind.
    destruct (add_step client h r l item db) as [db1 [l1|e]] eqn:Hstep;
      [|discriminate].
    intros Hrest.
    destruct (add_step_accounts _ _ _ _ _ _ _ _ Hstep) as (n1 & Ha1 & Hv1 & Hl1 & He1).
    destruct (IH _ _ _ _ Hrest) as (n2 & Ha2 & Hv2 & Hl2 & He2).
    exists (n1 ++ n2). rewrite Ha2, Ha1, Hv2, Hv1, Hl2, Hl1, <- !app_assoc. cbn.
    repeat split; [lia|].
    intros x Hx. destruct (He2 x Hx) as [Hx1|Hx2].
    + destruct (He1 x Hx1) as [Hx0|Hx0]; [now left|]. right.
      apply elem_of_app. now left.
    + right. now rewrite Hv2, Hv1, <- !app_assoc in Hx2.
Qed.

(** X6.  When [add] is given items of a type with a collection and returns,
    its report accounts for every item exactly once (added, existing or
    skipped), carries no warning, and its added items are exactly the values
    the command appended to the collection, in order; the older documents
    keep their places, and every item reported as existing is in the
    collection. *)
Theorem add_report_accounts (client : Client) (msg : Message)
    (item_type h item : string) (rest : list string) (r : BlacklistRef)
    (db db' : ArangoDB) (reply : Reply) :
  AUTOBAHN_TYPES !! item_type = Some h ->
  ab_collection_map !! h = Some r ->
  add client msg (item_type :: item :: rest) db = (db', Ret reply) ->
  exists l : Lists,
    reply = Report item_type l "" /\
    values (collection db' r) = values (collection db r) ++ added_items l /\
    listed l = S (length rest) /\
    (forall x, x ∈ existing_items l -> x ∈ values (collection db' r)).
Proof.
  intros Hty Hcoll. rewrite add_is_loop. cbv zeta. rewrite Hty.
  unfold dict_get. rewrite Hcoll.
  destruct (add_loop client (Some h) (Some r) (item :: rest) no_items db)
    as [db1 [l|e]] eqn:Hloop; [|discriminate].
  intros [= <- <-]. exists l.
  destruct (add_loop_accounts _ _ _ _ _ _ _ _ Hloop) as (new & Ha & Hv & Hl & He).
  cbn in Ha, Hl. subst new. repeat split; try assumption.
  intros x Hx. destruct (He x Hx) as [Hx0|Hx0]; [|exact Hx0].
  now apply not_elem_of_nil in Hx0.
Qed.

Lemma add_report_accounts_witness :
  exists l : Lists,
    values (ab_tld_blacklist
              (fst (add offline_client plain_message ["tld"; ".com"; "com"] empty_db)))
    = [] ++ added_items l /\
    listed l = 2%nat.
Proof.
  destruct (add_report_accounts offline_client plain_message "tld" "0x7" ".com"
              ["com"] Ref_tld empty_db
              (fst (add offline_client plain_message ["tld"; ".com"; "com"] empty_db))
              (Report "tld"
                 {| added_items := [IStr "com"]; existing_items := [IStr "com"];
                    skipped_items := [] |} ""))
    as (l & _ & Hv & Hl & _); try reflexivity.
  exists l. now split.
Defined.

(** ** Domains *)

Lemma lower_ascii_idempotent (c : ascii) : lower_ascii (lower_ascii c) = lower_ascii c.
Proof. destruct c as [[] [] [] [] [] [] [] []]; reflexivity. Qed.

Lemma lower_idempotent (s : string) : lower (lower s) = lower s.
Proof.
  induction s as [|c s IH]; [reflexivity|]. cbn [lower].
  now rewrite lower_ascii_idempotent, IH.
Qed.

Lemma normalise_domain (client : Client) (item : string) (it : PyItem) :
  normalise client "0x4" item = Keep (Some it) ->
  exists s : string,
    it = IStr s /\ (s ∉ TELEGRAM_DOMAINS client) /\ lower s = s.
Proof.
  change (normalise client "0x4" item)
    with (if bool_decide (lower (resolve_url client item) ∈ TELEGRAM_DOMAINS client)
          then Skip (Some (IStr (lower (resolve_url client item))))
          else Keep (Some (IStr (lower (resolve_url client item))))).
  case_bool_decide as Hin; [discriminate|]. intros [= <-].
  eexists. split; [reflexivity|]. split; [exact Hin | apply lower_idempotent].
Qed.

(** X7.  Whatever items [add] is given for the type [domain] and whatever the
    URLs resolve to, every value the domain blacklist holds afterwards was
    there before or is a lower-case string that is none of the Telegram
    domains: the command never blacklists a Telegram domain. *)
Theorem add_domain_never_telegram (client : Client) (msg : Message)
    (items : list string) (db : ArangoDB) (v : PyItem) :
  v ∈ values (ab_domain_blacklist (fst (add client msg ("domain" :: items) db))) ->
  v ∈ values (ab_domain_blacklist db) \/
  exists s : string, v = IStr s /\ (s ∉ TELEGRAM_DOMAINS client) /\ lower s = s.
Proof.
  set (Q := fun it : PyItem =>
              exists s : string, it = IStr s /\ (s ∉ TELEGRAM_DOMAINS client) /\ lower s = s).
  set (I := fun db' : ArangoDB =>
              forall x, x ∈ values (ab_domain_blacklist db') ->
                        x ∈ values (ab_domain_blacklist db) \/ Q x).
  assert (Hsurvive : survives_add I Q Ref_domain).
  { intros db1 it Hdb1 Hit Hv _ x Hx.
    change (ab_domain_blacklist (with_collection db1 Ref_domain
              (fst (add_item it (collection db1 Ref_domain)))))
      with (fst (add_item it (ab_domain_blacklist db1))) in Hx.
    rewrite values_add_item in Hx by exact Hv. apply elem_of_app in Hx as [Hx|Hx].
    - now apply Hdb1.
    - apply list_elem_of_singleton in Hx. subst x. now right. }
  assert (Hkeeps : keeps I (add client msg ("domain" :: items))).
  { unfold add. cbv zeta.
    change (AUTOBAHN_TYPES !! "domain") with (Some "0x4").
    change (dict_get ab_collection_map (Some "0x4")) with (Some Ref_domain).
    change (is_type (Some "0x4") "0x5") with false.
    change (is_type (Some "0x4") "0x6") with false.
    rewrite !andb_false_r.
    apply keeps_bind.
    - apply (keeps_add_loop I Q).
      + intros r [= <-]. exact Hsurvive.
      + intros h item it [= <-] _. apply normalise_domain.
    - intros l. apply keeps_bind; [apply keeps_ret|].
      intros [err|l1]; [apply keeps_ret|].
      apply keeps_bind; [apply keeps_ret|].
      intros [err|[l2 w]]; apply keeps_ret. }
  apply (Hkeeps db). intros x Hx. now left.
Qed.

Lemma add_domain_never_telegram_witness :
  IStr "example.com" ∈ values (ab_domain_blacklist empty_db) \/
  exists s : string,
    IStr "example.com" = IStr s /\ (s ∉ TELEGRAM_DOMAINS offline_client) /\ lower s = s.
Proof.
  apply (add_domain_never_telegram offline_client plain_message
           ["T.ME"; "Example.COM"] empty_db).
  apply list_elem_of_here.
Defined.

(** ** Names of channels *)

Lemma split_on_free (sep : ascii -> bool) (s : string) :
  free_of sep s = true -> split_on sep s = [s].
Proof.
  induction s as [|c s IH]; [reflexivity|]. cbn [free_of split_on].
  intros H. apply andb_true_iff in H as [Hc Hs].
  apply negb_true_iff in Hc. rewrite Hc, IH by exact Hs. reflexivity.
Qed.

Lemma split_on_app (sep : ascii -> bool) (a t : string) (c : ascii) :
  free_of sep a = true -> sep c = true ->
  split_on sep (a +:+ String c t) = a :: split_on sep t.
Proof.
  intros Ha Hc. induction a as [|x a IH].
  - change ("" +:+ String c t) with (String c t). cbn [split_on]. now rewrite Hc.
  - change (String x a +:+ String c t) with (String x (a +:+ String c t)).
    cbn [free_of] in Ha. apply andb_true_iff in Ha as [Hx Ha].
    apply negb_true_iff in Hx. cbn [split_on]. rewrite Hx, IH by exact Ha.
    reflexivity.
Qed.

Lemma free_of_weaken (sep sep' : ascii -> bool) (s : string) :
  (forall c, sep' c = true -> sep c = true) ->
  free_of sep s = true -> free_of sep' s = true.
Proof.
  intros Hsep. induction s as [|c s IH]; [reflexivity|]. cbn [free_of].
  intros H. apply andb_true_iff in H as [Hc Hs]. apply negb_true_iff in Hc.
  rewrite IH by exact Hs. destruct (sep' c) eqn:E; [|reflexivity].
  apply Hsep in E. congruence.
Qed.

Lemma free_of_append (sep : ascii -> bool) (a b : string) :
  free_of sep a = true -> free_of sep b = true -> free_of sep (a +:+ b) = true.
Proof.
  intros Ha Hb. induction a as [|x a IH]; [exact Hb|].
  change (String x a +:+ b) with (String x (a +:+ b)).
  cbn [free_of] in Ha |- *. apply andb_true_iff in Ha as [Hx Ha].
  now rewrite Hx, IH.
Qed.

Lemma without_char_free_of (c : ascii) (s : string) :
  free_of (is_char c) s = true -> without_char c s = s.
Proof.
  induction s as [|a s IH]; [reflexivity|]. cbn [free_of without_char].
  intros H. apply andb_true_iff in H as [Ha Hs]. apply negb_true_iff in Ha.
  unfold is_char in Ha. rewrite Ascii.eqb_sym in Ha. now rewrite Ha, IH.
Qed.

Lemma split_on_length (c : ascii) (s : string) :
  length (split_on (is_char c) s) = S (count_char c s).
Proof.
  induction s as [|a s IH]; [reflexivity|]. cbn [split_on count_char].
  unfold is_char at 1. rewrite Ascii.eqb_sym.
  destruct (Ascii.eqb a c).
  - cbn. now rewrite IH.
  - destruct (split_on (is_char c) s); [discriminate IH | exact IH].
Qed.

(** What [normalise] makes of a channel that is no invite link, from the name
    [entity_name] finds. *)
Lemma normalise_channel_name (client : Client) (item name : string) :
  resolve_invite_link client item = None ->
  entity_name item = Ret name ->
  normalise client "0x3" item =
  match get_entity client name with
  | EntityError => Skip (Some (IStr name))
  | EntityFound (Some id) => Keep (Some (IInt id))
  | EntityFound None => Keep None
  end.
Proof.
  intros Hlink Hname.
  change (normalise client "0x3" item)
    with (match resolve_invite_link client item with
          | Some chat_id => Keep (Some (IInt chat_id))
          | None =>
              match entity_name item with
              | Raise e => Fail e
              | Ret _item =>
                  match get_entity client _item with
                  | EntityError => Skip (Some (IStr _item))
                  | EntityFound (Some id) => Keep (Some (IInt id))
                  | EntityFound None => Keep None
                  end
              end
          end).
  now rewrite Hlink, Hname.
Qed.

(** X8.  The spellings of a channel name lead to the same name: a
    [tg://resolve] link with the name as its [domain] parameter, with or
    without a [start] parameter after it, the name with an [@] before it,
    with or without a query after it, and the bare name.  So an item in any
    of these spellings that is no invite link is blacklisted under the id of
    the same entity. *)
Theorem channel_spellings_agree (client : Client) (name start : string) :
  free_of name_delimiter name = true ->
  free_of (fun c => is_char "?" c || is_char "&" c) start = true ->
  let spellings :=
    [ "tg://resolve?domain=" +:+ name;
      "tg://resolve?domain=" +:+ name +:+ "&start=" +:+ start;
      "@" +:+ name;
      "@" +:+ name +:+ "?start=" +:+ start ] in
  (forall item, item ∈ spellings -> entity_name item = Ret name) /\
  (startswith name "tg://resolve" = false -> entity_name name = Ret name) /\
  (forall item id,
     item ∈ spellings ->
     resolve_invite_link client item = None ->
     get_entity client name = EntityFound (Some id) ->
     normalise client "0x3" item = Keep (Some (IInt id))).
Proof.
  intros Hname Hstart spellings.
  assert (Hqa : free_of (fun c => is_char "?" c || is_char "&" c) name = true).
  { revert Hname. apply free_of_weaken. intros c Hc. unfold name_delimiter.
    apply orb_true_iff in Hc as [->| ->]; [reflexivity|].
    now rewrite orb_true_r. }
  assert (Hq : free_of (is_char "?") name = true).
  { revert Hqa. apply free_of_weaken. now intros c ->. }
  assert (Heq : free_of (is_char "=") name = true).
  { revert Hname. apply free_of_weaken. intros c Hc. unfold name_delimiter.
    now rewrite Hc, !orb_true_r. }
  assert (Hat : free_of (is_char "@") name = true).
  { revert Hname. apply free_of_weaken. intros c Hc. unfold name_delimiter.
    now rewrite Hc, !orb_true_r. }
  assert (Hdomain : split_on (is_char "=") ("domain=" +:+ name) = ["domain"; name]).
  { change ("domain=" +:+ name) with ("domain" +:+ String "=" name).
    rewrite split_on_app by reflexivity. now rewrite split_on_free. }
  assert (Hatname : str_replace ("@" +:+ name) "@" "" = name).
  { rewrite str_replace_char. change ("@" +:+ name) with (String "@" name).
    cbn [without_char]. now apply without_char_free_of. }
  assert (Hitems : forall item, item ∈ spellings -> entity_name item = Ret name).
  { intros item Hitem. unfold spellings in Hitem.
    repeat (apply elem_of_cons in Hitem as [->|Hitem]).
    5: now apply not_elem_of_nil in Hitem.
    - unfold entity_name.
      change (startswith ("tg://resolve?domain=" +:+ name) "tg://resolve") with true.
      cbv iota.
      change ("tg://resolve?domain=" +:+ name)
        with ("tg://resolve" +:+ String "?" ("domain=" +:+ name)).
      rewrite split_on_app by reflexivity.
      rewrite split_on_free by (apply free_of_append; [reflexivity | exact Hqa]).
      cbn [tail resolve_params].
      change (startswith ("domain=" +:+ name) "domain") with true. cbv iota.
      now rewrite Hdomain.
    - unfold entity_name.
      change (startswith ("tg://resolve?domain=" +:+ name +:+ "&start=" +:+ start)
                "tg://resolve") with true.
      cbv iota.
      change ("tg://resolve?domain=" +:+ name +:+ "&start=" +:+ start)
        with ("tg://resolve" +:+ String "?" (("domain=" +:+ name) +:+
                String "&" ("start=" +:+ start))).
      rewrite split_on_app by reflexivity.
      rewrite split_on_app
        by first [reflexivity | apply free_of_append; [reflexivity | exact Hqa]].
      rewrite split_on_free by (apply free_of_append; [reflexivity | exact Hstart]).
      cbn [tail resolve_params].
      change (startswith ("domain=" +:+ name) "domain") with true. cbv iota.
      rewrite Hdomain.
      change (startswith ("start=" +:+ start) "domain") with false. reflexivity.
    - unfold entity_name.
      change (startswith ("@" +:+ name) "tg://resolve") with false. cbv iota.
      rewrite split_on_free by (apply free_of_append; [reflexivity | exact Hq]).
      cbn [hd]. now rewrite Hatname.
    - unfold entity_name.
      change (startswith ("@" +:+ name +:+ "?start=" +:+ start) "tg://resolve")
        with false. cbv iota.
      change ("@" +:+ name +:+ "?start=" +:+ start)
        with (("@" +:+ name) +:+ String "?" ("start=" +:+ start)).
      rewrite split_on_app
        by first [reflexivity | apply free_of_append; [reflexivity | exact Hq]].
      cbn [hd]. now rewrite Hatname. }
  split; [exact Hitems|]. split.
  - intros Hplain. unfold entity_name. rewrite Hplain.
    rewrite split_on_free by exact Hq. cbn [hd].
    rewrite str_replace_char. now rewrite without_char_free_of.
  - intros item id Hitem Hlink Hentity.
    rewrite (normalise_channel_name client item name Hlink (Hitems item Hitem)).
    now rewrite Hentity.
Qed.

Lemma channel_spellings_agree_witness :
  entity_name "tg://resolve?domain=durov&start=1" = Ret "durov" /\
  entity_name "@durov?start=1" = Ret "durov".
Proof.
  pose proof (channel_spellings_agree offline_client "durov" "1" eq_refl eq_refl)
    as [H _].
  split; apply H.
  - apply list_elem_of_further, list_elem_of_here.
  - do 3 apply list_elem_of_further. apply list_elem_of_here.
Defined.

(** X9.  A [tg://resolve] link whose [domain] parameter has no [=] or more
    than one makes the unpacking of [param.split('=')] fail: [entity_name]
    raises [ValueError], and so does [add] for a channel item of that form
    that is no invite link; nothing is stored. *)
Theorem malformed_resolve_link_raises (client : Client) (msg : Message)
    (param : string) (db : ArangoDB) :
  startswith param "domain" = true ->
  free_of (fun c => is_char "?" c || is_char "&" c) param = true ->
  count_char "=" param <> 1%nat ->
  let item := "tg://resolve?" +:+ param in
  entity_name item = Raise ValueError /\
  (resolve_invite_link client item = None ->
   add client msg ["channel"; item] db = (db, Raise ValueError)).
Proof.
  intros Hdomain Hfree Hcount item.
  assert (Hname : entity_name item = Raise ValueError).
  { unfold entity_name, item.
    change (startswith ("tg://resolve?" +:+ param) "tg://resolve") with true.
    cbv iota.
    change ("tg://resolve?" +:+ param) with ("tg://resolve" +:+ String "?" param).
    rewrite split_on_app by reflexivity. rewrite split_on_free by exact Hfree.
    cbn [tail resolve_params]. rewrite Hdomain.
    pose proof (split_on_length "=" param) as Hlen.
    destruct (split_on (is_char "=") param) as [|a [|b [|c rest]]];
      try reflexivity.
    cbn in Hlen. injection Hlen as Hlen. congruence. }
  split; [exact Hname|]. intros Hlink.
  rewrite add_is_loop. cbv zeta.
  change (AUTOBAHN_TYPES !! "channel") with (Some "0x3").
  change (dict_get ab_collection_map (Some "0x3")) with (Some Ref_channel).
  cbn [add_loop]. unfold mbind, Cmd_bind, add_step.
  change (normalise client "0x3" item)
    with (match resolve_invite_link client item with
          | Some chat_id => Keep (Some (IInt chat_id))
          | None =>
              match entity_name item with
              | Raise e => Fail e
              | Ret _item =>
                  match get_entity client _item with
                  | EntityError => Skip (Some (IStr _item))
                  | EntityFound (Some id) => Keep (Some (IInt id))
                  | EntityFound None => Keep None
                  end
              end
          end).
  now rewrite Hlink, Hname.
Qed.

Lemma malformed_resolve_link_raises_witness :
  add offline_client plain_message ["channel"; "tg://resolve?domain=a=b"] empty_db
  = (empty_db, Raise ValueError).
Proof.
  refine (proj2 (malformed_resolve_link_raises offline_client plain_message
                   "domain=a=b" empty_db eq_refl eq_refl _) eq_refl).
  discriminate.
Defined.

(** ** The guard, every run *)

(** The guard in its normal form: what it does in terms of the event's
    qualification, the tags, the ban list and the answers of the platform. *)
Lemma grenzschutz_cases (p : Platform) (event : Event) :
  grenzschutz p event =
  if negb (qualifying (chat p) event) then ([], Ret tt) else
  if Tags.equals (tags_get p "grenzschutz" None) "exclude" ||
     Tags.equals (tags_get p "polizei" None) "exclude"
  then ([], Ret tt) else
  match acting_user event with
  | None => ([], Ret tt)
  | Some uid =>
      let log := if entity p uid is Some _ then [] else [LogError "ValueError"] in
      match banlist (db p) !! str_of_Z uid with
      | None => (log, Ret tt)
      | Some doc =>
          if bool_decide (uid ∈ admins p) then (log, Ret tt) else
          if negb (ban_accepted p)
          then (log ++ [Ban (id (chat p)) (Some uid);
                        LogError "Error occured while banning"], Ret tt) else
          if Tags.equals (tags_get p "grenzschutz" None) "silent"
          then (log ++ [Ban (id (chat p)) (Some uid); DeleteEvent], Ret tt) else
          match entity p uid with
          | Some u =>
              ([Ban (id (chat p)) (Some uid); DeleteEvent;
                Respond (first_name u) uid (reason doc)], Ret tt)
          | None =>
              ([LogError "ValueError"; Ban (id (chat p)) (Some uid); DeleteEvent],
               Raise UnboundLocalError)
          end
      end
  end.
Proof.
  unfold grenzschutz, qualifying. cbv zeta.
  destruct event as [e|e]; cbn [is_private acting_user];
    [ destruct (ca_is_private e); [reflexivity|];
      destruct (user_left e); [reflexivity|];
      destruct (user_kicked e); [reflexivity|];
      destruct (action_message e) as [[]|]; try reflexivity
    | destruct (nm_is_private e); [reflexivity|] ];
    (destruct (creator (chat p)), (admin_rights (chat p)) as [[[]]|];
     try reflexivity);
    cbn [negb orb andb joined_or_added ban_users];
    rewrite ?bool_decide_eq_true_2 by eauto;
    cbn [negb orb andb];
    (destruct (Tags.equals (tags_get p "grenzschutz" None) "exclude"
               || Tags.equals (tags_get p "polizei" None) "exclude");
     [reflexivity|]);
    (match goal with
     | |- context [user_id e] => destruct (user_id e) as [uid|]
     | |- context [from_id e] => destruct (from_id e) as [uid|]
     end; [|reflexivity]);
    unfold banlist_query;
    destruct (entity p uid), (banlist (db p) !! str_of_Z uid);
    try reflexivity;
    (destruct (bool_decide (uid ∈ admins p)); [reflexivity|]);
    destruct (ban_accepted p),
      (Tags.equals (tags_get p "grenzschutz" None) "silent"); reflexivity.
Qed.

(** X10.  The guard bans exactly when it applies: a call of [client.ban] is in
    its trace if and only if the event qualifies, no tag excludes the guard,
    and the user of the event is on the ban list and no admin of the chat; the
    call then is for the chat of the event and that user. *)
Theorem grenzschutz_bans_iff (p : Platform) (event : Event) (c : Z)
    (u : option Z) :
  Ban c u ∈ trace (grenzschutz p event) <->
  guard_applies p event = true /\ c = id (chat p) /\ u = acting_user event.
Proof.
  rewrite grenzschutz_cases. unfold guard_applies. cbv zeta.
  destruct (qualifying (chat p) event),
    (Tags.equals (tags_get p "grenzschutz" None) "exclude"),
    (Tags.equals (tags_get p "polizei" None) "exclude"),
    (acting_user event) as [uid|];
    cbn [negb orb andb trace fst];
    try (rewrite elem_of_nil; intuition discriminate).
  destruct (banlist (db p) !! str_of_Z uid) as [doc|],
    (bool_decide (uid ∈ admins p)), (entity p uid) as [who|],
    (ban_accepted p), (Tags.equals (tags_get p "grenzschutz" None) "silent");
    cbn [negb orb andb trace fst app];
    rewrite ?bool_decide_eq_true_2 by eauto;
    rewrite ?bool_decide_eq_false_2 by (intros [? ?]; discriminate);
    rewrite ?elem_of_cons, ?elem_of_nil;
    (split; [intuition congruence | intros (? & -> & ->); auto 6; discriminate]).
Qed.

(** X11.  The guard trips over its own unbound variable in exactly one
    situation: [UnboundLocalError] leaves it if and only if it applies, the
    platform accepted the ban, the chat is not set to [silent], and the
    entity of the user could not be resolved, so that [user] was never bound
    when the notification is built.  By then the ban and the deletion have
    happened: the run is the log entry of the failed resolution, the ban and
    the deletion of the event.  (The calls of the guard other than
    [client.get_entity] and [client.ban] are taken to answer; an exception of
    one of them, which the guard does not catch, ends the run where it
    occurs.) *)
Theorem grenzschutz_raises_iff (p : Platform) (event : Event) :
  (outcome (grenzschutz p event) = Raise UnboundLocalError <->
   guard_applies p event = true /\
   ban_accepted p = true /\
   Tags.equals (tags_get p "grenzschutz" None) "silent" = false /\
   exists uid : Z, acting_user event = Some uid /\ entity p uid = None) /\
  (forall uid : Z,
     acting_user event = Some uid ->
     outcome (grenzschutz p event) = Raise UnboundLocalError ->
     grenzschutz p event
     = ([LogError "ValueError"; Ban (id (chat p)) (Some uid); DeleteEvent],
        Raise UnboundLocalError)).
Proof.
  rewrite grenzschutz_cases. unfold guard_applies. cbv zeta.
  destruct (qualifying (chat p) event),
    (Tags.equals (tags_get p "grenzschutz" None) "exclude"),
    (Tags.equals (tags_get p "polizei" None) "exclude"),
    (acting_user event) as [uid|];
    cbn [negb orb andb outcome snd];
    try (split;
         [ split; [discriminate | intros (H & _); discriminate H]
         | intros uid' _ H; discriminate H ]).
  destruct (banlist (db p) !! str_of_Z uid) as [doc|],
    (bool_decide (uid ∈ admins p)), (entity p uid) as [who|] eqn:Hwho,
    (ban_accepted p), (Tags.equals (tags_get p "grenzschutz" None) "silent");
    cbn [negb orb andb outcome snd];
    rewrite ?bool_decide_eq_true_2 by eauto;
    rewrite ?bool_decide_eq_false_2 by (intros [? ?]; discriminate);
    (split;
     [ split;
       [ intros H; try discriminate H; eauto 10
       | intros (H1 & H2 & H3 & uid' & H4 & H5); try discriminate; congruence ]
     | intros uid' Hu H; try discriminate H; now injection Hu as <- ]).
Qed.

Lemma grenzschutz_raises_iff_witness :
  grenzschutz (group ∅) message_of_42
  = ([LogError "ValueError"; Ban (-100) (Some 42%Z); DeleteEvent],
     Raise UnboundLocalError).
Proof.
  apply (proj2 (grenzschutz_raises_iff (group ∅) message_of_42) 42%Z eq_refl).
  reflexivity.
Defined.

(** X12.  A notification of the guard is never alone and never made up: when
    the trace holds one, the user it names is the user of the event, the
    reason is the one of that user's record in the ban list, the name is the
    one the platform resolved, and the whole run is the ban, the deletion of
    the event and the notification, in that order, without an exception. *)
Theorem grenzschutz_notifies (p : Platform) (event : Event) (name : string)
    (uid : Z) (why : string) :
  Respond name uid why ∈ trace (grenzschutz p event) ->
  acting_user event = Some uid /\
  (exists doc : BanDoc,
     get_user uid (banlist (db p)) = Some doc /\ why = reason doc) /\
  (exists who : User, entity p uid = Some who /\ name = first_name who) /\
  grenzschutz p event
  = ([Ban (id (chat p)) (Some uid); DeleteEvent; Respond name uid why], Ret tt).
Proof.
  rewrite grenzschutz_cases. unfold get_user. cbv zeta.
  destruct (qualifying (chat p) event),
    (Tags.equals (tags_get p "grenzschutz" None) "exclude"),
    (Tags.equals (tags_get p "polizei" None) "exclude"),
    (acting_user event) as [uid'|];
    cbn [negb orb andb trace fst];
    try (rewrite elem_of_nil; intros []).
  destruct (banlist (db p) !! str_of_Z uid') as [doc|] eqn:Hdoc,
    (bool_decide (uid' ∈ admins p)), (entity p uid') as [who|] eqn:Hwho,
    (ban_accepted p), (Tags.equals (tags_get p "grenzschutz" None) "silent");
    cbn [negb orb andb trace fst app];
    rewrite ?elem_of_cons, ?elem_of_nil;
    try (intros H; exfalso; intuition discriminate).
  intros [H|[H|[H|[]]]]; try discriminate H.
  injection H as -> -> ->. rewrite Hdoc, Hwho. eauto 10.
Qed.

Lemma grenzschutz_notifies_witness :
  grenzschutz (resolving_group ∅) message_of_42
  = ([Ban (-100) (Some 42%Z); DeleteEvent; Respond "Eve" 42 "spam bot"], Ret tt).
Proof.
  refine (proj2 (proj2 (proj2 (grenzschutz_notifies (resolving_group ∅)
                                 message_of_42 "Eve" 42 "spam bot" _)))).
  apply list_elem_of_further, list_elem_of_further, list_elem_of_here.
Defined.

(** ** The delayed-action automation, every run *)

(** X14.  [kriminalamt] bans in the chat itself exactly when it found the
    joined user gone (which takes a delay that could be read: with a tag
    that [isdigit] accepts and [int] cannot read, the handler raises before
    it waits), the bot created the chat or is an admin of it, and the
    [gbancmd] tag is [manual] (its default); the ban then is for the chat of
    the event and the user of the event. *)
Theorem kriminalamt_local_ban_iff (p : Platform) (event : ChatAction) (c : Z)
    (u : option Z) :
  Ban c u ∈ trace (kriminalamt p event) <->
  found_gone p event = true /\
  has_rights (chat p) = true /\
  Tags.equals (tags_get p "gbancmd" (Some (TagStr "manual"))) "manual" = true /\
  c = id (chat p) /\ u = user_id event.
Proof.
  unfold kriminalamt, found_gone, has_rights. cbv zeta.
  destruct (user_joined event),
    (Tags.truthy (tags_get p "kriminalamt" None)), (bot (user p));
    cbn [negb orb andb mret Handler_ret trace fst];
    try (rewrite elem_of_nil; intuition discriminate).
  destruct (delay_of (tags_get p "kriminalamt" None)) as [delay|e];
    [|cbn; rewrite elem_of_nil; intuition discriminate].
  destruct (participant p), (creator (chat p)), (admin_rights (chat p)),
    (Tags.equals (tags_get p "gbancmd" (Some (TagStr "manual"))) "manual"),
    (tags_get p "gbancmd" (Some (TagStr "manual"))),
    (messages_total p <=? 5)%Z;
    cbn; rewrite ?elem_of_cons, ?elem_of_nil;
    (split; [intuition congruence | intros (? & ? & ? & -> & ->); auto 8; discriminate]).
Qed.

(** X15.  [kriminalamt] deletes at most once, and only with rights in the
    chat after it found the user gone: then it deletes the history of the user
    when the chat holds at most five messages of theirs, and the event
    otherwise; in every other run, also in one that raises because the delay
    could not be read, it deletes nothing. *)
Theorem kriminalamt_deletes_once (p : Platform) (event : ChatAction) :
  deletions (trace (kriminalamt p event)) =
  (if found_gone p event && has_rights (chat p)
   then [if (messages_total p <=? 5)%Z
         then DeleteUserHistory (id (chat p)) (user_id event)
         else DeleteEvent]
   else []).
Proof.
  unfold kriminalamt, found_gone, has_rights. cbv zeta.
  destruct (user_joined event),
    (Tags.truthy (tags_get p "kriminalamt" None)), (bot (user p));
    cbn [negb orb andb mret Handler_ret trace fst]; try reflexivity.
  destruct (delay_of (tags_get p "kriminalamt" None)) as [delay|e];
    [|reflexivity].
  destruct (participant p), (creator (chat p)), (admin_rights (chat p)),
    (Tags.equals (tags_get p "gbancmd" (Some (TagStr "manual"))) "manual"),
    (tags_get p "gbancmd" (Some (TagStr "manual"))),
    (messages_total p <=? 5)%Z; reflexivity.
Qed.

(** X16.  A [kriminalamt] tag given as a string of digits counts as the
    number it spells: for a number above 0 the run is the same as with the
    number itself.  At 0 the two part ways: the number 0 is false and leaves
    the handler off, the string ["0"] is true and makes it wait 0 seconds and
    ask for the membership of a joining account that is no bot. *)
Theorem kriminalamt_digit_string_tag (p : Platform) (event : ChatAction) (n : Z) :
  ((0 < n)%Z ->
   kriminalamt (with_lookup p (Some (TagStr (str_of_Z n))) "kriminalamt") event
   = kriminalamt (with_lookup p (Some (TagInt n)) "kriminalamt") event) /\
  kriminalamt (with_lookup p (Some (TagInt 0)) "kriminalamt") event = ([], Ret tt) /\
  (user_joined event = true -> bot (user p) = false ->
   exists rest : list Action,
     trace (kriminalamt (with_lookup p (Some (TagStr "0")) "kriminalamt") event)
     = Sleep (TagInt 0) :: GetParticipant (id (chat p)) :: rest).
Proof.
  split; [|split].
  - intros Hn. destruct (delay_of_digits n ltac:(lia)) as [Htrue Hdelay].
    unfold kriminalamt. cbv zeta.
    cbn [with_lookup tags_get chat user participant messages_total].
    rewrite String.eqb_refl.
    change ("gbancmd" =? "kriminalamt")%string with false. cbv iota.
    rewrite Htrue, Hdelay.
    change (Tags.truthy (Some (TagInt n))) with (negb (n =? 0)%Z).
    replace (n =? 0)%Z with false by (symmetry; apply Z.eqb_neq; lia).
    reflexivity.
  - unfold kriminalamt. cbv zeta. cbn [with_lookup tags_get].
    rewrite String.eqb_refl. now destruct (user_joined event).
  - intros Hjoin Hbot.
    destruct (kriminalamt_run (with_lookup p (Some (TagStr "0")) "kriminalamt")
                event (TagInt 0) Hjoin eq_refl Hbot eq_refl)
      as (rest & _ & Htrace & _).
    rewrite Htrace. eexists. reflexivity.
Qed.

Lemma kriminalamt_digit_string_tag_witness :
  kriminalamt (with_lookup (group ∅) (Some (TagStr "3")) "kriminalamt") join_of_42
  = kriminalamt (with_lookup (group ∅) (Some (TagInt 3)) "kriminalamt") join_of_42 /\
  exists rest : list Action,
    trace (kriminalamt (with_lookup (group ∅) (Some (TagStr "0")) "kriminalamt")
             join_of_42)
    = Sleep (TagInt 0) :: GetParticipant (-100) :: rest.
Proof.
  pose proof (kriminalamt_digit_string_tag (group ∅) join_of_42 3) as H.
  split.
  - apply (proj1 H). lia.
  - apply (proj2 (proj2 H)); reflexivity.
Defined.

(** [int] raises nothing but [ValueError]. *)
Lemma int_digits_raises (cs : list (option N)) (acc : Z) (e : Exn) :
  int_digits acc cs = Raise e -> e = ValueError.
Proof.
  revert acc. induction cs as [|[cp|] cs IH]; intros acc; cbn [int_digits].
  - discriminate.
  - destruct (decimal cp); [apply IH | now intros [= <-]].
  - now intros [= <-].
Qed.

Lemma int_of_str_raises (s : string) (e : Exn) :
  int_of_str s = Raise e -> e = ValueError.
Proof.
  unfold int_of_str. destruct (code_points s) as [|c cs].
  - now intros [= <-].
  - apply int_digits_raises.
Qed.

(** X28.  A [kriminalamt] tag that [isdigit] accepts and [int] cannot read
    stops the handler on every join of an account that is no bot: [int]
    raises [ValueError] before the handler waits, so nothing is asked, banned
    or deleted.  The superscript two is such a tag.  Decimal digits outside
    ASCII are read: the Arabic-Indic three gives a delay of 3. *)
Theorem kriminalamt_unreadable_tag (p : Platform) (event : ChatAction)
    (s : string) (e : Exn) :
  (user_joined event = true ->
   bot (user p) = false ->
   tags_get p "kriminalamt" None = Some (TagStr s) ->
   isdigit s = true ->
   int_of_str s = Raise e ->
   e = ValueError /\ kriminalamt p event = ([], Raise ValueError)) /\
  isdigit superscript_two = true /\
  int_of_str superscript_two = Raise ValueError /\
  delay_of (Some (TagStr arabic_three)) = Ret (TagInt 3).
Proof.
  split; [|repeat split].
  intros Hjoin Hbot Htag Hdigit Hint.
  assert (He : e = ValueError) by exact (int_of_str_raises s e Hint).
  subst e. split; [reflexivity|].
  apply kriminalamt_unreadable; try assumption.
  - rewrite Htag. destruct s; [discriminate Hdigit | reflexivity].
  - rewrite Htag. cbn [delay_of]. now rewrite Hdigit, Hint.
Qed.

Lemma kriminalamt_unreadable_tag_witness :
  kriminalamt (unbanned_group {[ "kriminalamt" := TagStr superscript_two ]}) join_of_42
  = ([], Raise ValueError).
Proof.
  refine (proj2 (proj1 (kriminalamt_unreadable_tag
                          (unbanned_group {[ "kriminalamt" := TagStr superscript_two ]})
                          join_of_42 superscript_two ValueError)
                   _ _ _ _ _)); vm_compute; reflexivity.
Defined.

(** ** [del] *)

Lemma NoDup_fmap_eq {A B : Type} (f : A -> B) (l : list A) (x y : A) :
  NoDup (f <$> l) -> x ∈ l -> y ∈ l -> f x = f y -> x = y.
Proof.
  induction l as [|a l IH]; intros Hnd Hx Hy Hf.
  - now apply not_elem_of_nil in Hx.
  - cbn in Hnd. apply NoDup_cons in Hnd as [Ha Hl].
    apply elem_of_cons in Hx as [->|Hx]; apply elem_of_cons in Hy as [->|Hy];
      try reflexivity.
    + exfalso. apply Ha. rewrite Hf. apply list_elem_of_fmap. eauto.
    + exfalso. apply Ha. rewrite <- Hf. apply list_elem_of_fmap. eauto.
    + now apply IH.
Qed.

Lemma NoDup_fmap_filter {A B : Type} (f : A -> B) (g : A -> bool) (l : list A) :
  NoDup (f <$> l) -> NoDup (f <$> List.filter g l).
Proof.
  induction l as [|a l IH]; intros Hnd; [exact Hnd|].
  cbn in Hnd. apply NoDup_cons in Hnd as [Ha Hl]. cbn.
  destruct (g a); [|now apply IH].
  cbn. apply NoDup_cons. split; [|now apply IH].
  intros Hin. apply Ha. apply list_elem_of_fmap in Hin as (y & -> & Hy).
  apply list_elem_of_fmap. exists y. split; [reflexivity|].
  apply list_elem_of_In in Hy. apply filter_In in Hy as [Hy _].
  now apply list_elem_of_In.
Qed.

(** In a blacklist with distinct keys and distinct values, deleting a
    document removes its value and no other. *)
Lemma values_delete_doc (c : AutobahnBlacklist) (d : BlacklistDoc) :
  NoDup (bl_key <$> bl_docs c) ->
  NoDup (values c) ->
  d ∈ bl_docs c ->
  values (delete_doc d c)
  = List.filter (fun v => negb (bool_decide (v = bl_string d))) (values c).
Proof.
  intros Hk Hv Hd. unfold values, delete_doc. cbn [bl_docs].
  assert (Hsame : forall x, x ∈ bl_docs c ->
            (bl_key x =? bl_key d)%N = bool_decide (bl_string x = bl_string d)).
  { intros x Hx. destruct (bl_key x =? bl_key d)%N eqn:E.
    - apply N.eqb_eq in E.
      rewrite (NoDup_fmap_eq bl_key (bl_docs c) x d Hk Hx Hd E).
      symmetry. now apply bool_decide_eq_true_2.
    - symmetry. apply bool_decide_eq_false_2. intros Hs.
      rewrite (NoDup_fmap_eq bl_string (bl_docs c) x d Hv Hx Hd Hs) in E.
      rewrite N.eqb_refl in E. discriminate E. }
  clear Hk Hv Hd. induction (bl_docs c) as [|x xs IH]; [reflexivity|].
  cbn. rewrite (Hsame x) by apply list_elem_of_here.
  rewrite <- IH by (intros y Hy; apply Hsame; now apply list_elem_of_further).
  now destruct (bool_decide (bl_string x = bl_string d)).
Qed.

Lemma NoDup_filter_bool {A : Type} (f : A -> bool) (l : list A) :
  NoDup l -> NoDup (List.filter f l).
Proof.
  intros H. rewrite <- (list_fmap_id (List.filter f l)).
  apply NoDup_fmap_filter. now rewrite list_fmap_id.
Qed.

Lemma filter_bool_twice {A : Type} (f g : A -> bool) (l : list A) :
  List.filter g (List.filter f l) = List.filter (fun x => f x && g x) l.
Proof.
  induction l as [|a l IH]; [reflexivity|]. cbn.
  destruct (f a); cbn; [|exact IH]. destruct (g a); now rewrite IH.
Qed.

Lemma filter_bool_ext_in {A : Type} (f g : A -> bool) (l : list A) :
  (forall x, x ∈ l -> f x = g x) -> List.filter f l = List.filter g l.
Proof.
  intros H. apply filter_ext_in. intros x Hx. apply H. now apply list_elem_of_In.
Qed.

Lemma filter_bool_all {A : Type} (f : A -> bool) (l : list A) :
  (forall x, x ∈ l -> f x = true) -> List.filter f l = l.
Proof.
  induction l as [|a l IH]; intros H; [reflexivity|]. cbn.
  rewrite (H a) by apply list_elem_of_here. f_equal. apply IH.
  intros x Hx. apply H. now apply list_elem_of_further.
Qed.

Lemma fetchFirstExample_nil (c : AutobahnBlacklist) (v : PyItem) :
  fetchFirstExample c (Some v) = [] <-> v ∉ values c.
Proof.
  rewrite <- fetchByExample_nil. unfold fetchFirstExample.
  destruct (fetchByExample c v); [tauto|]. cbn. split; discriminate.
Qed.

Lemma fetchFirstExample_cons (c : AutobahnBlacklist) (v : PyItem)
    (d : BlacklistDoc) (ds : list BlacklistDoc) :
  fetchFirstExample c (Some v) = d :: ds -> d ∈ bl_docs c /\ bl_string d = v.
Proof.
  unfold fetchFirstExample, fetchByExample. intros H.
  assert (Hin : In d (List.filter (matches v) (bl_docs c))).
  { destruct (List.filter (matches v) (bl_docs c)) as [|x xs];
      [discriminate H|]. cbn in H. injection H as -> _. now left. }
  apply filter_In in Hin as [Hin Hm]. split; [now apply list_elem_of_In|].
  unfold matches in Hm. now apply bool_decide_eq_true_1 in Hm.
Qed.

Lemma only_collection_refl (r : BlacklistRef) (db : ArangoDB) :
  only_collection r db db.
Proof. repeat split. Qed.

Lemma only_collection_put (r : BlacklistRef) (db0 db : ArangoDB)
    (c : AutobahnBlacklist) :
  only_collection r db0 db -> only_collection r db0 (with_collection db r c).
Proof.
  intros (Hc & Hb & Hr). split; [exact Hc|]. split; [exact Hb|].
  intros r' Hne. rewrite collection_with_collection_ne by exact Hne.
  now apply Hr.
Qed.

(** The loop of [del] for a type with a collection whose values are taken as
    they are given. *)
Lemma del_loop_values (client : Client) (t h : string) (r : BlacklistRef) :
  AUTOBAHN_TYPES !! t = Some h ->
  ab_collection_map !! h = Some r ->
  h <> "0x3" ->
  forall (items : list string) (db0 db : ArangoDB)
         (removed : list (option PyItem)),
    only_collection r db0 db ->
    NoDup (bl_key <$> bl_docs (collection db r)) ->
    NoDup (values (collection db r)) ->
    exists (db' : ArangoDB) (gone : list (option PyItem)),
      del_loop client t items removed db = (db', Ret (removed ++ gone)) /\
      only_collection r db0 db' /\
      NoDup (bl_key <$> bl_docs (collection db' r)) /\
      values (collection db' r)
      = List.filter (fun v => negb (bool_decide (v ∈ IStr <$> items)))
          (values (collection db r)) /\
      (length gone <= length items)%nat /\
      (forall x, x ∈ gone <->
                 exists item, item ∈ items /\ x = Some (IStr item) /\
                              IStr item ∈ values (collection db r)).
Proof.
  intros Ht Hr Hh items.
  assert (Hneq : (h =? "0x3")%string = false) by now apply String.eqb_neq.
  induction items as [|item rest IH]; intros db0 db removed Honly Hk Hv.
  - exists db, []. cbn [del_loop]. rewrite app_nil_r.
    split; [reflexivity|]. split; [exact Honly|]. split; [exact Hk|]. split.
    + symmetry. apply filter_bool_all. intros x _.
      apply negb_true_iff, bool_decide_eq_false_2, not_elem_of_nil.
    + split; [reflexivity|]. intros x. split; [intros Hx; now apply not_elem_of_nil in Hx|].
      intros (i & Hi & _). now apply not_elem_of_nil in Hi.
  - cbn [del_loop]. rewrite Ht. cbn [dict_get]. rewrite Hr, Hneq.
    unfold mbind, Cmd_bind, the_collection.
    destruct (fetchFirstExample (collection db r) (Some (IStr item)))
      as [|d ds] eqn:Hfirst.
    + apply fetchFirstExample_nil in Hfirst.
      destruct (IH db0 db removed Honly Hk Hv)
        as (db' & gone & Hrun & Honly' & Hk' & Hvals & Hlen & Hgone).
      exists db', gone. split; [exact Hrun|]. split; [exact Honly'|].
      split; [exact Hk'|]. split; [|split].
      * rewrite Hvals. apply filter_bool_ext_in. intros x Hx. f_equal.
        apply bool_decide_ext. rewrite fmap_cons, elem_of_cons.
        split; [tauto|]. intros [->|H]; [contradiction|exact H].
      * cbn [length]. lia.
      * intros x. rewrite Hgone. split.
        -- intros (i & Hi & Hx & Hin). exists i.
           split; [now apply list_elem_of_further|]. now split.
        -- intros (i & Hi & Hx & Hin). exists i.
           apply elem_of_cons in Hi as [->|Hi]; [contradiction|]. now split.
    + apply fetchFirstExample_cons in Hfirst as [Hd Hs].
      unfold put_collection. cbn [fst snd].
      set (c1 := delete_doc d (collection db r)).
      set (db1 := with_collection db r c1).
      assert (Hc1 : collection db1 r = c1) by apply collection_with_collection.
      assert (Hv1 : values c1
                = List.filter (fun v => negb (bool_decide (v = IStr item)))
                    (values (collection db r))).
      { unfold c1. rewrite values_delete_doc by assumption. now rewrite Hs. }
      assert (Hk1 : NoDup (bl_key <$> bl_docs c1))
        by (apply NoDup_fmap_filter; exact Hk).
      assert (Hnd1 : NoDup (values c1))
        by (rewrite Hv1; now apply NoDup_filter_bool).
      assert (Hin : IStr item ∈ values (collection db r)).
      { rewrite <- Hs. apply list_elem_of_fmap. eauto. }
      destruct (IH db0 db1 (removed ++ [Some (IStr item)])
                  (only_collection_put r db0 db c1 Honly))
        as (db' & gone & Hrun & Honly' & Hk' & Hvals & Hlen & Hgone);
        [now rewrite Hc1 | now rewrite Hc1 |].
      rewrite Hc1 in Hvals, Hgone.
      exists db', (Some (IStr item) :: gone).
      split; [rewrite Hrun; now rewrite <- app_assoc|].
      split; [exact Honly'|]. split; [exact Hk'|]. split; [|split].
      * rewrite Hvals, Hv1, filter_bool_twice. apply filter_bool_ext_in.
        intros x Hx. rewrite <- negb_orb. f_equal.
        rewrite fmap_cons.
        destruct (bool_decide (x = IStr item)) eqn:E1.
        -- apply bool_decide_eq_true_1 in E1 as ->. symmetry.
           apply bool_decide_eq_true_2, list_elem_of_here.
        -- apply bool_decide_eq_false_1 in E1. cbn [orb].
           apply bool_decide_ext. rewrite elem_of_cons. tauto.
      * cbn [length]. lia.
      * intros x. rewrite elem_of_cons, Hgone. split.
        -- intros [->|(i & Hi & Hx & Hi1)].
           ++ exists item. split; [apply list_elem_of_here|]. now split.
           ++ exists i. split; [now apply list_elem_of_further|].
              split; [exact Hx|]. rewrite Hv1 in Hi1.
              apply list_elem_of_In in Hi1. apply filter_In in Hi1 as [Hi1 _].
              now apply list_elem_of_In.
        -- intros (i & Hi & Hx & Hi0).
           apply elem_of_cons in Hi as [->|Hi]; [now left|].
           destruct (decide (i = item)) as [->|Hne]; [now left|].
           right. exists i. split; [exact Hi|]. split; [exact Hx|].
           rewrite Hv1. apply list_elem_of_In, filter_In.
           split; [now apply list_elem_of_In|].
           apply negb_true_iff, bool_decide_eq_false_2. congruence.
Qed.

(** X17.  [del] removes what it is given and nothing else.  For a type with a
    collection other than [channel], in a blacklist with distinct keys and
    distinct values: [del] returns; only that collection changes; afterwards
    it holds the values it held before without the given items, in their
    order; and the report lists, at most once per given item, exactly the
    given items that were stored. *)
Theorem del_removes_given_values (client : Client) (t h : string)
    (r : BlacklistRef) (items : list string) (db : ArangoDB) :
  AUTOBAHN_TYPES !! t = Some h ->
  ab_collection_map !! h = Some r ->
  h <> "0x3" ->
  NoDup (bl_key <$> bl_docs (collection db r)) ->
  NoDup (values (collection db r)) ->
  exists (db' : ArangoDB) (gone : list (option PyItem)),
    del_ client (t :: items) db = (db', Ret (t, gone)) /\
    only_collection r db db' /\
    values (collection db' r)
    = List.filter (fun v => negb (bool_decide (v ∈ IStr <$> items)))
        (values (collection db r)) /\
    (length gone <= length items)%nat /\
    (forall x, x ∈ gone <->
               exists item, item ∈ items /\ x = Some (IStr item) /\
                            IStr item ∈ values (collection db r)).
Proof.
  intros Ht Hr Hh Hk Hv.
  destruct (del_loop_values client t h r Ht Hr Hh items db db []
              (only_collection_refl r db) Hk Hv)
    as (db' & gone & Hrun & Honly & _ & Hvals & Hlen & Hgone).
  exists db', gone. unfold del_, mbind, Cmd_bind. rewrite Hrun. cbn [app].
  repeat (split; [first [reflexivity | assumption]|]). exact Hgone.
Qed.

Lemma del_removes_given_values_witness :
  exists (db' : ArangoDB) (gone : list (option PyItem)),
    del_ offline_client ["string"; "spam"; "ham"]
      (with_collection empty_db Ref_string spam_blacklist)
    = (db', Ret ("string", gone)) /\
    values (collection db' Ref_string) = [] /\
    (length gone <= 2)%nat.
Proof.
  destruct (del_removes_given_values offline_client "string" "0x1" Ref_string
              ["spam"; "ham"] (with_collection empty_db Ref_string spam_blacklist)
              eq_refl eq_refl)
    as (db' & gone & Hrun & _ & Hvals & Hlen & _).
  - discriminate.
  - apply NoDup_singleton.
  - apply NoDup_singleton.
  - exists db', gone. split; [exact Hrun|]. split; [exact Hvals|exact Hlen].
Defined.

(** X18.  [del] for a type without a collection (a name that is no type, or
    [filename]) skips every item: the database is unchanged and the report
    lists nothing; without arguments [del] raises [IndexError], also without
    a change. *)
Theorem del_without_collection (client : Client) (t : string)
    (items : list string) (db : ArangoDB) :
  dict_get ab_collection_map (AUTOBAHN_TYPES !! t) = None ->
  del_ client (t :: items) db = (db, Ret (t, [])) /\
  del_ client [] db = (db, Raise IndexError).
Proof.
  intros Hnone. split; [|reflexivity].
  assert (Hloop : forall removed,
            del_loop client t items removed db = (db, Ret removed)).
  { induction items as [|item rest IH]; intros removed; [reflexivity|].
    cbn [del_loop].
    destruct (AUTOBAHN_TYPES !! t) as [h|]; [|apply IH].
    cbn [dict_get] in Hnone |- *. rewrite Hnone. apply IH. }
  unfold del_, mbind, Cmd_bind. now rewrite Hloop.
Qed.

Lemma del_without_collection_witness :
  del_ offline_client ["filename"; "evil.exe"] empty_db
  = (empty_db, Ret ("filename", [])).
Proof.
  apply (del_without_collection offline_client "filename" ["evil.exe"] empty_db).
  reflexivity.
Defined.

(** [add] with one item that normalises to a value: the database after it. *)
Lemma add_one_item (client : Client) (msg : Message) (t h item : string)
    (r : BlacklistRef) (it : PyItem) (db : ArangoDB) :
  AUTOBAHN_TYPES !! t = Some h ->
  ab_collection_map !! h = Some r ->
  normalise client h item = Keep (Some it) ->
  fst (add client msg [t; item] db)
  = match store_item it (collection db r) with
    | (c', Ret Added) => with_collection db r c'
    | (_, _) => db
    end.
Proof.
  intros Ht Hr Hnorm. rewrite add_is_loop. cbv zeta. rewrite Ht.
  cbn [dict_get]. rewrite Hr. cbn [add_loop].
  unfold mbind, Cmd_bind, add_step. rewrite Hnorm.
  unfold store_shown, mbind, Cmd_bind, the_collection.
  now destruct (store_item it (collection db r)) as [c' [[]|e]].
Qed.

(** X19.  [del] undoes [add] only for values stored as they are given.  In a
    well-formed blacklist of a type other than [channel], after [add] and then
    [del] with the same item, for an item whose stored form is not empty (the
    validation refuses the empty string: [add] raises and stores nothing):
    when [add] stores the item as it is, the collection holds what it held
    before without that item, and [del] reports the item once; when [add]
    stores a normalised form that differs from the item (a domain in
    capitals, a top-level domain with a dot), that form is still stored after
    [del]. *)
Theorem add_then_del (client : Client) (msg : Message) (t h item s : string)
    (r : BlacklistRef) (db : ArangoDB) :
  AUTOBAHN_TYPES !! t = Some h ->
  ab_collection_map !! h = Some r ->
  h <> "0x3" ->
  normalise client h item = Keep (Some (IStr s)) ->
  s <> "" ->
  keys_ordered (collection db r) ->
  NoDup (values (collection db r)) ->
  let db1 := fst (add client msg [t; item] db) in
  let db2 := fst (del_ client [t; item] db1) in
  only_collection r db db2 /\
  (s = item ->
   values (collection db2 r)
   = List.filter (fun v => negb (bool_decide (v = IStr item)))
       (values (collection db r)) /\
   snd (del_ client [t; item] db1) = Ret (t, [Some (IStr item)])) /\
  (s <> item -> IStr s ∈ values (collection db2 r)).
Proof.
  intros Ht Hr Hh Hnorm Hs Hk Hv db1 db2.
  assert (Hvalid : not_null (Some (IStr s)) = true).
  { cbn. apply negb_true_iff, String.eqb_neq, Hs. }
  set (c := collection db r) in *.
  assert (H1 : only_collection r db db1 /\
               keys_ordered (collection db1 r) /\
               NoDup (values (collection db1 r)) /\
               IStr s ∈ values (collection db1 r) /\
               values (collection db1 r)
               = values c ++ (if bool_decide (IStr s ∈ values c)
                              then [] else [IStr s])).
  { unfold db1. rewrite (add_one_item client msg t h item r (IStr s) db Ht Hr Hnorm).
    fold c. destruct (decide (IStr s ∈ values c)) as [Hin|Hout].
    - rewrite store_item_present
        by (intros E; apply fetchByExample_nil in E; contradiction).
      rewrite bool_decide_eq_true_2 by exact Hin. rewrite app_nil_r.
      split; [apply only_collection_refl|]. fold c.
      split; [exact Hk|]. split; [exact Hv|]. split; [exact Hin|reflexivity].
    - rewrite store_item_absent by assumption.
      rewrite bool_decide_eq_false_2 by exact Hout.
      rewrite collection_with_collection, values_add_item by exact Hvalid.
      split; [apply only_collection_put, only_collection_refl|].
      split; [now apply keys_ordered_add_item|].
      split; [|split; [|reflexivity]].
      + apply NoDup_app. split; [exact Hv|]. split; [|apply NoDup_singleton].
        intros x Hx Hx'. apply list_elem_of_singleton in Hx' as ->. contradiction.
      + apply elem_of_app. right. apply list_elem_of_here. }
  destruct H1 as (Honly1 & [Hk1 _] & Hv1 & Hin1 & Hvals1).
  destruct (del_loop_values client t h r Ht Hr Hh [item] db db1 [] Honly1 Hk1 Hv1)
    as (db' & gone & Hrun & Honly & _ & Hvals & Hlen & Hgone).
  assert (Hdel : del_ client [t; item] db1 = (db', Ret (t, gone))).
  { unfold del_, mbind, Cmd_bind. now rewrite Hrun. }
  unfold db2. rewrite Hdel. cbn [fst snd].
  split; [exact Honly|]. split.
  - intros ->. split.
    + rewrite Hvals, Hvals1, List.filter_app.
      rewrite (filter_bool_ext_in _
                 (fun v => negb (bool_decide (v = IStr item))) (values c)).
      2:{ intros x _. f_equal. apply bool_decide_ext.
          cbn. rewrite list_elem_of_singleton. tauto. }
      destruct (bool_decide (IStr item ∈ values c)); cbn [List.filter];
        [now rewrite app_nil_r|].
      rewrite bool_decide_eq_true_2 by (cbn; apply list_elem_of_here).
      cbn. now rewrite app_nil_r.
    + assert (Hx : Some (IStr item) ∈ gone).
      { apply Hgone. exists item. split; [apply list_elem_of_here|]. now split. }
      destruct gone as [|x [|y rest]]; cbn in Hlen.
      * now apply not_elem_of_nil in Hx.
      * apply list_elem_of_singleton in Hx as <-. reflexivity.
      * lia.
  - intros Hne. rewrite Hvals. apply list_elem_of_In, filter_In.
    split; [now apply list_elem_of_In|].
    apply negb_true_iff, bool_decide_eq_false_2. cbn.
    rewrite list_elem_of_singleton. congruence.
Qed.

Lemma add_then_del_witness :
  values (collection
            (fst (del_ offline_client ["string"; "spam"]
                    (fst (add offline_client plain_message ["string"; "spam"]
                            empty_db))))
            Ref_string) = [] /\
  IStr "com" ∈ values (collection
                         (fst (del_ offline_client ["tld"; ".com"]
                                 (fst (add offline_client plain_message
                                         ["tld"; ".com"] empty_db))))
                         Ref_tld).
Proof.
  assert (Hempty : forall r, keys_ordered (collection empty_db r) /\
                             NoDup (values (collection empty_db r))).
  { intros r. destruct r; (split; [apply empty_blacklist_ordered | constructor]). }
  split.
  - refine (proj1 (proj1 (proj2 (add_then_del offline_client plain_message
                                   "string" "0x1" "spam" "spam" Ref_string empty_db
                                   eq_refl eq_refl _ eq_refl _
                                   (proj1 (Hempty Ref_string))
                                   (proj2 (Hempty Ref_string)))) eq_refl));
      discriminate.
  - refine (proj2 (proj2 (add_then_del offline_client plain_message
                            "tld" "0x7" ".com" "com" Ref_tld empty_db
                            eq_refl eq_refl _ eq_refl _
                            (proj1 (Hempty Ref_tld))
                            (proj2 (Hempty Ref_tld)))) _); discriminate.
Defined.

(** ** [query] *)

Lemma join_strings_raises (docs : list BlacklistDoc) (e : Exn) :
  join_strings docs = Raise e <->
  e = TypeError /\ exists z : Z, IInt z ∈ (bl_string <$> docs).
Proof.
  revert e. induction docs as [|d rest IH]; intros e; cbn [join_strings].
  - split; [discriminate|]. intros (_ & z & Hz). now apply not_elem_of_nil in Hz.
  - rewrite fmap_cons. destruct (bl_string d) as [s|z] eqn:Hd.
    + destruct (join_strings rest) as [tl|e'] eqn:Hrest.
      * split; [discriminate|]. intros (He & z & Hz).
        apply elem_of_cons in Hz as [Hz|Hz]; [discriminate Hz|].
        assert (H : Ret tl = Raise e) by (apply IH; eauto). discriminate H.
      * destruct (proj1 (IH e') eq_refl) as (-> & z & Hz). split.
        -- intros H. injection H as <-. split; [reflexivity|]. exists z.
           now apply list_elem_of_further.
        -- now intros (-> & _).
    + split.
      * intros H. injection H as <-. split; [reflexivity|]. exists z.
        apply list_elem_of_here.
      * intros (-> & _). reflexivity.
Qed.

Lemma fetchDocument_raises (c : AutobahnBlacklist) (k : Z) (e : Exn) :
  fetchDocument c k = Raise e <->
  e = DocumentNotFoundError /\
  forall d, d ∈ bl_docs c -> Z.of_N (bl_key d) <> k.
Proof.
  split.
  - unfold fetchDocument.
    destruct (find (fun d => (Z.of_N (bl_key d) =? k)%Z) (bl_docs c)) eqn:E;
      [discriminate|].
    intros H. injection H as <-. split; [reflexivity|]. intros d Hd.
    apply list_elem_of_In in Hd.
    pose proof (find_none _ _ E d Hd) as Hne. now apply Z.eqb_neq in Hne.
  - intros (-> & H). now apply fetchDocument_missing.
Qed.

(** X20.  [query] never changes the database, and it raises in four
    situations only: [AttributeError] without a type and without a code;
    [KeyError] for a type without a collection (a name that is no type, or
    [filename]); [TypeError] when the whole list is asked for, it has more
    than 100 documents and one of them holds a number (the ids of the channel
    blacklist), since the values are then joined as strings; and
    [DocumentNotFoundError] for a single code no document has.  A range or
    list of codes never raises. *)
Theorem query_raises_iff (kwargs : Kwargs) (db : ArangoDB) :
  fst (query kwargs db) = db /\
  forall e : Exn,
    snd (query kwargs db) = Raise e <->
    match kw_type kwargs with
    | None => kw_code kwargs = None /\ e = AttributeError
    | Some t =>
        match dict_get ab_collection_map (AUTOBAHN_TYPES !! t) with
        | None => e = KeyError
        | Some r =>
            match kw_code kwargs with
            | None =>
                e = TypeError /\
                (100 < length (values (collection db r)))%nat /\
                exists z : Z, IInt z ∈ values (collection db r)
            | Some (CodeInt k) =>
                e = DocumentNotFoundError /\
                forall d, d ∈ bl_docs (collection db r) -> Z.of_N (bl_key d) <> k
            | Some _ => False
            end
        end
    end.
Proof.
  destruct kwargs as [[t|] code]; unfold query; cbn [kw_type kw_code];
    unfold mbind, Cmd_bind, lift, dict_item, mret, Cmd_ret.
  - destruct (dict_get ab_collection_map (AUTOBAHN_TYPES !! t)) as [r|] eqn:Hr.
    + destruct (AUTOBAHN_TYPES !! t) as [h|]; [|discriminate Hr].
      cbn [need_collection the_collection]. unfold mret, Cmd_ret.
      destruct code as [[k|l|]|].
      * destruct (fetchDocument (collection db r) k) as [d|e'] eqn:Hf.
        -- split; [reflexivity|]. intros e. cbn [snd]. split; [discriminate|].
           intros H. apply fetchDocument_raises in H. now rewrite Hf in H.
        -- split; [reflexivity|]. intros e. cbn [snd]. split.
           ++ intros H. injection H as <-. now apply fetchDocument_raises.
           ++ intros H. apply fetchDocument_raises in H. rewrite Hf in H.
              now injection H as ->.
      * split; [reflexivity|]. intros e. cbn [snd]. split; [discriminate|tauto].
      * split; [reflexivity|]. intros e. cbn [snd]. split; [discriminate|tauto].
      * unfold fetchAll, values. rewrite length_fmap.
        destruct (100 <? length (bl_docs (collection db r)))%nat eqn:Hlen;
          cbn [negb].
        -- apply Nat.ltb_lt in Hlen.
           destruct (join_strings (bl_docs (collection db r))) as [s|e'] eqn:Hj.
           ++ split; [reflexivity|]. intros e. cbn [snd]. split; [discriminate|].
              intros (He & _ & Hz).
              assert (H : join_strings (bl_docs (collection db r)) = Raise e)
                by (apply join_strings_raises; eauto).
              rewrite Hj in H. discriminate H.
           ++ split; [reflexivity|]. intros e. cbn [snd].
              apply join_strings_raises in Hj as Hj'. split.
              ** intros H. injection H as <-. tauto.
              ** intros (-> & _). now destruct Hj' as [-> _].
        -- apply Nat.ltb_ge in Hlen. split; [reflexivity|]. intros e. cbn [snd].
           split; [discriminate|]. intros (_ & H & _). lia.
    + split; [reflexivity|]. intros e. cbn [snd]. split; congruence.
  - destruct code as [c|]; cbn [need_collection]; (split; [reflexivity|]);
      intros e; cbn [snd AutobahnMgr.raise].
    + split; [discriminate|]. intros [H _]. discriminate H.
    + split; [|now intros [_ ->]]. intros H. injection H as <-. now split.
Qed.

Lemma docs_with_key (c : AutobahnBlacklist) (k : Z) :
  docs_with_keys c [str_of_Z k]
  = List.filter (fun d => (Z.of_N (bl_key d) =? k)%Z) (bl_docs c).
Proof.
  unfold docs_with_keys. apply filter_ext. intros d.
  destruct (Z.of_N (bl_key d) =? k)%Z eqn:E.
  - apply Z.eqb_eq in E. rewrite E. apply bool_decide_eq_true_2, list_elem_of_here.
  - apply Z.eqb_neq in E. apply bool_decide_eq_false_2.
    rewrite list_elem_of_singleton. intros H. now apply str_of_Z_inj in H.
Qed.

Lemma filter_bool_none {A : Type} (f : A -> bool) (l : list A) :
  (forall x, x ∈ l -> f x = false) -> List.filter f l = [].
Proof.
  induction l as [|a l IH]; intros H; [reflexivity|]. cbn.
  rewrite (H a) by apply list_elem_of_here. apply IH.
  intros x Hx. apply H. now apply list_elem_of_further.
Qed.

Lemma filter_key_found (docs : list BlacklistDoc) (d : BlacklistDoc) :
  NoDup (bl_key <$> docs) ->
  d ∈ docs ->
  List.filter (fun d' => (Z.of_N (bl_key d') =? Z.of_N (bl_key d))%Z) docs = [d].
Proof.
  induction docs as [|x xs IH]; intros Hnd Hin.
  - now apply not_elem_of_nil in Hin.
  - cbn in Hnd. apply NoDup_cons in Hnd as [Hx Hxs]. cbn.
    destruct (Z.of_N (bl_key x) =? Z.of_N (bl_key d))%Z eqn:E.
    + apply Z.eqb_eq, N2Z.inj in E.
      assert (x = d) as ->.
      { apply elem_of_cons in Hin as [->|Hin]; [reflexivity|].
        exfalso. apply Hx. rewrite E. apply list_elem_of_fmap. eauto. }
      f_equal. apply filter_bool_none. intros y Hy.
      apply Z.eqb_neq. intros Hk. apply N2Z.inj in Hk. apply Hx.
      rewrite <- Hk. apply list_elem_of_fmap. eauto.
    + apply elem_of_cons in Hin as [->|Hin].
      * rewrite Z.eqb_refl in E. discriminate E.
      * now apply IH.
Qed.

(** X21.  A single code and the range of that one code find the same
    document: in a collection with distinct keys, for a key in use [query]
    answers with the value of its document either way; for a key not in use
    the single code raises [DocumentNotFoundError] while the range answers
    with an empty list. *)
Theorem query_code_and_range (t h : string) (r : BlacklistRef) (k : Z)
    (db : ArangoDB) :
  AUTOBAHN_TYPES !! t = Some h ->
  ab_collection_map !! h = Some r ->
  NoDup (bl_key <$> bl_docs (collection db r)) ->
  let by_code := query {| kw_type := Some t; kw_code := Some (CodeInt k) |} db in
  let by_range := query {| kw_type := Some t; kw_code := Some (CodeSeq [k]) |} db in
  (forall d, d ∈ bl_docs (collection db r) -> Z.of_N (bl_key d) = k ->
     (exists title, by_code = (db, Ret (Some {| q_title := title;
                                               q_items := [Code (bl_string d)] |}))) /\
     (exists title, by_range = (db, Ret (Some {| q_title := title;
                                                q_items := [key_item d] |})))) /\
  ((forall d, d ∈ bl_docs (collection db r) -> Z.of_N (bl_key d) <> k) ->
     by_code = (db, Raise DocumentNotFoundError) /\
     (exists title, by_range = (db, Ret (Some {| q_title := title;
                                                q_items := [] |})))).
Proof.
  intros Ht Hr Hk by_code by_range.
  assert (Hcode : by_code
            = match fetchDocument (collection db r) k with
              | Ret d =>
                  (db, Ret (Some {| q_title := "Items for type: " +:+ t +:+
                                               "[" +:+ h +:+ "] code: " +:+ str_of_Z k;
                                    q_items := [Code (bl_string d)] |}))
              | Raise e => (db, Raise e)
              end).
  { unfold by_code, query. cbn [kw_type kw_code].
    unfold mbind, Cmd_bind, lift, dict_item. rewrite Ht. cbn [dict_get].
    rewrite Hr. cbn. now destruct (fetchDocument (collection db r) k). }
  assert (Hrange : by_range
            = (db, Ret (Some {| q_title := "Items for for type: " +:+ t +:+
                                           "[" +:+ h +:+ "]";
                                q_items := key_item <$>
                                  List.filter (fun d => (Z.of_N (bl_key d) =? k)%Z)
                                    (bl_docs (collection db r)) |}))).
  { unfold by_range, query. cbn [kw_type kw_code].
    unfold mbind, Cmd_bind, lift, dict_item. rewrite Ht. cbn [dict_get].
    rewrite Hr. cbn [need_collection the_collection mret Cmd_ret fmt].
    change (str_of_Z <$> [k]) with [str_of_Z k]. now rewrite docs_with_key. }
  rewrite Hcode, Hrange. split.
  - intros d Hd <-. rewrite (fetchDocument_found _ d Hk Hd).
    rewrite (filter_key_found _ d Hk Hd). split; eexists; reflexivity.
  - intros Hnone. rewrite (fetchDocument_missing _ k Hnone).
    rewrite filter_bool_none; [split; [reflexivity|eexists; reflexivity]|].
    intros d Hd. apply Z.eqb_neq. now apply Hnone.
Qed.

Lemma query_code_and_range_witness :
  (exists title,
     query {| kw_type := Some "string"; kw_code := Some (CodeInt 1) |}
       (with_collection empty_db Ref_string spam_blacklist)
     = (with_collection empty_db Ref_string spam_blacklist,
        Ret (Some {| q_title := title; q_items := [Code (IStr "spam")] |}))) /\
  query {| kw_type := Some "string"; kw_code := Some (CodeInt 7) |}
    (with_collection empty_db Ref_string spam_blacklist)
  = (with_collection empty_db Ref_string spam_blacklist,
     Raise DocumentNotFoundError).
Proof.
  assert (Hk : NoDup (bl_key <$> bl_docs spam_blacklist)) by apply NoDup_singleton.
  split.
  - apply (proj1 (query_code_and_range "string" "0x1" Ref_string 1
                    (with_collection empty_db Ref_string spam_blacklist)
                    eq_refl eq_refl Hk)
             {| bl_key := 1; bl_string := IStr "spam" |});
      [apply list_elem_of_here | reflexivity].
  - apply (proj2 (query_code_and_range "string" "0x1" Ref_string 7
                    (with_collection empty_db Ref_string spam_blacklist)
                    eq_refl eq_refl Hk)).
    intros d Hd. apply list_elem_of_singleton in Hd as ->. discriminate.
Defined.

(** ** [add] by reply *)

(** X22.  [add] warns about one thing only.  When its report carries a
    warning, the command was [add] with a type of code [0x6] ([mhash]) and no
    item, in reply to a message with a photo; the hash of the photo has more
    than eight zeros, was not in the blacklist before and is in it now, and
    the report lists it as added.  A hash already stored, or any other type,
    never warns. *)
Theorem add_warns_only_for_new_photo (client : Client) (msg : Message)
    (args : list string) (db db' : ArangoDB) (t : string) (l : Lists)
    (warn : string) :
  add client msg args db = (db', Ret (Report t l warn)) ->
  warn <> "" ->
  args = [t] /\
  AUTOBAHN_TYPES !! t = Some "0x6" /\
  exists photo_hash : string,
    is_reply msg = true /\
    reply_photo_hash msg = Some photo_hash /\
    (8 < count_char "0" photo_hash)%nat /\
    warn = warn_same_color /\
    added_items l = [IStr photo_hash] /\
    (IStr photo_hash ∉ values (collection db Ref_mhash)) /\
    IStr photo_hash ∈ values (collection db' Ref_mhash).
Proof.
  intros Hrun Hwarn. destruct args as [|t' [|item rest]].
  - discriminate Hrun.
  - unfold add in Hrun. cbn [add_loop no_items_given andb] in Hrun.
    unfold mbind, Cmd_bind, mret, Cmd_ret in Hrun.
    destruct (AUTOBAHN_TYPES !! t') as [h|] eqn:Ht; cbn [is_type] in Hrun.
    2:{ injection Hrun; intros; subst warn; exfalso; now apply Hwarn. }
    destruct (h =? "0x5") eqn:H5.
    { apply String.eqb_eq in H5 as ->.
      change ("0x5" =? "0x6") with false in Hrun.
      change (dict_get ab_collection_map (Some "0x5")) with (Some Ref_file) in Hrun.
      unfold add_file in Hrun.
      destruct (is_reply msg); [|discriminate Hrun].
      destruct (reply_file_hash msg) as [fh|]; [|discriminate Hrun].
      unfold mbind, Cmd_bind, mret, Cmd_ret, need_collection, store_shown,
        the_collection in Hrun.
      unfold mbind, Cmd_bind, mret, Cmd_ret in Hrun.
      destruct (store_item (IStr fh) (collection db Ref_file)) as [c' [[]|e]];
        cbn -[take_str] in Hrun; try discriminate Hrun;
        injection Hrun; intros; subst warn; exfalso; now apply Hwarn. }
    destruct (h =? "0x6") eqn:H6.
    2:{ injection Hrun; intros; subst warn; exfalso; now apply Hwarn. }
    apply String.eqb_eq in H6 as ->.
    change (dict_get ab_collection_map (Some "0x6")) with (Some Ref_mhash) in Hrun.
    unfold add_photo in Hrun.
    destruct (is_reply msg); [|discriminate Hrun].
    destruct (reply_photo_hash msg) as [ph|]; [|discriminate Hrun].
    unfold mbind, Cmd_bind, mret, Cmd_ret, need_collection, the_collection in Hrun.
    unfold mbind, Cmd_bind, mret, Cmd_ret in Hrun.
    destruct (store_item_cases (IStr ph) (collection db Ref_mhash))
      as [(Hout & Hv & Hs)|[(_ & _ & Hs)|(Hin & Hs)]]; rewrite Hs in Hrun;
      cbn -[Nat.ltb add_item] in Hrun.
    2:{ discriminate Hrun. }
    2:{ injection Hrun; intros; subst warn; exfalso; now apply Hwarn. }
    injection Hrun as <- <- <- Hw.
    destruct (8 <? count_char "0" ph)%nat eqn:E;
      [|congruence].
    apply Nat.ltb_lt in E.
    split; [reflexivity|]. split; [exact Ht|]. exists ph.
    repeat (split; [first [reflexivity | assumption | now symmetry]|]).
    rewrite collection_with_collection, values_add_item by exact Hv.
    apply elem_of_app. right. apply list_elem_of_here.
  - rewrite add_is_loop in Hrun. cbv zeta in Hrun.
    destruct (add_loop client (AUTOBAHN_TYPES !! t')
                (dict_get ab_collection_map (AUTOBAHN_TYPES !! t'))
                (item :: rest) no_items db) as [db1 [l1|e]];
      [|discriminate Hrun].
    injection Hrun; intros; subst warn; exfalso; now apply Hwarn.
Qed.

Lemma add_warns_only_for_new_photo_witness :
  exists photo_hash : string,
    reply_photo_hash photo_message = Some photo_hash /\
    (8 < count_char "0" photo_hash)%nat /\
    IStr photo_hash
    ∈ values (collection (fst (add offline_client photo_message ["mhash"] empty_db))
                Ref_mhash).
Proof.
  destruct (add_warns_only_for_new_photo offline_client photo_message ["mhash"]
              empty_db (fst (add offline_client photo_message ["mhash"] empty_db))
              "mhash" (add_added (IStr "0000000000ffff") no_items)
              warn_same_color eq_refl)
    as (_ & _ & ph & _ & Hph & Hcount & _ & _ & _ & Hin).
  - discriminate.
  - exists ph. split; [exact Hph|]. split; [exact Hcount|exact Hin].
Defined.

(** X23.  [add] for the type [file] without items takes the file of the
    message replied to.  Without a reply, or in reply to a message without a
    file, it answers with the error section and changes nothing.  Otherwise,
    for a hash that is not empty (as every digest is), it returns a report
    without a warning; only the file blacklist can have changed; the whole
    hash is stored while the report shows its first 15 characters followed by
    [[...]], as added when the hash was not stored yet and as existing, with
    the database unchanged, when it was.  (An empty hash that is not stored
    would be refused by the validation: [add] raises [InvalidDocument] and
    changes nothing.)  With items given, the message replied to plays no
    part. *)
Theorem add_file_by_reply (client : Client) (msg : Message) (db : ArangoDB) :
  (is_reply msg = false \/ reply_file_hash msg = None ->
   add client msg ["file"] db
   = (db, Ret (ErrorSection "Need to reply to a file"))) /\
  (forall file_hash : string,
     is_reply msg = true ->
     reply_file_hash msg = Some file_hash ->
     file_hash <> "" ->
     let shown := IStr (take_str 15 file_hash +:+ "[...]") in
     exists (db' : ArangoDB) (l : Lists),
       add client msg ["file"] db = (db', Ret (Report "file" l "")) /\
       only_collection Ref_file db db' /\
       IStr file_hash ∈ values (collection db' Ref_file) /\
       skipped_items l = [] /\
       (if bool_decide (IStr file_hash ∈ values (collection db Ref_file))
        then db' = db /\ added_items l = [] /\ existing_items l = [shown]
        else added_items l = [shown] /\ existing_items l = [])) /\
  (is_reply msg = true ->
   reply_file_hash msg = Some "" ->
   (IStr "" ∉ values (collection db Ref_file)) ->
   add client msg ["file"] db = (db, Raise InvalidDocument)) /\
  (forall (item : string) (rest : list string) (other : Message),
     add client msg ("file" :: item :: rest) db
     = add client other ("file" :: item :: rest) db).
Proof.
  split; [|split; [|split]].
  - intros H. unfold add. cbn [add_loop no_items_given andb].
    change (AUTOBAHN_TYPES !! "file") with (Some "0x5").
    change (dict_get ab_collection_map (Some "0x5")) with (Some Ref_file).
    cbn [is_type]. change ("0x5" =? "0x5") with true. cbv iota.
    unfold mbind, Cmd_bind, mret, Cmd_ret, add_file.
    destruct (is_reply msg); [|reflexivity].
    destruct H as [H| ->]; [discriminate H|reflexivity].
  - intros fh Hreply Hfile Hne shown. unfold add. cbn [add_loop no_items_given andb].
    change (AUTOBAHN_TYPES !! "file") with (Some "0x5").
    change (dict_get ab_collection_map (Some "0x5")) with (Some Ref_file).
    cbn [is_type]. change ("0x5" =? "0x5") with true.
    change ("0x5" =? "0x6") with false. cbv iota.
    unfold add_file. rewrite Hreply, Hfile.
    unfold mbind, Cmd_bind, mret, Cmd_ret, need_collection, store_shown,
      the_collection.
    unfold mbind, Cmd_bind, mret, Cmd_ret.
    destruct (store_item_cases (IStr fh) (collection db Ref_file))
      as [(Hout & Hv & Hs)|[(_ & Hv & _)|(Hin & Hs)]].
    + rewrite Hs; cbn -[take_str add_item].
      eexists _, _. split; [reflexivity|].
      split; [apply only_collection_put, only_collection_refl|].
      rewrite bool_decide_eq_false_2 by exact Hout.
      split; [|now repeat split].
      change (IStr fh ∈ values (fst (add_item (IStr fh) (ab_file_blacklist db)))).
      rewrite values_add_item by exact Hv.
      apply elem_of_app. right. apply list_elem_of_here.
    + exfalso. cbn in Hv. apply negb_false_iff, String.eqb_eq in Hv. contradiction.
    + rewrite Hs; cbn -[take_str add_item].
      eexists _, _. split; [reflexivity|].
      split; [apply only_collection_refl|].
      rewrite bool_decide_eq_true_2 by exact Hin.
      split; [exact Hin|]. now repeat split.
  - intros Hreply Hfile Hout. unfold add. cbn [add_loop no_items_given andb].
    change (AUTOBAHN_TYPES !! "file") with (Some "0x5").
    change (dict_get ab_collection_map (Some "0x5")) with (Some Ref_file).
    cbn [is_type]. change ("0x5" =? "0x5") with true. cbv iota.
    unfold add_file. rewrite Hreply, Hfile.
    unfold mbind, Cmd_bind, mret, Cmd_ret, need_collection, store_shown,
      the_collection.
    unfold mbind, Cmd_bind, mret, Cmd_ret.
    now rewrite (store_item_refused _ _ Hout eq_refl).
  - intros item rest other. now rewrite !add_is_loop.
Qed.

Lemma add_file_by_reply_witness :
  exists (db' : ArangoDB) (l : Lists),
    add offline_client photo_message ["file"] empty_db
    = (db', Ret (Report "file" l "")) /\
    IStr "0123456789abcdef0123" ∈ values (collection db' Ref_file) /\
    added_items l = [IStr "0123456789abcde[...]"].
Proof.
  destruct (proj1 (proj2 (add_file_by_reply offline_client photo_message empty_db))
              "0123456789abcdef0123" eq_refl eq_refl ltac:(discriminate))
    as (db' & l & Hrun & _ & Hin & _ & Hl).
  exists db', l. split; [exact Hrun|]. split; [exact Hin|].
  rewrite bool_decide_eq_false_2 in Hl by apply not_elem_of_nil.
  exact (proj1 Hl).
Defined.

(** ** [stats] *)

Lemma count_dialog_consistent (c : Stats.Counts) (d : Stats.Dialog) (n : Z) :
  consistent c n -> consistent (Stats.count_dialog c d) (n + 1).
Proof.
  unfold consistent. destruct c, d as [e um u].
  destruct e as [[] [] [] [rights|]|[]|[] [rights|]|];
    cbn; unfold Stats.bump, Stats.is_admin; cbn; lia.
Qed.

Lemma count_dialog_unread (c : Stats.Counts) (d : Stats.Dialog) :
  Stats.unread (Stats.count_dialog c d) = (Stats.unread c + Stats.unread_count d)%Z /\
  Stats.unread_mentions (Stats.count_dialog c d)
  = (Stats.unread_mentions c + Stats.unread_mentions_count d)%Z.
Proof.
  destruct c, d as [e um u].
  destruct e as [[] [] ? ?|?|? ?|]; split; reflexivity.
Qed.

Lemma fold_count_dialog (dialogs : list Stats.Dialog) :
  forall (c : Stats.Counts) (n : Z),
    consistent c n ->
    let c' := fold_left Stats.count_dialog dialogs c in
    consistent c' (n + Z.of_nat (length dialogs)) /\
    Stats.unread c' = (Stats.unread c + total Stats.unread_count dialogs)%Z /\
    Stats.unread_mentions c'
    = (Stats.unread_mentions c + total Stats.unread_mentions_count dialogs)%Z.
Proof.
  induction dialogs as [|d rest IH]; intros c n Hc; cbn [fold_left].
  - cbn. rewrite !Z.add_0_r. now split.
  - destruct (IH _ _ (count_dialog_consistent c d n Hc)) as (H1 & H2 & H3).
    destruct (count_dialog_unread c d) as [Hu Hm].
    cbv zeta. rewrite H2, H3, Hu, Hm. unfold total. cbn [length fmap list_fmap foldr].
    split; [|split; unfold total; lia].
    replace (n + Z.of_nat (S (length rest)))%Z
      with (n + 1 + Z.of_nat (length rest))%Z by lia.
    exact H1.
Qed.

(** X24.  The numbers of [stats] fit together for every list of dialogs: no
    counter is negative; the bots are among the private chats, the chats
    created among those administered and those among the groups or channels
    counted; no dialog is counted in two of private chats, groups and
    channels; the unread totals are the sums over all dialogs, whatever their
    kind.  So when no dialog has a negative unread count, every number of the
    response, also the three differences, is at least 0. *)
Theorem stats_numbers_consistent (dialogs : list Stats.Dialog) :
  let c := Stats.collect dialogs in
  consistent c (Z.of_nat (length dialogs)) /\
  Stats.unread c = total Stats.unread_count dialogs /\
  Stats.unread_mentions c = total Stats.unread_mentions_count dialogs /\
  ((forall d, d ∈ dialogs ->
      (0 <= Stats.unread_count d)%Z /\ (0 <= Stats.unread_mentions_count d)%Z) ->
   forall (label : string) (n : Z),
     (label, n) ∈ Stats.stats dialogs -> (0 <= n)%Z).
Proof.
  intros c.
  assert (H0 : consistent Stats.zero 0) by (unfold consistent; cbn; lia).
  destruct (fold_count_dialog dialogs Stats.zero 0 H0) as (Hc & Hu & Hm).
  fold (Stats.collect dialogs) in Hc, Hu, Hm. fold c in Hc, Hu, Hm.
  cbn [Stats.unread Stats.unread_mentions Stats.zero] in Hu, Hm.
  rewrite Z.add_0_l in Hc, Hu, Hm.
  split; [exact Hc|]. split; [exact Hu|]. split; [exact Hm|].
  intros Hpos label n Hin.
  assert (Htotal : forall f, (forall d, d ∈ dialogs -> (0 <= f d)%Z) ->
                             (0 <= total f dialogs)%Z).
  { intros f Hf. unfold total. clear -Hf.
    induction dialogs as [|d rest IH]; cbn; [lia|].
    assert (0 <= f d)%Z by (apply Hf, list_elem_of_here).
    assert (0 <= foldr Z.add 0 (f <$> rest))%Z
      by (apply IH; intros x Hx; apply Hf; now apply list_elem_of_further).
    lia. }
  assert (0 <= Stats.unread c)%Z
    by (rewrite Hu; apply Htotal; intros d Hd; now apply Hpos).
  assert (0 <= Stats.unread_mentions c)%Z
    by (rewrite Hm; apply Htotal; intros d Hd; now apply Hpos).
  unfold Stats.stats in Hin. fold c in Hin. cbv zeta in Hin.
  unfold consistent in Hc.
  repeat (apply elem_of_cons in Hin as [Hin|Hin];
          [injection Hin as -> ->; lia|]).
  now apply not_elem_of_nil in Hin.
Qed.

Lemma stats_numbers_consistent_witness :
  Stats.unread (Stats.collect two_dialogs) = 7%Z /\
  (0 <= Stats.private_chats (Stats.collect two_dialogs)
        - Stats.bots (Stats.collect two_dialogs))%Z.
Proof.
  destruct (stats_numbers_consistent two_dialogs) as (_ & Hu & _ & Hpos).
  split; [exact Hu|].
  apply (Hpos ltac:(intros d Hd;
                    repeat (apply elem_of_cons in Hd as [->|Hd]; [cbn; lia|]);
                    now apply not_elem_of_nil in Hd) "Users").
  apply list_elem_of_further, list_elem_of_here.
Defined.

(** ** [get_all] and [add_groups] *)

(** X25.  [get_all] maps the values of a blacklist to keys: a value has no
    entry exactly when no document holds it; with distinct values the entry of
    a value is the key of its document; and when several documents hold the
    value, its entry is the key of the last of them in the order of
    [fetchAll] (in the dict comprehension the later document wins). *)
Theorem get_all_lookup (c : AutobahnBlacklist) (v : PyItem) :
  (get_all c !! v = None <-> v ∉ values c) /\
  (NoDup (values c) ->
   forall k : N,
     get_all c !! v = Some k <-> {| bl_key := k; bl_string := v |} ∈ bl_docs c) /\
  (forall (before after : list BlacklistDoc) (k : N),
     bl_docs c = before ++ {| bl_key := k; bl_string := v |} :: after ->
     (v ∉ bl_string <$> after) ->
     get_all c !! v = Some k).
Proof.
  unfold get_all, fetchAll, values.
  set (pairs := (fun doc => (bl_string doc, bl_key doc)) <$> bl_docs c).
  assert (Hfst : (reverse pairs).*1 = reverse (bl_string <$> bl_docs c)).
  { unfold pairs. rewrite fmap_reverse, <- list_fmap_compose. reflexivity. }
  split; [|split].
  - rewrite <- not_elem_of_list_to_map, Hfst, elem_of_reverse. reflexivity.
  - intros Hnd k. rewrite <- elem_of_list_to_map
      by (rewrite Hfst, reverse_Permutation; exact Hnd).
    rewrite elem_of_reverse. unfold pairs. rewrite list_elem_of_fmap. split.
    + intros ([k' v'] & Heq & Hin). cbn in Heq. now injection Heq as -> ->.
    + intros Hin. eexists. split; [|exact Hin]. reflexivity.
  - intros before after k Hdocs Hafter. unfold pairs. rewrite Hdocs.
    rewrite fmap_app, reverse_app, fmap_cons, reverse_cons, <- app_assoc.
    rewrite list_to_map_app. cbn [app list_to_map foldr fst snd bl_string bl_key].
    rewrite lookup_union_r.
    + apply lookup_insert_eq.
    + apply not_elem_of_list_to_map.
      rewrite fmap_reverse, elem_of_reverse, <- list_fmap_compose. exact Hafter.
Qed.

Lemma get_all_lookup_witness :
  get_all spam_blacklist !! IStr "spam" = Some 1%N.
Proof.
  apply (proj1 (proj2 (get_all_lookup spam_blacklist (IStr "spam")))).
  - apply NoDup_singleton.
  - apply list_elem_of_here.
Defined.

(** X26.  [add_groups] files the chat of a message outside private chats and
    does nothing else: it never touches the ban list or a blacklist, every
    chat document that was there stays as it is (a known chat keeps its tags),
    the chat of the message has its document afterwards (a new one without
    tags when there was none), a second run changes nothing, and for a private
    message the database is left as it is. *)
Theorem add_groups_idempotent (event : NewMessage) (db : ArangoDB) :
  let db' := add_groups event db in
  add_groups event db' = db' /\
  banlist db' = banlist db /\
  (forall r : BlacklistRef, collection db' r = collection db r) /\
  (forall (k : string) (doc : ChatDoc),
     chats db !! k = Some doc -> chats db' !! k = Some doc) /\
  (if nm_is_private event then db' = db
   else chats db' !! str_of_Z (nm_chat_id event)
        = Some (match chats db !! str_of_Z (nm_chat_id event) with
                | Some doc => doc
                | None => {| chat_key := str_of_Z (nm_chat_id event);
                             chat_id := nm_chat_id event;
                             tags := [];
                             named_tags := ∅ |}
                end)).
Proof.
  unfold add_groups. destruct (nm_is_private event) eqn:Hp; cbv zeta.
  - repeat split; try reflexivity. auto.
  - unfold get_chat, add_chat. cbn [chat_key].
    destruct (chats db !! str_of_Z (nm_chat_id event)) as [doc|] eqn:Hdoc;
      cbn [fst with_chats chats banlist].
    + rewrite Hdoc. cbn [fst].
      split; [reflexivity|]. split; [reflexivity|].
      split; [now intros []|]. split; [auto|reflexivity].
    + rewrite lookup_insert_eq. cbn [fst].
      split; [reflexivity|]. split; [reflexivity|].
      split; [now intros []|]. split; [|reflexivity].
      intros k doc Hk. rewrite lookup_insert_ne; [exact Hk|]. congruence.
Qed.

Lemma add_groups_idempotent_witness :
  chats (add_groups {| nm_is_private := false; from_id := Some 42%Z;
                       nm_chat_id := -100 |}
           (with_chats empty_db {[ "-100" := group_doc {[ "polizei" := TagStr "exclude" ]} ]}))
    !! "-100"
  = Some (group_doc {[ "polizei" := TagStr "exclude" ]}).
Proof.
  apply (proj1 (proj2 (proj2 (proj2
           (add_groups_idempotent
              {| nm_is_private := false; from_id := Some 42%Z; nm_chat_id := -100 |}
              (with_chats empty_db
                 {[ "-100" := group_doc {[ "polizei" := TagStr "exclude" ]} ]})))))).
  reflexivity.
Defined.

(** ** The channel blacklist *)

Lemma normalise_channel (client : Client) (item : string) (it : PyItem) :
  normalise client "0x3" item = Keep (Some it) -> exists z : Z, it = IInt z.
Proof.
  change (normalise client "0x3" item)
    with (match resolve_invite_link client item with
          | Some chat_id => Keep (Some (IInt chat_id))
          | None =>
              match entity_name item with
              | Raise e => Fail e
              | Ret _item =>
                  match get_entity client _item with
                  | EntityError => Skip (Some (IStr _item))
                  | EntityFound (Some id) => Keep (Some (IInt id))
                  | EntityFound None => Keep None
                  end
              end
          end).
  destruct (resolve_invite_link client item) as [z|].
  - intros [= <-]. eauto.
  - destruct (entity_name item) as [name|e]; [|discriminate].
    destruct (get_entity client name) as [|[z|]]; try discriminate.
    intros [= <-]. eauto.
Qed.

(** X27.  The channel blacklist holds numbers, and the whole-list query
    cannot print them once there are many.  When every value of the channel
    blacklist is a number, it still is after [add] for the type [channel]
    with any items (links and names are stored as the id they resolve to,
    what does not resolve is skipped); and when that blacklist then has more
    than 100 documents, [query] for the type [channel] without a code raises
    [TypeError] and changes nothing. *)
Theorem channel_list_breaks_query (client : Client) (msg : Message)
    (items : list string) (db : ArangoDB) :
  let db' := fst (add client msg ("channel" :: items) db) in
  (forall v, v ∈ values (ab_channel_blacklist db) -> exists z : Z, v = IInt z) ->
  (forall v, v ∈ values (ab_channel_blacklist db') -> exists z : Z, v = IInt z) /\
  ((100 < length (values (ab_channel_blacklist db')))%nat ->
   query {| kw_type := Some "channel"; kw_code := None |} db'
   = (db', Raise TypeError)).
Proof.
  intros db' Hdb.
  set (Q := fun it : PyItem => exists z : Z, it = IInt z).
  set (I := fun d : ArangoDB => forall x, x ∈ values (ab_channel_blacklist d) -> Q x).
  assert (Hsurvive : survives_add I Q Ref_channel).
  { intros db1 it Hdb1 Hit Hv _ x Hx.
    change (ab_channel_blacklist (with_collection db1 Ref_channel
              (fst (add_item it (collection db1 Ref_channel)))))
      with (fst (add_item it (ab_channel_blacklist db1))) in Hx.
    rewrite values_add_item in Hx by exact Hv. apply elem_of_app in Hx as [Hx|Hx].
    - now apply Hdb1.
    - apply list_elem_of_singleton in Hx. now subst x. }
  assert (Hkeeps : keeps I (add client msg ("channel" :: items))).
  { unfold add. cbv zeta.
    change (AUTOBAHN_TYPES !! "channel") with (Some "0x3").
    change (dict_get ab_collection_map (Some "0x3")) with (Some Ref_channel).
    change (is_type (Some "0x3") "0x5") with false.
    change (is_type (Some "0x3") "0x6") with false.
    rewrite !andb_false_r.
    apply keeps_bind.
    - apply (keeps_add_loop I Q).
      + intros r [= <-]. exact Hsurvive.
      + intros h item it [= <-] _. apply normalise_channel.
    - intros l. apply keeps_bind; [apply keeps_ret|].
      intros [err|l1]; [apply keeps_ret|].
      apply keeps_bind; [apply keeps_ret|].
      intros [err|[l2 w]]; apply keeps_ret. }
  assert (Hdb' : I db') by (apply (Hkeeps db); exact Hdb).
  clearbody db'. split; [exact Hdb'|]. intros Hlen.
  unfold query. cbn [kw_type kw_code].
  change (AUTOBAHN_TYPES !! "channel") with (Some "0x3").
  unfold mbind, Cmd_bind, lift, dict_item.
  change (dict_get ab_collection_map (Some "0x3")) with (Some Ref_channel).
  cbn [need_collection the_collection mret Cmd_ret collection fetchAll].
  unfold values in Hlen. rewrite length_fmap in Hlen.
  apply Nat.ltb_lt in Hlen. unfold fetchAll. rewrite Hlen. cbn [negb].
  assert (Hjoin : join_strings (bl_docs (ab_channel_blacklist db')) = Raise TypeError).
  { apply join_strings_raises. split; [reflexivity|].
    apply Nat.ltb_lt in Hlen.
    destruct (bl_docs (ab_channel_blacklist db')) as [|d ds] eqn:Hdocs;
      [cbn in Hlen; lia|].
    destruct (Hdb' (bl_string d)) as [z Hz].
    { unfold values. rewrite Hdocs. apply list_elem_of_here. }
    exists z. rewrite <- Hz. apply list_elem_of_here. }
  now rewrite Hjoin.
Qed.

Lemma channel_list_breaks_query_witness :
  IInt 7 ∈ values (ab_channel_blacklist
                     (fst (add offline_client plain_message ["channel"; "@durov"]
                             (with_collection empty_db Ref_channel
                                (fst (add_item (IInt 7) empty_blacklist)))))) /\
  exists z : Z, IInt 7 = IInt z.
Proof.
  assert (Hin : IInt 7 ∈ values (ab_channel_blacklist
                     (fst (add offline_client plain_message ["channel"; "@durov"]
                             (with_collection empty_db Ref_channel
                                (fst (add_item (IInt 7) empty_blacklist)))))))
    by apply list_elem_of_here.
  split; [exact Hin|].
  refine (proj1 (channel_list_breaks_query offline_client plain_message ["@durov"]
                   (with_collection empty_db Ref_channel
                      (fst (add_item (IInt 7) empty_blacklist))) _) _ Hin).
  intros v Hv. apply list_elem_of_singleton in Hv as ->. eauto.
Defined.
